(** * Porsche listing pipeline: exchange rates, record cleaning, feature engineering

    A shallow embedding of
      - [elferspot_listings/utils/exchange_rates.py]
      - [elferspot_listings/data_processing/bronze_to_silver.py]
      - [elferspot_listings/data_processing/silver_to_gold.py]
    Python floats are IEEE binary64 values ([spec_float] with precision 53 and
    maximal exponent 1024), dictionaries are finite maps, the cache file and the
    clock are an explicit world threaded through the rate provider. *)

From Stdlib Require Import ZArith String Ascii List Bool Lia.
From Stdlib Require Import SpecFloat PrimFloat FloatOps.
From stdpp Require Import base option gmap strings list fin_maps.

Local Open Scope string_scope.
Set Warnings "-inexact-float".

(** ** Binary64 arithmetic *)

Module F64.

Definition float : Type := spec_float.

Definition prec : Z := 53.
Definition emax : Z := 1024.

Definition fadd (x y : float) : float := SFadd prec emax x y.
Definition fsub (x y : float) : float := SFsub prec emax x y.
Definition fmul (x y : float) : float := SFmul prec emax x y.
Definition fdiv (x y : float) : float := SFdiv prec emax x y.
Definition fsqrt (x : float) : float := SFsqrt prec emax x.

(** Python's [<], [<=], [>=] on floats: false as soon as one side is NaN. *)
Definition flt (x y : float) : bool := SFltb x y.
Definition fle (x y : float) : bool := SFleb x y.
Definition fge (x y : float) : bool := SFleb y x.

Definition nan : float := S754_nan.
Definition pinf : float := S754_infinity false.
Definition ninf : float := S754_infinity true.
Definition zero : float := S754_zero false.

Definition is_nan (x : float) : bool :=
  match x with S754_nan => true | _ => false end.

(** [float(z)] for an integer [z]: the nearest binary64 value, ties to even,
    an infinity beyond the range. *)
Definition of_Z (z : Z) : float := binary_normalize prec emax z 0 false.

(** A decimal literal of the source, read as Python reads it. *)
Definition lit (x : PrimFloat.float) : float := Prim2SF x.

Definition one : float := Eval vm_compute in lit 1.0%float.

(** [bool(x)] for a float: every value but the two zeros (NaN included). *)
Definition truthy (x : float) : bool :=
  match x with S754_zero _ => false | _ => true end.

(** A value that is not NaN and whose sign bit is clear. *)
Definition nonneg (x : float) : Prop :=
  match x with
  | S754_nan => False
  | S754_zero s | S754_infinity s | S754_finite s _ _ => s = false
  end.

End F64.

Export F64.

(** ** Rate provider and currency converter ([utils/exchange_rates.py]) *)

Module ExchangeRates.

(** [TTL_SECONDS = 24 * 3600] *)
Definition TTL_SECONDS : float := Eval vm_compute in of_Z (24 * 3600).

(** [STATIC_FALLBACK]: currency -> EUR multiplier. *)
Definition STATIC_FALLBACK : gmap string float :=
  <["EUR" := one]>
  (<["USD" := lit 0.8779%float]>
  (<["GBP" := lit 1.1870%float]>
  (<["JPY" := lit 0.006076%float]>
  (<["CHF" := lit 1.0660%float]> ∅)))).

(** What [json.load] finds in the cache file.  [Unreadable] stands for every
    content on which the body of [_load_cache] raises (invalid JSON, a
    top-level value that is not an object, a [ts] that is not a number): the
    [except] clause turns all of them into [{}].  An object may lack either
    key; [obj.get] then supplies [0] and [{}]. *)
Inductive cache_content : Type :=
| Unreadable
| CacheObj (ts : option float) (rates : option (gmap string float)).

(** The body of the service's answer as the [try] block sees it.  [NetError]
    stands for every exception raised before [_write_cache] is reached: a
    connection error, a timeout, a non-2xx status, a body that is not JSON, a
    rate that cannot divide [1.0].  In [NetOk] the map is
    [data.get('rates', {})]; a value [None] is a JSON [null]. *)
Inductive net_result : Type :=
| NetError
| NetOk (rates_base : gmap string (option float)).

(** How an attempt to write the cache file ends ([_write_cache] swallows every
    exception): the file is rewritten, or [mkdir]/[open] failed and it is as
    before, or [json.dump] failed after [open] truncated it. *)
Inductive write_outcome : Type := Written | Untouched | Truncated.

Record request : Type := { req_base : string; req_symbols : string }.

(** The world outside the interpreter: the cache file at [cache_path]
    ([None]: no such file), the successive readings of [time.time()], the
    service and the disk. *)
Record World : Type := {
  cache : option cache_content;
  clock : nat -> float;
  ticks : nat;
  network : request -> net_result;
  disk : write_outcome
}.

Definition M (A : Type) : Type := World -> A * World.

Definition ret {A} (a : A) : M A := fun w => (a, w).
Definition bind {A B} (m : M A) (k : A -> M B) : M B :=
  fun w => let '(a, w') := m w in k a w'.

Notation "x <- m ;; k" := (bind m (fun x => k))
  (at level 100, m at next level, right associativity).

(** [time.time()] *)
Definition time_time : M float :=
  fun w => (clock w (ticks w),
            {| cache := cache w; clock := clock w; ticks := S (ticks w);
               network := network w; disk := disk w |}).

Definition read_cache : M (option cache_content) := fun w => (cache w, w).

Definition set_cache (c : option cache_content) : M unit :=
  fun w => (tt, {| cache := c; clock := clock w; ticks := ticks w;
                   network := network w; disk := disk w |}).

Definition requests_get (r : request) : M net_result :=
  fun w => (network w r, w).

(** [bool(d)] for a dict. *)
Definition dict_truthy {V} (d : gmap string V) : bool :=
  negb (Nat.eqb (size d) 0).

Definition _load_cache : M (gmap string float) :=
  file <- read_cache ;;
  match file with
  | None => ret ∅
  | Some Unreadable => ret ∅
  | Some (CacheObj ts rates) =>
      now <- time_time ;;
      if flt (fsub now (default zero ts)) TTL_SECONDS
      then ret (default ∅ rates)
      else ret ∅
  end.

Definition _write_cache (rates : gmap string float) : M unit :=
  fun w =>
    match disk w with
    | Untouched => ret tt w
    | Truncated => set_cache (Some Unreadable) w
    | Written =>
        (now <- time_time ;;
         set_cache (Some (CacheObj (Some now) (Some rates)))) w
    end.

(** [','.join(symbols)] *)
Fixpoint join_comma (l : list string) : string :=
  match l with
  | [] => ""
  | [s] => s
  | s :: t => s ++ "," ++ join_comma t
  end.

(** [STATIC_FALLBACK.get(c, 1.0)] *)
Definition static_get (c : string) : float :=
  default one (STATIC_FALLBACK !! c).

(** One entry of the comprehension
    [(1.0 / rates_base[c]) if rates_base.get(c) else STATIC_FALLBACK.get(c, 1.0)]. *)
Definition invert_rate (c : string) (v : option float) : float :=
  match v with
  | Some x => if truthy x then fdiv one x else static_get c
  | None => static_get c
  end.

(** [symbols or ['USD', 'GBP', 'JPY', 'CHF']] *)
Definition symbols_or_default (symbols : list string) : list string :=
  match symbols with [] => ["USD"; "GBP"; "JPY"; "CHF"] | _ => symbols end.

Definition fetch_latest_rates (base : string) (symbols : list string)
    (use_cache : bool) : M (gmap string float) :=
  let symbols := symbols_or_default symbols in
  cached <- (if use_cache then _load_cache else ret ∅) ;;
  if dict_truthy cached then ret cached else
  r <- requests_get {| req_base := base; req_symbols := join_comma symbols |} ;;
  match r with
  | NetOk rates_base =>
      let rates_to_eur :=
        <["EUR" := one]> (map_imap (fun c v => Some (invert_rate c v)) rates_base) in
      _ <- _write_cache rates_to_eur ;;
      ret rates_to_eur
  | NetError =>
      cached <- _load_cache ;;
      if dict_truthy cached then ret cached else ret STATIC_FALLBACK
  end.

(** [convert_to_eur(amount, currency, rates=None)] *)
Definition convert_to_eur (amount : float) (currency : string)
    (rates : option (gmap string float)) : M float :=
  if String.eqb currency "EUR" then ret amount else
  rates <- match rates with
           | Some r => ret r
           | None => fetch_latest_rates "EUR" [] true
           end ;;
  let rate := default (static_get currency) (rates !! currency) in
  ret (fmul amount rate).

End ExchangeRates.


(** ** Exceptions and text *)

Module Py.

Inductive exn : Type :=
  ValueError | KeyError | TypeError | ZeroDivisionError | AttributeError.

Inductive result (A : Type) : Type :=
| Ok (a : A)
| Raise (e : exn).
Arguments Ok {A} a.
Arguments Raise {A} e.

Definition rbind {A B} (r : result A) (k : A -> result B) : result B :=
  match r with
  | Ok a => k a
  | Raise e => Raise e
  end.

(** An element-wise conversion of a column: the first failing cell raises. *)
Fixpoint traverse {A B} (f : A -> result B) (l : list A) : result (list B) :=
  match l with
  | [] => Ok []
  | a :: t =>
      rbind (f a) (fun b => rbind (traverse f t) (fun bs => Ok (b :: bs)))
  end.

End Py.

Export Py.

(** Text is Latin-1: a [string] is read as the sequence of the code points of
    a Python [str], each below 256.  On these, Python's [\d], [\s],
    [str.strip], [str.lower] and case-insensitive matching are the functions
    below; a [str] with a code point from 256 on has no counterpart here. *)
Module Text.

Definition code (c : ascii) : nat := nat_of_ascii c.

(** [\d] *)
Definition is_digit (c : ascii) : bool := (48 <=? code c)%nat && (code c <=? 57)%nat.

(** [[\d,]] *)
Definition is_num_char (c : ascii) : bool := is_digit c || Ascii.eqb c ",".

(** [\s] and [str.isspace]: space, [\t \n \v \f \r], the separators 0x1c
    to 0x1f, the next-line control 0x85 and the no-break space 0xa0. *)
Definition is_space (c : ascii) : bool :=
  (code c =? 32)%nat
  || ((9 <=? code c)%nat && (code c <=? 13)%nat)
  || ((28 <=? code c)%nat && (code c <=? 31)%nat)
  || (code c =? 133)%nat
  || (code c =? 160)%nat.

(** The upper-case letters: A to Z, and 0xc0 to 0xde but for the
    multiplication sign 0xd7.  Each has its lower-case form 32 places on. *)
Definition is_upper (c : ascii) : bool :=
  ((65 <=? code c)%nat && (code c <=? 90)%nat)
  || ((192 <=? code c)%nat && (code c <=? 222)%nat && negb (code c =? 215)%nat).

Definition lower_char (c : ascii) : ascii :=
  if is_upper c then ascii_of_nat (code c + 32) else c.

(** [s.lower()] *)
Fixpoint lower (s : string) : string :=
  match s with
  | EmptyString => EmptyString
  | String c t => String (lower_char c) (lower t)
  end.

(** [s.startswith(p)] *)
Fixpoint starts_with (p s : string) : bool :=
  match p, s with
  | EmptyString, _ => true
  | String a p', String b s' => Ascii.eqb a b && starts_with p' s'
  | String _ _, EmptyString => false
  end.

(** [p in s] *)
Fixpoint contains (p s : string) : bool :=
  starts_with p s ||
  match s with
  | EmptyString => false
  | String _ t => contains p t
  end.

(** The longest prefix of [s] made of characters in the class, and the rest. *)
Fixpoint span (cls : ascii -> bool) (s : string) : string * string :=
  match s with
  | EmptyString => (EmptyString, EmptyString)
  | String c t =>
      if cls c then let '(a, b) := span cls t in (String c a, b)
      else (EmptyString, s)
  end.

(** [re.match(r'([\d,]+)\s*(km|mi)', s)]: both quantifiers are greedy, and a
    shorter run can never be followed by what comes next in the pattern. *)
Definition match_mileage (s : string) : option (string * string) :=
  let '(num, rest) := span is_num_char s in
  match num with
  | EmptyString => None
  | _ =>
      let '(_, rest') := span is_space rest in
      if starts_with "km" rest' then Some (num, "km")
      else if starts_with "mi" rest' then Some (num, "mi")
      else None
  end.

(** [re.search]: the match at the leftmost position that has one. *)
Fixpoint search_mileage (s : string) : option (string * string) :=
  match match_mileage s with
  | Some r => Some r
  | None =>
      match s with
      | EmptyString => None
      | String _ t => search_mileage t
      end
  end.

(** [s.replace(",", "")] *)
Fixpoint remove_commas (s : string) : string :=
  match s with
  | EmptyString => EmptyString
  | String c t => if Ascii.eqb c "," then remove_commas t else String c (remove_commas t)
  end.

Fixpoint all_chars (cls : ascii -> bool) (s : string) : bool :=
  match s with
  | EmptyString => true
  | String c t => cls c && all_chars cls t
  end.

Fixpoint decimal_from (acc : Z) (s : string) : Z :=
  match s with
  | EmptyString => acc
  | String c t => decimal_from (10 * acc + Z.of_nat (code c - 48)) t
  end.

(** [float(s)] on the texts that reach it in this program, runs of the
    digits 0 to 9: the nearest binary64 value of the decimal number, and [ValueError]
    for the empty run. *)
Definition float_of_str (s : string) : result float :=
  match s with
  | EmptyString => Raise ValueError
  | _ => if all_chars is_digit s then Ok (of_Z (decimal_from 0 s)) else Raise ValueError
  end.

End Text.

(** ** Record cleaner ([data_processing/bronze_to_silver.py]) *)

Module BronzeToSilver.
Import Text.

(** A raw row, by the columns [clean_mileage] reads; [None] is a cell that
    holds no text: an empty cell (NaN) or a number. *)
Record RawRow : Type := {
  URL : option string;
  Mileage : option string;
  Condition : option string
}.

(** The row while [clean_mileage] runs: the two extracted columns are text. *)
Record Extracted : Type := {
  raw : RawRow;
  value_text : option string;
  unit_text : option string
}.

(** The row once [mileage_value] is a float column. *)
Record Numeric : Type := {
  n_raw : RawRow;
  n_value : float;
  n_unit : string
}.

(** The row that [clean_mileage] returns. *)
Record CleanRow : Type := {
  source : RawRow;
  mileage_value : float;
  mileage_unit : string;
  Mileage_km : float
}.

Definition KM_PER_MILE : float := Eval vm_compute in lit 1.60934%float.

(** [df["Mileage"].str.extract(r'([\d,]+)\s*(km|mi)', expand=True)] on one cell *)
Definition extract (cell : option string) : option string * option string :=
  match cell with
  | None => (None, None)
  | Some s =>
      match search_mileage s with
      | Some (num, unit) => (Some num, Some unit)
      | None => (None, None)
      end
  end.

(** [df["Condition"].str.contains("fully restored", case=False, na=False)] *)
Definition fully_restored (cell : option string) : bool :=
  match cell with
  | None => false
  | Some s => contains "fully restored" (lower s)
  end.

Definition isna {A} (cell : option A) : bool :=
  match cell with None => true | Some _ => false end.

Definition extract_row (r : RawRow) : Extracted :=
  {| raw := r; value_text := fst (extract (Mileage r)); unit_text := snd (extract (Mileage r)) |}.

(** [mask = isna(mileage_value) & contains(...); df.loc[mask, "mileage_value"] = "1"] *)
Definition synthesize (r : Extracted) : Extracted :=
  if isna (value_text r) && fully_restored (Condition (raw r))
  then {| raw := raw r; value_text := Some "1"; unit_text := unit_text r |}
  else r.

(** [df["mileage_unit"].fillna("km").replace("", "km")] *)
Definition fill_unit (cell : option string) : string :=
  match cell with
  | None => "km"
  | Some EmptyString => "km"
  | Some u => u
  end.

Definition fill_unit_row (r : Extracted) : Extracted :=
  {| raw := raw r; value_text := value_text r;
     unit_text := Some (fill_unit (unit_text r)) |}.

(** [df["mileage_value"].str.replace(",", "").astype(float)] on one row: a
    missing cell stays NaN, text goes through [float].  The unit column is
    filled by now, and [fill_unit] is the identity on it. *)
Definition to_numeric_row (r : Extracted) : result Numeric :=
  rbind (match value_text r with
         | None => Ok nan
         | Some v => float_of_str (remove_commas v)
         end)
        (fun x => Ok {| n_raw := raw r; n_value := x; n_unit := fill_unit (unit_text r) |}).

(** [df.loc[df["mileage_unit"] == "mi", "mileage_value"] *= 1.60934] *)
Definition miles_to_km (r : Numeric) : Numeric :=
  if String.eqb (n_unit r) "mi"
  then {| n_raw := n_raw r; n_value := fmul (n_value r) KM_PER_MILE; n_unit := n_unit r |}
  else r.

(** [df["Mileage_km"] = df["mileage_value"]] *)
Definition add_km (r : Numeric) : CleanRow :=
  {| source := n_raw r; mileage_value := n_value r; mileage_unit := n_unit r;
     Mileage_km := n_value r |}.

(** The dtype of a column as [pd.read_excel] leaves it: object when the
    sheet has no row or some cell of the column holds text, float64 (or
    another numeric dtype) when no cell does. *)
Definition is_object (column : list (option string)) : bool :=
  match column with
  | [] => true
  | _ => existsb (fun cell => negb (isna cell)) column
  end.

(** The steps of [clean_mileage] on the cells, once the [.str] accessor of
    both columns is there. *)
Definition clean_mileage_cells (df : list RawRow) : result (list CleanRow) :=
  let df := map extract_row df in
  let df := map synthesize df in
  let df := List.filter (fun r => negb (isna (value_text r))) df in
  let df := map fill_unit_row df in
  rbind (traverse to_numeric_row df) (fun df =>
  let df := map miles_to_km df in
  Ok (map add_km df)).

(** [clean_mileage] on a table whose columns [Mileage] and [Condition] have
    object dtype or not: [df["Mileage"].str] (line 28) and
    [df["Condition"].str] (line 34) raise [AttributeError] on a column that
    is not an object column, before any cell is converted. *)
Definition clean_mileage_typed (mileage_object condition_object : bool)
    (df : list RawRow) : result (list CleanRow) :=
  if mileage_object && condition_object then clean_mileage_cells df
  else Raise AttributeError.

(** [clean_mileage] on a table as [pd.read_excel] returns it. *)
Definition clean_mileage (df : list RawRow) : result (list CleanRow) :=
  clean_mileage_typed (is_object (map Mileage df)) (is_object (map Condition df)) df.

End BronzeToSilver.

(** ** Outlier filter and feature engineer ([data_processing/silver_to_gold.py]) *)

Module SilverToGold.
Import Text.

(** The columns this stage reads or writes.  Other columns of the table are
    left out: they pass through untouched, but for a column [log_<column>],
    which [remove_outliers] with [use_log] overwrites and drops. *)
Inductive Col : Type :=
| cMatching_numbers | cNumber_of_vehicle_owners | cInterior_color | cExterior_color
| cPTS | cIs_fully_restored | cMileage_km | cPrice_in_eur | cModel
| cLog_price | cLog_mileage | cMileage_sq | cModel_category | cListing_score.


#[global] Instance Col_eq_dec : EqDecision Col.
Proof. solve_decision. Defined.

(** A cell of a column that is int64 or float64 according to what was
    computed. *)
Inductive number : Type :=
| Int64 (z : Z)
| Float64 (x : float).

(** The cell as [float64], as numpy converts it. *)
Definition to_float (n : number) : float :=
  match n with Int64 z => of_Z z | Float64 x => x end.

(** One row, each column with the dtype the Bronze -> Silver stage gives it:
    text columns are object columns ([None] is NaN), the two flags and the
    score are int64 columns, the measures are float64 columns.  [Mileage_sq]
    has the dtype of the [Mileage_km] column that it is computed from, which
    [pd.read_excel] makes int64 when every cell holds an integer; the cells of
    that column are floats here also then. *)
Record Row : Type := {
  Matching_numbers : option string;
  Number_of_vehicle_owners : option string;
  Interior_color : option string;
  Exterior_color : option string;
  PTS : Z;
  is_fully_restored : Z;
  Mileage_km : float;
  price_in_eur : float;
  Model : option string;
  log_price : float;
  log_mileage : float;
  Mileage_sq : number;
  model_category : option string;
  listing_score : Z
}.

(** A table: the columns it has, and its rows.  A field of a row whose column
    is not among [columns] is never read. *)
Record DataFrame : Type := {
  columns : list Col;
  rows : list Row
}.

(** ['c' in df.columns] *)
Definition has_col (df : DataFrame) (c : Col) : bool := bool_decide (c ∈ columns df).

(** The columns after [df[c] = ...]: a new column goes last. *)
Definition add_col (c : Col) (cols : list Col) : list Col :=
  if bool_decide (c ∈ cols) then cols else cols ++ [c].

Definition wrap64 (z : Z) : Z := ((z + 2 ^ 63) mod 2 ^ 64 - 2 ^ 63)%Z.

(** The integer that a float is, when it is one. *)
Definition integral (x : float) : option Z :=
  match x with
  | S754_zero _ => Some 0%Z
  | S754_finite s m e =>
      let sign z := if s then (- z)%Z else z in
      if (0 <=? e)%Z then Some (sign (Zpos m * 2 ^ e)%Z)
      else if (Zpos m mod 2 ^ (- e) =? 0)%Z then Some (sign (Zpos m / 2 ^ (- e))%Z)
      else None
  | _ => None
  end.

(** The dtype of a column of numbers as [pd.read_excel] leaves it: int64 when
    the sheet has rows and every cell of the column holds an integer of the
    int64 range, float64 as soon as a cell is empty or holds another number.
    (Integers beyond that range are taken for floats.) *)
Definition is_int64 (column : list float) : bool :=
  match column with
  | [] => false
  | _ => forallb (fun x => match integral x with
                           | Some z => (- 2 ^ 63 <=? z)%Z && (z <? 2 ^ 63)%Z
                           | None => false
                           end) column
  end.

(** [df[c]] as numbers: a flag or score column is converted as numpy converts
    int64 to float64; [None] marks an object column. *)
Definition numeric (c : Col) : option (Row -> float) :=
  match c with
  | cPTS => Some (fun r => of_Z (PTS r))
  | cIs_fully_restored => Some (fun r => of_Z (is_fully_restored r))
  | cListing_score => Some (fun r => of_Z (listing_score r))
  | cMileage_km => Some Mileage_km
  | cPrice_in_eur => Some price_in_eur
  | cLog_price => Some log_price
  | cLog_mileage => Some log_mileage
  | cMileage_sq => Some (fun r => to_float (Mileage_sq r))
  | cMatching_numbers | cNumber_of_vehicle_owners | cInterior_color
  | cExterior_color | cModel | cModel_category => None
  end.

(** The reader behind [np.log(df[column])] and [df[column].mean()]:
    [KeyError] without the column.  On an object column that has rows, both
    raise [TypeError] at the text it holds; without rows there is nothing to
    convert, and mean and standard deviation are NaN. *)
Definition column_reader (df : DataFrame) (c : Col) : result (Row -> float) :=
  if has_col df c then
    match numeric c with
    | Some get => Ok get
    | None =>
        match rows df with
        | [] => Ok (fun _ => nan)
        | _ => Raise TypeError
        end
    end
  else Raise KeyError.

(** [Series.mean()] and [Series.std()] (ddof = 1), both skipping NaN, as
    pandas computes them with numpy alone: missing cells are set to zero and
    the column is summed by [add.reduce].  On a float64 column numpy sums
    pairwise: fewer than 8 values from left to right; up to 128 values in 8
    running sums, one for each position modulo 8, which are then added two
    by two, the values past the last full group of 8 being added at the end;
    more than 128 values by halves, the first half cut down to a multiple
    of 8.  The reduction starts from 0.0 (-0.0 in later versions of numpy,
    which changes the sign of a sum that is zero and nothing that a
    comparison sees). *)
Definition putmask_zero (vs : list float) : list float :=
  map (fun v => if is_nan v then zero else v) vs.

Definition count_notna (vs : list float) : nat :=
  length (List.filter (fun v => negb (is_nan v)) vs).

Inductive lanes : Type := Lanes (r0 r1 r2 r3 r4 r5 r6 r7 : float).

(** [for (i = 8; i < n - (n % 8); i += 8) r[j] += a[i + j]] *)
Fixpoint block_loop (r : lanes) (a : list float) : lanes * list float :=
  match a with
  | a0 :: a1 :: a2 :: a3 :: a4 :: a5 :: a6 :: a7 :: rest =>
      let 'Lanes r0 r1 r2 r3 r4 r5 r6 r7 := r in
      block_loop (Lanes (fadd r0 a0) (fadd r1 a1) (fadd r2 a2) (fadd r3 a3)
                        (fadd r4 a4) (fadd r5 a5) (fadd r6 a6) (fadd r7 a7)) rest
  | _ => (r, a)
  end.

(** [((r[0] + r[1]) + (r[2] + r[3])) + ((r[4] + r[5]) + (r[6] + r[7]))] *)
Definition add_lanes (r : lanes) : float :=
  let 'Lanes r0 r1 r2 r3 r4 r5 r6 r7 := r in
  fadd (fadd (fadd r0 r1) (fadd r2 r3)) (fadd (fadd r4 r5) (fadd r6 r7)).

(** The sum of at most 128 values. *)
Definition block_sum (a : list float) : float :=
  match a with
  | a0 :: a1 :: a2 :: a3 :: a4 :: a5 :: a6 :: a7 :: rest =>
      let '(r, tail) := block_loop (Lanes a0 a1 a2 a3 a4 a5 a6 a7) rest in
      fold_left fadd tail (add_lanes r)
  | _ => fold_left fadd a zero
  end.

(** [pairwise_sum]: [fuel] bounds the depth of the halving, and the length
    of the list is always enough. *)
Fixpoint pairwise_sum (fuel : nat) (a : list float) : float :=
  match fuel with
  | S fuel' =>
      let n := length a in
      if (128 <? n)%nat then
        let n2 := (n / 2 - (n / 2) mod 8)%nat in
        fadd (pairwise_sum fuel' (firstn n2 a)) (pairwise_sum fuel' (skipn n2 a))
      else block_sum a
  | O => block_sum a
  end.

(** [values.sum()] *)
Definition fsum (vs : list float) : float :=
  fadd zero (pairwise_sum (length vs) vs).

Definition series_mean (vs : list float) : float :=
  let count := count_notna vs in
  if (0 <? count)%nat
  then fdiv (fsum (putmask_zero vs)) (of_Z (Z.of_nat count))
  else nan.

Definition series_std (vs : list float) : float :=
  let count := count_notna vs in
  if (count <=? 1)%nat then nan else
  let avg := fdiv (fsum (putmask_zero vs)) (of_Z (Z.of_nat count)) in
  let sqr := map (fun v => if is_nan v then zero
                           else fmul (fsub avg v) (fsub avg v)) vs in
  fsqrt (fdiv (fsum sqr) (of_Z (Z.of_nat count - 1))).

Definition set_log_features (r : Row) (lp lm : float) (sq : number) : Row :=
  {| Matching_numbers := Matching_numbers r;
     Number_of_vehicle_owners := Number_of_vehicle_owners r;
     Interior_color := Interior_color r; Exterior_color := Exterior_color r;
     PTS := PTS r; is_fully_restored := is_fully_restored r;
     Mileage_km := Mileage_km r; price_in_eur := price_in_eur r; Model := Model r;
     log_price := lp; log_mileage := lm; Mileage_sq := sq;
     model_category := model_category r; listing_score := listing_score r |}.

Definition set_model_category (r : Row) (c : option string) : Row :=
  {| Matching_numbers := Matching_numbers r;
     Number_of_vehicle_owners := Number_of_vehicle_owners r;
     Interior_color := Interior_color r; Exterior_color := Exterior_color r;
     PTS := PTS r; is_fully_restored := is_fully_restored r;
     Mileage_km := Mileage_km r; price_in_eur := price_in_eur r; Model := Model r;
     log_price := log_price r; log_mileage := log_mileage r; Mileage_sq := Mileage_sq r;
     model_category := c; listing_score := listing_score r |}.

Definition set_listing_score (r : Row) (s : Z) : Row :=
  {| Matching_numbers := Matching_numbers r;
     Number_of_vehicle_owners := Number_of_vehicle_owners r;
     Interior_color := Interior_color r; Exterior_color := Exterior_color r;
     PTS := PTS r; is_fully_restored := is_fully_restored r;
     Mileage_km := Mileage_km r; price_in_eur := price_in_eur r; Model := Model r;
     log_price := log_price r; log_mileage := log_mileage r; Mileage_sq := Mileage_sq r;
     model_category := model_category r; listing_score := s |}.

Definition set_colors (r : Row) (i e : option string) : Row :=
  {| Matching_numbers := Matching_numbers r;
     Number_of_vehicle_owners := Number_of_vehicle_owners r;
     Interior_color := i; Exterior_color := e;
     PTS := PTS r; is_fully_restored := is_fully_restored r;
     Mileage_km := Mileage_km r; price_in_eur := price_in_eur r; Model := Model r;
     log_price := log_price r; log_mileage := log_mileage r; Mileage_sq := Mileage_sq r;
     model_category := model_category r; listing_score := listing_score r |}.

Definition minus_one : float := Eval vm_compute in lit (-1.0)%float.

Section Libm.

(** The two functions of the C library behind [np.log] and [np.log1p], on
    the arguments where the result is an ordinary number: the logarithm of the
    positive finite [m * 2^e], and [log1p] of a finite non-zero value above
    -1.  Everywhere else IEEE 754 fixes the result. *)
Variable ln_pos : positive -> Z -> float.
Variable log1p_fin : bool -> positive -> Z -> float.

(** [np.log]: a warning, never an exception. *)
Definition np_log (x : float) : float :=
  match x with
  | S754_nan => nan
  | S754_zero _ => ninf
  | S754_infinity false => pinf
  | S754_infinity true => nan
  | S754_finite true _ _ => nan
  | S754_finite false m e => ln_pos m e
  end.

(** [np.log1p] *)
Definition np_log1p (x : float) : float :=
  match x with
  | S754_nan => nan
  | S754_zero s => S754_zero s
  | S754_infinity false => pinf
  | S754_infinity true => nan
  | S754_finite s m e =>
      if flt x minus_one then nan
      else if SFeqb x minus_one then ninf
      else log1p_fin s m e
  end.

(** [remove_outliers].  With [use_log] the source first writes the column
    [log_<column>] of the table it is given and drops it from the copy it
    returns; no column of this stage bears such a name, so that among the
    columns of this stage the result has those of the argument. *)
Definition remove_outliers (df : DataFrame) (column : Col) (n_std : float)
    (use_log : bool) : result DataFrame :=
  let initial_count := length (rows df) in
  rbind (column_reader df column) (fun get =>
  let kept :=
    if use_log then
      (* df[log_col] = np.log(df[column]); the rows travel with the new cell *)
      let with_log := map (fun r => (r, np_log (get r))) (rows df) in
      let mean_val := series_mean (map snd with_log) in
      let std_val := series_std (map snd with_log) in
      let inside :=
        List.filter (fun rl => fge (snd rl) (fsub mean_val (fmul n_std std_val))
                               && fle (snd rl) (fadd mean_val (fmul n_std std_val)))
                    with_log in
      (* df.drop(columns=[log_col]) *)
      map fst inside
    else
      let mean_val := series_mean (map get (rows df)) in
      let std_val := series_std (map get (rows df)) in
      List.filter (fun r => fge (get r) (fsub mean_val (fmul n_std std_val))
                            && fle (get r) (fadd mean_val (fmul n_std std_val)))
                  (rows df) in
  (* removed/initial_count*100 in the log line *)
  if (initial_count =? 0)%nat then Raise ZeroDivisionError
  else Ok {| columns := columns df; rows := kept |}).

(** [df['Mileage_km'] ** 2] on one cell: numpy multiplies in the dtype of
    the column, and int64 wraps around. *)
Definition square (km_int64 : bool) (x : float) : number :=
  match (if km_int64 then integral x else None) with
  | Some z => Int64 (wrap64 (z * z))
  | None => Float64 (fmul x x)
  end.

(** [create_log_features] on a table whose column [Mileage_km] is int64 or
    not. *)
Definition create_log_features_typed (km_int64 : bool) (df : DataFrame) : DataFrame :=
  let df :=
    if has_col df cPrice_in_eur then
      {| columns := add_col cLog_price (columns df);
         rows := map (fun r => set_log_features r (np_log (price_in_eur r))
                                 (log_mileage r) (Mileage_sq r)) (rows df) |}
    else df in
  if has_col df cMileage_km then
    {| columns := add_col cMileage_sq (add_col cLog_mileage (columns df));
       rows := map (fun r => set_log_features r (log_price r)
                               (np_log1p (Mileage_km r))
                               (square km_int64 (Mileage_km r))) (rows df) |}
  else df.

(** [create_log_features] on a table as [pd.read_excel] returns it. *)
Definition create_log_features (df : DataFrame) : DataFrame :=
  create_log_features_typed (is_int64 (map Mileage_km (rows df))) df.

Definition model_mapping : list (string * string) :=
  [ ("911", "911"); ("912", "912"); ("914", "914"); ("924", "924");
    ("928", "928"); ("944", "944"); ("968", "968");
    ("Boxster", "Boxster"); ("Cayman", "Cayman");
    ("Carrera GT", "Supercar"); ("918", "Supercar");
    ("Cayenne", "SUV"); ("Macan", "SUV");
    ("Panamera", "Sedan"); ("Taycan", "Electric") ].

Fixpoint first_category (mapping : list (string * string)) (model : string) : string :=
  match mapping with
  | [] => "Other"
  | (key, category) :: rest =>
      if contains (lower key) (lower model) then category
      else first_category rest model
  end.

Definition categorize_model (model : option string) : string :=
  match model with
  | None => "Other"
  | Some m => first_category model_mapping m
  end.

Definition create_model_categories (df : DataFrame) : DataFrame :=
  if negb (has_col df cModel) then df
  else {| columns := add_col cModel_category (columns df);
          rows := map (fun r => set_model_category r (Some (categorize_model (Model r))))
                      (rows df) |}.

(** [df[c] != 'Unknown'] on an object cell: a missing cell differs too. *)
Definition not_unknown (cell : option string) : bool :=
  match cell with
  | Some s => negb (String.eqb s "Unknown")
  | None => true
  end.

Definition notna (cell : option string) : bool :=
  match cell with Some _ => true | None => false end.

(** The list [score_components], one int64 series per column that exists. *)
Definition score_components (df : DataFrame) : list (Row -> Z) :=
  (if has_col df cMatching_numbers
   then [fun r => wrap64 (Z.b2z (not_unknown (Matching_numbers r)) * 10)] else [])
  ++ (if has_col df cNumber_of_vehicle_owners
      then [fun r => wrap64 (Z.b2z (not_unknown (Number_of_vehicle_owners r)) * 10)] else [])
  ++ (if has_col df cInterior_color
      then [fun r => wrap64 (Z.b2z (notna (Interior_color r)) * 5)] else [])
  ++ (if has_col df cExterior_color
      then [fun r => wrap64 (Z.b2z (notna (Exterior_color r)) * 5)] else [])
  ++ (if has_col df cPTS
      then [fun r => wrap64 (PTS r * 15)] else [])
  ++ (if has_col df cIs_fully_restored
      then [fun r => wrap64 (is_fully_restored r * 20)] else [])
  ++ (if has_col df cMileage_km
      then [fun r => if flt (Mileage_km r) (of_Z 50000) then 10%Z else 0%Z] else []).

(** [pd.concat(score_components, axis=1).sum(axis=1)] on one row *)
Definition sum_axis1 (components : list (Row -> Z)) (r : Row) : Z :=
  fold_left (fun acc f => wrap64 (acc + f r)) components 0%Z.

Definition calculate_listing_score (df : DataFrame) : DataFrame :=
  let components := score_components df in
  {| columns := add_col cListing_score (columns df);
     rows := match components with
             | [] => map (fun r => set_listing_score r 0) (rows df)
             | _ => map (fun r => set_listing_score r (sum_axis1 components r)) (rows df)
             end |}.

Definition fillna_unknown (cell : option string) : option string :=
  match cell with None => Some "Unknown" | Some s => Some s end.

(** [pd.to_numeric(..., errors='coerce')] leaves a float64 column as it is;
    what remains is the filling of the two colour columns. *)
Definition prepare_modeling_features (df : DataFrame) : DataFrame :=
  let fill_i := if has_col df cInterior_color then fillna_unknown else id in
  let fill_e := if has_col df cExterior_color then fillna_unknown else id in
  {| columns := columns df;
     rows := map (fun r => set_colors r (fill_i (Interior_color r)) (fill_e (Exterior_color r)))
                 (rows df) |}.

(** [df.dropna(subset=['price_in_eur'])] *)
Definition dropna_price (df : DataFrame) : result DataFrame :=
  if has_col df cPrice_in_eur
  then Ok {| columns := columns df;
             rows := List.filter (fun r => negb (is_nan (price_in_eur r))) (rows df) |}
  else Raise KeyError.

(** [process_silver_to_gold]: [silver] is the table read from [silver_path],
    the result the table written to [gold_path]; an exception means that
    nothing is written. *)
Definition process_silver_to_gold (silver : DataFrame) (remove_price_outliers : bool)
    (outlier_std : float) : result DataFrame :=
  (* the dtype of the sheet stays when rows are dropped *)
  let km_int64 := is_int64 (map Mileage_km (rows silver)) in
  rbind (dropna_price silver) (fun df =>
  rbind (if remove_price_outliers
         then remove_outliers df cPrice_in_eur outlier_std true
         else Ok df) (fun df =>
  let df := create_log_features_typed km_int64 df in
  let df := create_model_categories df in
  let df := calculate_listing_score df in
  let df := prepare_modeling_features df in
  Ok df)).

End Libm.

End SilverToGold.

(** ** The other steps of the record cleaner and its driver
       ([data_processing/bronze_to_silver.py]) *)

From Stdlib Require DecimalString.

Module RecordCleaner.
Import Text ExchangeRates.

(** A cell of an object column: missing (NaN), text, or a Python [int]. *)
Inductive cell : Type :=
| Null
| Str (s : string)
| Num (z : Z).

(** [str(x)] *)
Definition py_str (x : cell) : string :=
  match x with
  | Null => "nan"
  | Str s => s
  | Num z => DecimalString.NilZero.string_of_int (Z.to_int z)
  end.

(** [pd.isna(x)] *)
Definition isna (x : cell) : bool :=
  match x with Null => true | _ => false end.

(** [s.lstrip()], [s.rstrip()], [s.strip()] *)
Definition lstrip (s : string) : string := snd (span is_space s).

Fixpoint rstrip (s : string) : string :=
  match s with
  | EmptyString => EmptyString
  | String c t =>
      match rstrip t with
      | EmptyString => if is_space c then EmptyString else String c EmptyString
      | t' => String c t'
      end
  end.

Definition strip (s : string) : string := rstrip (lstrip s).

(** One listing, by the columns the stage reads or writes.  A cell of [URL],
    [Mileage] or [Condition] is text or empty, as in [BronzeToSilver.RawRow];
    the next four hold cells, [PTS], [Matching_numbers] and
    [Number_of_vehicle_owners] being the columns Paint-to-Sample (PTS),
    Matching numbers and Number of vehicle owners; the last six fields are
    the columns that the stage adds, and what they hold before is not read. *)
Record Listing : Type := {
  URL : option string;
  Mileage : option string;
  Condition : option string;
  PTS : cell;
  Matching_numbers : cell;
  Number_of_vehicle_owners : cell;
  Series : cell;
  price : float;
  currency : option string;
  mileage_value : float;
  mileage_unit : option string;
  Mileage_km : float;
  owners_known : Z;
  is_fully_restored : Z;
  price_in_eur : float
}.

(** The table: whether it has the columns [price] and [currency], and its
    rows.  The other columns above are there. *)
Record Table : Type := {
  has_price : bool;
  has_currency : bool;
  rows : list Listing
}.

Definition with_rows (df : Table) (l : list Listing) : Table :=
  {| has_price := has_price df; has_currency := has_currency df; rows := l |}.

(** The three columns that [clean_mileage] sees. *)
Definition to_raw (l : Listing) : BronzeToSilver.RawRow :=
  {| BronzeToSilver.URL := URL l;
     BronzeToSilver.Mileage := Mileage l;
     BronzeToSilver.Condition := Condition l |}.

Definition set_mileage (l : Listing) (value : float) (unit : option string) (km : float)
  : Listing :=
  {| URL := URL l; Mileage := Mileage l; Condition := Condition l; PTS := PTS l;
     Matching_numbers := Matching_numbers l;
     Number_of_vehicle_owners := Number_of_vehicle_owners l; Series := Series l;
     price := price l; currency := currency l;
     mileage_value := value; mileage_unit := unit; Mileage_km := km;
     owners_known := owners_known l; is_fully_restored := is_fully_restored l;
     price_in_eur := price_in_eur l |}.

Definition set_condition (l : Listing) (condition : option string)
    (pts matching owners : cell) : Listing :=
  {| URL := URL l; Mileage := Mileage l; Condition := condition; PTS := pts;
     Matching_numbers := matching; Number_of_vehicle_owners := owners; Series := Series l;
     price := price l; currency := currency l;
     mileage_value := mileage_value l; mileage_unit := mileage_unit l;
     Mileage_km := Mileage_km l;
     owners_known := owners_known l; is_fully_restored := is_fully_restored l;
     price_in_eur := price_in_eur l |}.

Definition set_series (l : Listing) (series : cell) : Listing :=
  {| URL := URL l; Mileage := Mileage l; Condition := Condition l; PTS := PTS l;
     Matching_numbers := Matching_numbers l;
     Number_of_vehicle_owners := Number_of_vehicle_owners l; Series := series;
     price := price l; currency := currency l;
     mileage_value := mileage_value l; mileage_unit := mileage_unit l;
     Mileage_km := Mileage_km l;
     owners_known := owners_known l; is_fully_restored := is_fully_restored l;
     price_in_eur := price_in_eur l |}.

Definition set_derived (l : Listing) (known restored : Z) : Listing :=
  {| URL := URL l; Mileage := Mileage l; Condition := Condition l; PTS := PTS l;
     Matching_numbers := Matching_numbers l;
     Number_of_vehicle_owners := Number_of_vehicle_owners l; Series := Series l;
     price := price l; currency := currency l;
     mileage_value := mileage_value l; mileage_unit := mileage_unit l;
     Mileage_km := Mileage_km l;
     owners_known := known; is_fully_restored := restored;
     price_in_eur := price_in_eur l |}.

Definition set_price_in_eur (l : Listing) (p : float) : Listing :=
  {| URL := URL l; Mileage := Mileage l; Condition := Condition l; PTS := PTS l;
     Matching_numbers := Matching_numbers l;
     Number_of_vehicle_owners := Number_of_vehicle_owners l; Series := Series l;
     price := price l; currency := currency l;
     mileage_value := mileage_value l; mileage_unit := mileage_unit l;
     Mileage_km := Mileage_km l;
     owners_known := owners_known l; is_fully_restored := is_fully_restored l;
     price_in_eur := p |}.

(** [clean_mileage] on rows that carry further columns [A]: the same steps,
    the further columns riding along. *)
Definition clean_mileage_with {A} (df : list (BronzeToSilver.RawRow * A))
  : result (list (BronzeToSilver.CleanRow * A)) :=
  let df := map (fun ra => (BronzeToSilver.extract_row (fst ra), snd ra)) df in
  let df := map (fun ea => (BronzeToSilver.synthesize (fst ea), snd ea)) df in
  let df := List.filter
              (fun ea => negb (BronzeToSilver.isna (BronzeToSilver.value_text (fst ea)))) df in
  let df := map (fun ea => (BronzeToSilver.fill_unit_row (fst ea), snd ea)) df in
  rbind (traverse (fun ea => rbind (BronzeToSilver.to_numeric_row (fst ea))
                                   (fun n => Ok (n, snd ea))) df) (fun df =>
  let df := map (fun na => (BronzeToSilver.miles_to_km (fst na), snd na)) df in
  Ok (map (fun na => (BronzeToSilver.add_km (fst na), snd na)) df)).

(** [clean_mileage(df)] on a table of listings whose columns [Mileage] and
    [Condition] have object dtype or not: without it [.str] raises
    [AttributeError]. *)
Definition clean_mileage_typed (mileage_object condition_object : bool) (df : Table)
  : result Table :=
  if mileage_object && condition_object then
    rbind (clean_mileage_with (map (fun l => (to_raw l, l)) (rows df))) (fun out =>
    Ok (with_rows df
          (map (fun cl => set_mileage (snd cl)
                            (BronzeToSilver.mileage_value (fst cl))
                            (Some (BronzeToSilver.mileage_unit (fst cl)))
                            (BronzeToSilver.Mileage_km (fst cl))) out)))
  else Raise AttributeError.

(** [clean_mileage(df)] on a table as [pd.read_excel] returns it. *)
Definition clean_mileage (df : Table) : result Table :=
  clean_mileage_typed (BronzeToSilver.is_object (map Mileage (rows df)))
                      (BronzeToSilver.is_object (map Condition (rows df))) df.

(** ["Unknown" if pd.isna(x) or str(x).strip() == "" else x] *)
Definition unknown_if_blank (x : cell) : cell :=
  if isna x || String.eqb (strip (py_str x)) "" then Str "Unknown" else x.

(** [1 if str(x).strip().lower() == "yes" else 0] *)
Definition yes_flag (x : cell) : cell :=
  if String.eqb (lower (strip (py_str x))) "yes" then Num 1 else Num 0.

(** The same on a cell of [Condition], which is missing or text. *)
Definition unknown_if_blank_text (x : option string) : option string :=
  match x with
  | None => Some "Unknown"
  | Some s => if String.eqb (strip s) "" then Some "Unknown" else x
  end.

Definition clean_condition (df : Table) : Table :=
  with_rows df
    (map (fun l => set_condition l
                     (unknown_if_blank_text (Condition l))
                     (yes_flag (PTS l))
                     (unknown_if_blank (Matching_numbers l))
                     (unknown_if_blank (Number_of_vehicle_owners l)))
         (rows df)).

(** [0 if str(x).strip().lower() == "unknown" else 1] *)
Definition known_flag (x : cell) : Z :=
  if String.eqb (lower (strip (py_str x))) "unknown" then 0 else 1.

(** After [clean_condition] every cell of [Condition] is text, so that
    [.str] is there. *)
Definition create_derived_features (df : Table) : Table :=
  with_rows df
    (map (fun l => set_derived l
                     (known_flag (Number_of_vehicle_owners l))
                     (Z.b2z (BronzeToSilver.fully_restored (Condition l))))
         (rows df)).

Definition series_names : list (string * string) :=
  [ ("982 (718 Boxster/Cayman)", "982");
    ("987 (Boxster/Cayman)", "987");
    ("981 (Boxster/Cayman)", "981") ].

Fixpoint lookup_name (names : list (string * string)) (s : string) : option string :=
  match names with
  | [] => None
  | (k, v) :: rest => if String.eqb s k then Some v else lookup_name rest s
  end.

(** [df['Series'].replace({...})] on one cell: a value that is a key is
    replaced, every other value stays. *)
Definition replace_series (x : cell) : cell :=
  match x with
  | Str s => match lookup_name series_names s with Some v => Str v | None => x end
  | _ => x
  end.

Definition standardize_series (df : Table) : Table :=
  with_rows df (map (fun l => set_series l (replace_series (Series l))) (rows df)).

(** [pd.notna] on the two cells of a row. *)
Definition has_price_and_currency (l : Listing) : bool :=
  negb (is_nan (price l)) && match currency l with Some _ => true | None => false end.

(** The lambda of [convert_prices_to_eur] on one row. *)
Definition convert_row (rates : gmap string float) (l : Listing) : M Listing :=
  match currency l with
  | Some cur =>
      if negb (is_nan (price l))
      then (p <- convert_to_eur (price l) cur (Some rates) ;; ret (set_price_in_eur l p))
      else ret (set_price_in_eur l nan)
  | None => ret (set_price_in_eur l nan)
  end.

Fixpoint mapM {A B} (f : A -> M B) (l : list A) : M (list B) :=
  match l with
  | [] => ret []
  | a :: t => b <- f a ;; bs <- mapM f t ;; ret (b :: bs)
  end.

(** [df.drop_duplicates(subset=['URL'])]: a row stays when no row before it
    has its URL; two missing URLs count as equal. *)
Fixpoint drop_duplicates_from (seen : list (option string)) (l : list Listing)
  : list Listing :=
  match l with
  | [] => []
  | r :: t =>
      if bool_decide (URL r ∈ seen) then drop_duplicates_from seen t
      else r :: drop_duplicates_from (URL r :: seen) t
  end.

Definition drop_duplicates (df : Table) : Table :=
  with_rows df (drop_duplicates_from [] (rows df)).

(** The pattern of the shop filter.  [str.contains] reads it as a regular
    expression, in which every [.] stands for any character but a newline. *)
Definition SHOP_PATTERN : string := "https://www.elferspot.com/en/shop/".

Definition re_char (p c : ascii) : bool :=
  if Ascii.eqb p "." then negb (Ascii.eqb c "010") else Ascii.eqb p c.

(** [re.match(p, s)] for a pattern of plain characters and dots. *)
Fixpoint re_match (p s : string) : bool :=
  match p, s with
  | EmptyString, _ => true
  | String a p', String b s' => re_char a b && re_match p' s'
  | String _ _, EmptyString => false
  end.

(** [re.search(p, s)] *)
Fixpoint re_search (p s : string) : bool :=
  re_match p s ||
  match s with
  | EmptyString => false
  | String _ t => re_search p t
  end.

(** [df["URL"].str.contains(SHOP_PATTERN, na=False)] on one cell *)
Definition is_shop_link (x : option string) : bool :=
  match x with
  | Some s => re_search SHOP_PATTERN s
  | None => false
  end.

(** [df[~df["URL"].str.contains(SHOP_PATTERN, na=False)]], on a table whose
    column [URL] has object dtype or not. *)
Definition drop_shop (url_object : bool) (df : Table) : result Table :=
  if url_object
  then Ok (with_rows df (List.filter (fun l => negb (is_shop_link (URL l))) (rows df)))
  else Raise AttributeError.

Section Pandas.

(** What [df.apply(..., axis=1)] followed by the assignment of its result to
    one column does on a table without rows: this depends on the version of
    pandas (some raise [ValueError], some add an empty column). *)
Variable apply_on_empty : result unit.

(** [convert_prices_to_eur(df, rates=None)]: the rates are fetched before the
    columns are looked for. *)
Definition convert_prices_to_eur (df : Table) (rates : option (gmap string float))
  : M (result Table) :=
  rates <- match rates with
           | Some r => ret r
           | None => fetch_latest_rates "EUR" [] true
           end ;;
  if negb (has_price df) || negb (has_currency df) then ret (Ok df) else
  match rows df with
  | [] => ret (rbind apply_on_empty (fun _ => Ok df))
  | _ => rows' <- mapM (convert_row rates) (rows df) ;; ret (Ok (with_rows df rows'))
  end.

(** [process_bronze_to_silver]: [bronze] is the table read from
    [bronze_path], the result the table that is written to [silver_path] and
    returned.  The dtype that [pd.read_excel] gives a column stays with it
    when rows are dropped.  The table has a column [URL] ([drop_duplicates]
    needs it); the column of licence documents that is dropped first is not
    among those modelled. *)
Definition process_bronze_to_silver (bronze : Table) (drop_shop_links : bool)
  : M (result Table) :=
  let url_object := BronzeToSilver.is_object (map URL (rows bronze)) in
  let mileage_object := BronzeToSilver.is_object (map Mileage (rows bronze)) in
  let condition_object := BronzeToSilver.is_object (map Condition (rows bronze)) in
  let df := drop_duplicates bronze in
  match (if drop_shop_links then drop_shop url_object df else Ok df) with
  | Raise e => ret (Raise e)
  | Ok df =>
      match clean_mileage_typed mileage_object condition_object df with
      | Raise e => ret (Raise e)
      | Ok df =>
          let df := clean_condition df in
          let df := standardize_series df in
          let df := create_derived_features df in
          convert_prices_to_eur df None
      end
  end.

End Pandas.

End RecordCleaner.

(** ** Notions the facts are stated with, and sample data *)

Module F64Notions.
Import F64.

(** Not NaN, with sign bit [s]. *)
Definition has_sign (s : bool) (x : float) : Prop :=
  match x with
  | S754_nan => False
  | S754_zero s' | S754_infinity s' | S754_finite s' _ _ => s' = s
  end.

End F64Notions.

Module RatesNotions.
Import ExchangeRates.

(** The cache is within its TTL at the clock reading [now]. *)
Definition fresh_at (now : float) (ts : option float) : bool :=
  flt (fsub now (default zero ts)) TTL_SECONDS.

(** The world after one reading of the clock. *)
Definition tick (w : World) : World :=
  {| cache := cache w; clock := clock w; ticks := S (ticks w);
     network := network w; disk := disk w |}.

(** The request that a call sends. *)
Definition the_request (base : string) (symbols : list string) : request :=
  {| req_base := base; req_symbols := join_comma (symbols_or_default symbols) |}.

(** The mapping built from the service's answer. *)
Definition rates_to_eur (rates_base : gmap string (option float)) : gmap string float :=
  <["EUR" := one]> (map_imap (fun c v => Some (invert_rate c v)) rates_base).

(** The call past its cache-hit test, as a function of the world. *)
Definition after_miss (base : string) (symbols : list string) (w : World)
  : gmap string float * World :=
  match network w (the_request base symbols) with
  | NetOk rates_base =>
      (rates_to_eur rates_base, snd (_write_cache (rates_to_eur rates_base) w))
  | NetError =>
      (let c := fst (_load_cache w) in if dict_truthy c then c else STATIC_FALLBACK,
       snd (_load_cache w))
  end.

Definition has_eur (r : gmap string float) : Prop := r !! "EUR" = Some one.

(** The cache file, when it holds a non-empty rate mapping, holds one with
    [EUR: 1.0]: what every file written by [_write_cache] satisfies. *)
Definition cache_ok (w : World) : Prop :=
  forall ts r, cache w = Some (CacheObj ts (Some r)) ->
               dict_truthy r = true -> has_eur r.

(** The worlds of a run that starts without cache file and in which only
    [fetch_latest_rates] writes the file; between calls the clock, the
    service and the disk may change in any way. *)
Inductive reachable : World -> Prop :=
| reach_init w : cache w = None -> reachable w
| reach_env w w' : reachable w -> cache w' = cache w -> reachable w'
| reach_fetch w base symbols use_cache :
    reachable w -> reachable (snd (fetch_latest_rates base symbols use_cache w)).

(** The multiplier as the converter's contract words it: the entry of [rates],
    else the entry of the static table, else [1.0]. *)
Definition contract_multiplier (rates : gmap string float) (currency : string) : float :=
  match rates !! currency with
  | Some m => m
  | None =>
      match STATIC_FALLBACK !! currency with
      | Some m => m
      | None => one
      end
  end.

Definition usd_only : gmap string float := {[ "USD" := lit 0.9%float ]}.

(** A world whose clock always reads [t] and whose service always answers [n]. *)
Definition mk_world (c : option cache_content) (t : Z) (n : net_result) : World :=
  {| cache := c; clock := fun _ => of_Z t; ticks := 0;
     network := fun _ => n; disk := Written |}.

(** A cache file written at time 0, read at time 100000 > 86400, service down. *)
Definition stale_world : World :=
  mk_world (Some (CacheObj (Some zero) (Some (<["EUR" := one]> usd_only))))
           100000 NetError.

(** A cache file within its TTL whose mapping has no EUR entry. *)
Definition foreign_world : World :=
  mk_world (Some (CacheObj (Some zero) (Some usd_only))) 100 NetError.

(** No cache file, and a service that answers 1.1 USD per EUR. *)
Definition fresh_start : World :=
  mk_world None 100 (NetOk {[ "USD" := Some (lit 1.1%float) ]}).

End RatesNotions.

Module TextNotions.
Import Text.

(** The pattern [([\d,]+)\s*(km|mi)] read as a relation: [s] starts with a
    non-empty run [num] of digits and commas, then white space [ws], then the
    unit [u]. *)
Definition matches_at (s num u : string) : Prop :=
  exists ws rest,
    s = num ++ ws ++ u ++ rest /\
    num <> EmptyString /\ all_chars is_num_char num = true /\
    all_chars is_space ws = true /\ (u = "km" \/ u = "mi").

End TextNotions.

Module CleanerNotions.
Import Text BronzeToSilver.

(** What becomes of one raw row: [None] when the row is dropped. *)
Definition row_outcome (r : RawRow) : option (result CleanRow) :=
  let e := synthesize (extract_row r) in
  if isna (value_text e) then None
  else Some (rbind (to_numeric_row (fill_unit_row e))
                   (fun n => Ok (add_km (miles_to_km n)))).

Definition good_row : RawRow :=
  {| URL := Some "a"; Mileage := Some "50,000 km"; Condition := Some "Good" |}.

Definition restored_row : RawRow :=
  {| URL := Some "b"; Mileage := None; Condition := Some "fully restored, new paint" |}.

(** A number without unit, and a condition that says nothing of a restoration. *)
Definition unitless_row : RawRow :=
  {| URL := Some "c"; Mileage := Some "50000"; Condition := Some "Good" |}.

Definition unitless_restored_row : RawRow :=
  {| URL := Some "d"; Mileage := Some "50000"; Condition := Some "Fully Restored" |}.

(** Commas and a unit, no digit. *)
Definition commas_row : RawRow :=
  {| URL := Some "e"; Mileage := Some ", km"; Condition := None |}.

(** A reading in miles. *)
Definition miles_row : RawRow :=
  {| URL := Some "f"; Mileage := Some "1,000 mi"; Condition := Some "Original" |}.

(** A sheet with a reading in kilometres, a number without unit, a restored
    car without reading and a reading in miles, and what the cleaner makes of
    it. *)
Definition raw_sample : list RawRow :=
  [good_row; unitless_row; restored_row; miles_row].

Definition cleaned_sample : list CleanRow :=
  [ {| source := good_row; mileage_value := of_Z 50000;
       mileage_unit := "km"; Mileage_km := of_Z 50000 |};
    {| source := restored_row; mileage_value := one;
       mileage_unit := "km"; Mileage_km := one |};
    {| source := miles_row; mileage_value := fmul (of_Z 1000) KM_PER_MILE;
       mileage_unit := "mi"; Mileage_km := fmul (of_Z 1000) KM_PER_MILE |} ].

End CleanerNotions.

Module GoldNotions.
Import Text SilverToGold.

(** The band [[mean - n_std*std, mean + n_std*std]] of a series. *)
Definition band_low (values : list float) (n_std : float) : float :=
  fsub (series_mean values) (fmul n_std (series_std values)).

Definition band_high (values : list float) (n_std : float) : float :=
  fadd (series_mean values) (fmul n_std (series_std values)).

(** [lo <= x <= hi] *)
Definition within (lo hi x : float) : bool := fge x lo && fle x hi.

(** The score as the contract words it: one weight per signal, nothing for a
    signal whose column the table does not have.  A text is known when it is
    not the sentinel "Unknown", a colour is present when the cell is not
    missing, a flag is true when it is 1. *)
Definition contract_score (df : DataFrame) (r : Row) : Z :=
  ((if has_col df cMatching_numbers
       && bool_decide (Matching_numbers r <> Some "Unknown") then 10 else 0)
   + (if has_col df cNumber_of_vehicle_owners
         && bool_decide (Number_of_vehicle_owners r <> Some "Unknown") then 10 else 0)
   + (if has_col df cInterior_color && bool_decide (Interior_color r <> None) then 5 else 0)
   + (if has_col df cExterior_color && bool_decide (Exterior_color r <> None) then 5 else 0)
   + (if has_col df cPTS && bool_decide (PTS r = 1%Z) then 15 else 0)
   + (if has_col df cIs_fully_restored && bool_decide (is_fully_restored r = 1%Z)
      then 20 else 0)
   + (if has_col df cMileage_km && flt (Mileage_km r) (of_Z 50000) then 10 else 0))%Z.

(** The two flag columns hold 0 or 1, as [clean_condition] and
    [create_derived_features] write them. *)
Definition is_flag (z : Z) : Prop := z = 0%Z \/ z = 1%Z.

Definition flags_ok (df : DataFrame) : Prop :=
  forall r, In r (rows df) ->
    (has_col df cPTS = true -> is_flag (PTS r)) /\
    (has_col df cIs_fully_restored = true -> is_flag (is_fully_restored r)).

(** The columns the score reads. *)
Definition source_columns : list Col :=
  [cMatching_numbers; cNumber_of_vehicle_owners; cInterior_color; cExterior_color;
   cPTS; cIs_fully_restored; cMileage_km].

(** The sum of the components of one row, without the int64 wrap-around. *)
Definition total (components : list (Row -> Z)) (r : Row) : Z :=
  fold_right (fun f s => (f r + s)%Z) 0%Z components.

Definition small_at (r : Row) (f : Row -> Z) : Prop := (0 <= f r <= 20)%Z.

(** The table that [process_silver_to_gold] hands to [create_log_features]:
    the rows with a price, after the outlier filter when it is switched on. *)
Definition before_features (ln_pos : positive -> Z -> float) (silver : DataFrame)
    (remove_price_outliers : bool) (outlier_std : float) : result DataFrame :=
  rbind (dropna_price silver) (fun df =>
  if remove_price_outliers
  then remove_outliers ln_pos df cPrice_in_eur outlier_std true
  else Ok df).

(** A coarse logarithm to run examples with: the integer part of the binary
    logarithm.  No statement depends on it. *)
Definition coarse_ln (m : positive) (e : Z) : float := of_Z (Z.log2 (Zpos m) + e).

Definition coarse_log1p (s : bool) (m : positive) (e : Z) : float :=
  if s then nan else coarse_ln m e.

Definition silver_columns : list Col :=
  [cMatching_numbers; cNumber_of_vehicle_owners; cInterior_color; cExterior_color;
   cPTS; cIs_fully_restored; cMileage_km; cPrice_in_eur; cModel].

Definition blank_row : Row :=
  {| Matching_numbers := None; Number_of_vehicle_owners := None;
     Interior_color := None; Exterior_color := None;
     PTS := 0; is_fully_restored := 0;
     Mileage_km := nan; price_in_eur := nan; Model := None;
     log_price := nan; log_mileage := nan; Mileage_sq := Float64 nan;
     model_category := None; listing_score := 0 |}.

(** A listing at 42000 km with price [p]. *)
Definition priced (p : Z) : Row :=
  {| Matching_numbers := Some "Yes"; Number_of_vehicle_owners := Some "Unknown";
     Interior_color := Some "Black"; Exterior_color := None;
     PTS := 1; is_fully_restored := 0;
     Mileage_km := of_Z 42000; price_in_eur := of_Z p; Model := Some "911 Turbo";
     log_price := nan; log_mileage := nan; Mileage_sq := Float64 nan;
     model_category := None; listing_score := 0 |}.

Definition three_prices : DataFrame :=
  {| columns := silver_columns; rows := [priced 100; priced 120; priced 90] |}.

(** Fifteen listings at 100 and one at 2^40: enough rows for the sums to go
    pairwise, and one price far outside the band. *)
Definition fifteen_prices : DataFrame :=
  {| columns := silver_columns; rows := repeat (priced 100) 15 |}.

Definition sixteen_prices : DataFrame :=
  {| columns := silver_columns; rows := repeat (priced 100) 15 ++ [priced (2 ^ 40)] |}.

(** A listing with a price that is no integer. *)
Definition priced_at (p : float) : Row :=
  {| Matching_numbers := None; Number_of_vehicle_owners := None;
     Interior_color := None; Exterior_color := None;
     PTS := 0; is_fully_restored := 0;
     Mileage_km := of_Z 42000; price_in_eur := p; Model := None;
     log_price := nan; log_mileage := nan; Mileage_sq := Float64 nan;
     model_category := None; listing_score := 0 |}.

(** Fifteen prices of 66.4 and one of 388.3, which lies on the upper bound
    at 3.75 standard deviations. *)
Definition boundary_prices : DataFrame :=
  {| columns := silver_columns;
     rows := repeat (priced_at (lit 66.4%float)) 15 ++ [priced_at (lit 388.3%float)] |}.

Definition two_listings : DataFrame :=
  {| columns := silver_columns; rows := [priced 100; blank_row] |}.

Definition zero_price_table : DataFrame :=
  {| columns := silver_columns; rows := [priced 0] |}.

Definition negative_price_table : DataFrame :=
  {| columns := silver_columns; rows := [priced 100; priced (-5)] |}.

End GoldNotions.

(** ** Further notions *)

Module F64MoreNotions.
Import F64.

(** An infinity of sign [s], or what an infinity turns into: NaN. *)
Definition tainted (s : bool) (x : float) : Prop :=
  x = S754_infinity s \/ x = nan.

End F64MoreNotions.

Module GoldMoreNotions.
Import Text SilverToGold.

(** The labels that [model_category] can take. *)
Definition category_labels : list string :=
  ["911"; "912"; "914"; "924"; "928"; "944"; "968"; "Boxster"; "Cayman";
   "Supercar"; "SUV"; "Sedan"; "Electric"; "Other"].

(** The rows of a table that have a price. *)
Definition priced_rows (df : DataFrame) : list Row :=
  List.filter (fun r => negb (is_nan (price_in_eur r))) (rows df).

(** One of the eight running sums has the property [P]. *)
Definition lanes_have (P : float -> Prop) (r : lanes) : Prop :=
  let 'Lanes r0 r1 r2 r3 r4 r5 r6 r7 := r in
  P r0 \/ P r1 \/ P r2 \/ P r3 \/ P r4 \/ P r5 \/ P r6 \/ P r7.

(** The four feature steps that follow the filter. *)
Definition features (ln_pos : positive -> Z -> float)
    (log1p_fin : bool -> positive -> Z -> float) (km_int64 : bool) (df : DataFrame)
  : DataFrame :=
  prepare_modeling_features
    (calculate_listing_score
       (create_model_categories
          (create_log_features_typed ln_pos log1p_fin km_int64 df))).

End GoldMoreNotions.

Module PipelineNotions.
Import Text ExchangeRates RecordCleaner.

(** A cell that holds something: neither missing nor blank. *)
Definition filled (x : cell) : Prop :=
  isna x = false /\ strip (py_str x) <> "".

Definition filled_text (x : option string) : Prop :=
  exists s, x = Some s /\ strip s <> "".

Definition is_blank (s : string) : bool := all_chars is_space s.

(** The row has a mileage reading, found in the text or synthetic. *)
Definition kept (l : Listing) : bool :=
  negb (BronzeToSilver.isna
          (BronzeToSilver.value_text
             (BronzeToSilver.synthesize (BronzeToSilver.extract_row (to_raw l))))).

Definition set_pts (l : Listing) (pts : cell) : Listing :=
  set_condition l (Condition l) pts (Matching_numbers l) (Number_of_vehicle_owners l).

(** The owners cell says nothing: missing, blank, or the word itself. *)
Definition owners_unknown (x : cell) : Prop :=
  isna x = true \/ strip (py_str x) = "" \/ lower (strip (py_str x)) = "unknown".

(** The price of a row in EUR under one mapping of rates. *)
Definition eur_price (rates : gmap string float) (l : Listing) : float :=
  match currency l with
  | Some cur =>
      if is_nan (price l) then nan
      else if String.eqb cur "EUR" then price l
      else fmul (price l) (default (static_get cur) (rates !! cur))
  | None => nan
  end.

(** The three steps between [clean_mileage] and the conversion. *)
Definition tidy (df : Table) : Table :=
  create_derived_features (standardize_series (clean_condition df)).

(** The table that reaches [clean_mileage]: the first row of each URL, but
    for the shop links when they are dropped. *)
Definition screened (bronze : Table) (drop_shop_links : bool) : Table :=
  let df := drop_duplicates bronze in
  if drop_shop_links
  then with_rows df (List.filter (fun l => negb (is_shop_link (URL l))) (rows df))
  else df.

(** Examples. *)
Definition listing (url mileage condition : option string) (pts owners : cell)
    (p : float) (cur : option string) : Listing :=
  {| URL := url; Mileage := mileage; Condition := condition; PTS := pts;
     Matching_numbers := Null; Number_of_vehicle_owners := owners;
     Series := Str "987 (Boxster/Cayman)";
     price := p; currency := cur;
     mileage_value := nan; mileage_unit := None; Mileage_km := nan;
     owners_known := 0; is_fully_restored := 0; price_in_eur := nan |}.

Definition boxster : Listing :=
  listing (Some "https://www.elferspot.com/en/car/boxster-1") (Some "12,500 mi")
          (Some "Accident-free") (Str "Yes") (Num 2) (of_Z 30000) (Some "USD").

Definition barn_find : Listing :=
  listing (Some "https://www.elferspot.com/en/car/356-7") None
          (Some "Fully restored") Null (Str " ") (of_Z 90000) (Some "EUR").

Definition no_reading : Listing :=
  listing (Some "https://www.elferspot.com/en/car/boxster-1") (Some "on request")
          (Some "Original") Null Null (of_Z 1) None.

Definition shop_item : Listing :=
  listing (Some "https://www.elferspot.com/en/shop/poster-3") (Some "10 km") None Null Null
          nan None.

(** Commas and a unit, no digit. *)
Definition no_digits : Listing :=
  listing (Some "https://www.elferspot.com/en/car/944-2") (Some ", km") None Null Null
          (of_Z 5) (Some "CHF").

(** The first two rows share their URL; so do the third and the last. *)
Definition bronze_sample : Table :=
  {| has_price := true; has_currency := true;
     rows := [no_reading; boxster; barn_find; shop_item; barn_find] |}.

Definition table_of (l : list Listing) : Table :=
  {| has_price := true; has_currency := true; rows := l |}.

End PipelineNotions.

(** ** Facts about binary64 arithmetic: NaN and sign *)

Module F64Proofs.
Import F64Notions.

Lemma nonneg_has_sign x : nonneg x <-> has_sign false x.
Proof. destruct x; simpl; tauto. Qed.

Lemma shr_1_nonneg mrs : (0 <= shr_m mrs)%Z -> (0 <= shr_m (shr_1 mrs))%Z.
Proof.
  destruct mrs as [m r s]. simpl. intros Hm.
  destruct m as [|p|p]; simpl; try lia.
  destruct p; simpl; lia.
Qed.

Lemma iter_pos_invariant {A} (P : A -> Prop) (f : A -> A) :
  (forall x, P x -> P (f x)) ->
  forall p x, P x -> P (SpecFloat.iter_pos f p x).
Proof.
  intros Hf. induction p as [p IH|p IH|]; intros x Hx; simpl.
  - apply IH, IH, Hf, Hx.
  - apply IH, IH, Hx.
  - apply Hf, Hx.
Qed.

Lemma shr_nonneg mrs e n :
  (0 <= shr_m mrs)%Z -> (0 <= shr_m (fst (shr mrs e n)))%Z.
Proof.
  intros Hm. unfold shr. destruct n as [|p|p]; simpl; try exact Hm.
  apply (iter_pos_invariant (fun r => (0 <= shr_m r)%Z)); [apply shr_1_nonneg | exact Hm].
Qed.

Lemma shr_record_of_loc_m m l : shr_m (shr_record_of_loc m l) = m.
Proof. destruct l as [|[]]; reflexivity. Qed.

Lemma shr_fexp_nonneg m e l :
  (0 <= m)%Z -> (0 <= shr_m (fst (shr_fexp prec emax m e l)))%Z.
Proof.
  intros Hm. unfold shr_fexp. apply shr_nonneg.
  rewrite shr_record_of_loc_m. exact Hm.
Qed.

Lemma round_nearest_even_nonneg m l :
  (0 <= m)%Z -> (0 <= round_nearest_even m l)%Z.
Proof.
  intros Hm. unfold round_nearest_even.
  destruct l as [|[]]; try lia. destruct (Z.even m); lia.
Qed.

(** Rounding never turns a non-negative mantissa into NaN, and keeps the sign
    it is given. *)
Lemma binary_round_aux_sign s mx ex lx :
  (0 <= mx)%Z -> has_sign s (binary_round_aux prec emax s mx ex lx).
Proof.
  intros Hm. unfold binary_round_aux.
  pose proof (shr_fexp_nonneg mx ex lx Hm) as H1.
  destruct (shr_fexp prec emax mx ex lx) as [mrs1 e1]. simpl in H1.
  pose proof (shr_fexp_nonneg
                (round_nearest_even (shr_m mrs1) (loc_of_shr_record mrs1)) e1 loc_Exact
                (round_nearest_even_nonneg _ _ H1)) as H2.
  destruct (shr_fexp prec emax _ e1 loc_Exact) as [mrs2 e2]. simpl in H2.
  destruct (shr_m mrs2) as [|p|p]; simpl; try reflexivity; try lia.
  destruct (e2 <=? emax - prec)%Z; reflexivity.
Qed.

Lemma binary_round_sign s m e : has_sign s (binary_round prec emax s m e).
Proof.
  unfold binary_round.
  destruct (shl_align m e _) as [mz ez].
  apply binary_round_aux_sign. lia.
Qed.

Lemma of_Z_nonneg z : (0 <= z)%Z -> nonneg (of_Z z).
Proof.
  intros Hz. apply nonneg_has_sign. unfold of_Z, binary_normalize.
  destruct z as [|p|p]; [reflexivity | apply binary_round_sign | lia].
Qed.

(** The product of a non-negative value and a positive finite one is
    non-negative (and is not NaN). *)
Lemma fmul_nonneg x m e : nonneg x -> nonneg (fmul x (S754_finite false m e)).
Proof.
  intros Hx. apply nonneg_has_sign. unfold fmul, SFmul.
  destruct x as [s|s| |s mx ex]; simpl in Hx; try contradiction; subst s; simpl;
    try reflexivity.
  apply binary_round_aux_sign. lia.
Qed.

Lemma nonneg_fle x : nonneg x -> fle zero x = true /\ is_nan x = false.
Proof.
  destruct x as [s|s| |s m e]; simpl; try contradiction; intros ->; split; reflexivity.
Qed.

(** NaN absorbs every operation and fails every comparison. *)
Lemma fmul_nan_r x : fmul x nan = nan.
Proof. destruct x; reflexivity. Qed.

Lemma fsub_nan_r x : fsub x nan = nan.
Proof. destruct x; reflexivity. Qed.

Lemma fadd_nan_r x : fadd x nan = nan.
Proof. destruct x; reflexivity. Qed.

Lemma fge_nan_r x : fge x nan = false.
Proof. reflexivity. Qed.

Lemma fle_nan_r x : fle x nan = false.
Proof. destruct x; reflexivity. Qed.

End F64Proofs.

(** ** Facts about the rate provider and the converter *)

Module ExchangeRatesProofs.
Import ExchangeRates RatesNotions.

Lemma load_cache_eq w :
  _load_cache w =
  match cache w with
  | Some (CacheObj ts rates) =>
      (if fresh_at (clock w (ticks w)) ts then default ∅ rates else ∅, tick w)
  | _ => (∅, w)
  end.
Proof.
  destruct w as [c cl t n d].
  unfold _load_cache, bind, read_cache, time_time, fresh_at, tick, ret. simpl.
  destruct c as [[|ts rates]|]; try reflexivity.
  simpl. destruct (flt _ _); reflexivity.
Qed.

Lemma load_cache_keeps_file w : cache (snd (_load_cache w)) = cache w.
Proof.
  rewrite load_cache_eq.
  destruct (cache w) as [[|ts rates]|] eqn:E; simpl; auto.
Qed.

Lemma dict_truthy_empty {V} : dict_truthy (∅ : gmap string V) = false.
Proof. reflexivity. Qed.

Lemma static_has_eur : has_eur STATIC_FALLBACK.
Proof. unfold has_eur, STATIC_FALLBACK. apply lookup_insert_eq. Qed.

Lemma load_cache_ok w :
  cache_ok w ->
  dict_truthy (fst (_load_cache w)) = true -> has_eur (fst (_load_cache w)).
Proof.
  intros Hok. rewrite load_cache_eq.
  destruct (cache w) as [[|ts rates]|] eqn:E; simpl; try discriminate.
  destruct (fresh_at _ ts); simpl; try discriminate.
  destruct rates as [r|]; simpl; try discriminate.
  intros Ht. exact (Hok ts r E Ht).
Qed.

Lemma cache_ok_ext w w' : cache w' = cache w -> cache_ok w -> cache_ok w'.
Proof. unfold cache_ok. intros -> H. exact H. Qed.

Lemma write_cache_ok rates w :
  has_eur rates -> cache_ok w -> cache_ok (snd (_write_cache rates w)).
Proof.
  intros Hr Hok. unfold _write_cache.
  destruct (disk w); simpl.
  - intros ts r [= _ <-] _. exact Hr.
  - exact Hok.
  - intros ts r [=].
Qed.

Lemma fetch_eq base symbols use_cache w :
  fetch_latest_rates base symbols use_cache w =
  if use_cache && dict_truthy (fst (_load_cache w))
  then _load_cache w
  else after_miss base symbols (if use_cache then snd (_load_cache w) else w).
Proof.
  unfold fetch_latest_rates, after_miss, the_request, rates_to_eur,
    bind, requests_get, ret.
  cbv zeta.
  destruct use_cache; simpl.
  - destruct (_load_cache w) as [c w1]; simpl.
    destruct (dict_truthy c); [reflexivity|].
    destruct (network w1 _) as [|rb].
    + destruct (_load_cache w1) as [c2 w2]; simpl.
      destruct (dict_truthy c2); reflexivity.
    + destruct (_write_cache _ w1) as [u w2]. reflexivity.
  - change (dict_truthy (∅ : gmap string float)) with false. cbv beta iota.
    destruct (network w _) as [|rb].
    + destruct (_load_cache w) as [c2 w2]; simpl.
      destruct (dict_truthy c2); reflexivity.
    + destruct (_write_cache _ w) as [u w2]. reflexivity.
Qed.

(** Service down and no cache file: the call returns the static table itself
    and changes nothing. *)
Lemma fetch_no_cache_file base symbols use_cache w :
  cache w = None ->
  network w (the_request base symbols) = NetError ->
  fetch_latest_rates base symbols use_cache w = (STATIC_FALLBACK, w).
Proof.
  intros Hc Hnet. rewrite fetch_eq, load_cache_eq, Hc. simpl.
  rewrite andb_false_r.
  replace (if use_cache then w else w) with w by (destruct use_cache; reflexivity).
  unfold after_miss. rewrite Hnet, load_cache_eq, Hc. reflexivity.
Qed.

Lemma fetch_no_cache_file_witness :
  fetch_latest_rates "EUR" [] true (mk_world None 100 NetError)
  = (STATIC_FALLBACK, mk_world None 100 NetError).
Proof. apply fetch_no_cache_file; reflexivity. Defined.

(** A cache file that is past its TTL at every reading of the clock is never
    returned, whatever it holds: the [except] branch reads it through the same
    TTL-gated [_load_cache] as the cache-hit branch. *)
Lemma fetch_stale_cache base symbols use_cache w ts rates :
  cache w = Some (CacheObj ts rates) ->
  (forall n, fresh_at (clock w n) ts = false) ->
  network w (the_request base symbols) = NetError ->
  fst (fetch_latest_rates base symbols use_cache w) = STATIC_FALLBACK.
Proof.
  intros Hc Hstale Hnet.
  rewrite fetch_eq, load_cache_eq, Hc, Hstale. simpl.
  rewrite andb_false_r. unfold after_miss.
  destruct use_cache; simpl; rewrite Hnet, load_cache_eq; simpl;
    rewrite Hc, Hstale; reflexivity.
Qed.

(** C1 (evaluation at the failing input): the service is down and a cache file
    written more than 24 hours ago exists; the call returns the static table,
    not the mapping stored in the file. *)
Theorem fetch_stale_cache_returns_static :
  cache stale_world = Some (CacheObj (Some zero) (Some (<["EUR" := one]> usd_only))) /\
  fst (fetch_latest_rates "EUR" [] true stale_world) = STATIC_FALLBACK /\
  fst (fetch_latest_rates "EUR" [] true stale_world) !! "USD"
    <> (<["EUR" := one]> usd_only) !! "USD".
Proof.
  split; [reflexivity|]. split.
  - apply (fetch_stale_cache _ _ _ _ (Some zero) (Some (<["EUR" := one]> usd_only))).
    + reflexivity.
    + intros n. vm_compute. reflexivity.
    + reflexivity.
  - vm_compute. intros H. discriminate H.
Qed.

(** Nothing in the provider adds [EUR] to a mapping that it reads: a cache
    file within its TTL that another program wrote without that entry is
    returned as it is. *)
Lemma cache_hit_without_eur :
  ~ (forall base symbols use_cache w,
       fst (fetch_latest_rates base symbols use_cache w) !! "EUR" = Some one).
Proof.
  intros H. specialize (H "EUR" [] true foreign_world).
  vm_compute in H. discriminate H.
Qed.

(** Past the cache-hit test: the mapping is built with [EUR: 1.0], read from
    the file, or the static table. *)
Lemma after_miss_ok base symbols w :
  cache_ok w ->
  has_eur (fst (after_miss base symbols w)) /\ cache_ok (snd (after_miss base symbols w)).
Proof.
  intros H1. unfold after_miss.
  destruct (network w _) as [|rates_base]; simpl.
  - split; [|exact (cache_ok_ext _ _ (load_cache_keeps_file w) H1)].
    destruct (dict_truthy (fst (_load_cache w))) eqn:Et.
    + apply load_cache_ok; assumption.
    + exact static_has_eur.
  - assert (Hr : has_eur (rates_to_eur rates_base)) by apply lookup_insert_eq.
    split; [exact Hr | exact (write_cache_ok _ w Hr H1)].
Qed.

Lemma fetch_keeps_cache_ok base symbols use_cache w :
  cache_ok w -> cache_ok (snd (fetch_latest_rates base symbols use_cache w)).
Proof.
  intros Hok. rewrite fetch_eq.
  pose proof (cache_ok_ext _ _ (load_cache_keeps_file w) Hok) as Hw1.
  destruct use_cache; simpl; [|apply after_miss_ok, Hok].
  destruct (dict_truthy (fst (_load_cache w))); [exact Hw1 | apply after_miss_ok, Hw1].
Qed.

(** A mapping that [_load_cache] returns with an entry is the one stored in
    the file. *)
Lemma load_cache_from_file w :
  dict_truthy (fst (_load_cache w)) = true ->
  exists ts, cache w = Some (CacheObj ts (Some (fst (_load_cache w)))).
Proof.
  rewrite load_cache_eq.
  destruct (cache w) as [[|ts rates]|]; cbn [fst]; try discriminate.
  destruct (fresh_at _ ts); try discriminate.
  destruct rates as [r|]; cbn [default]; try discriminate. eauto.
Qed.

Lemma load_cache_keeps_network w : network (snd (_load_cache w)) = network w.
Proof. rewrite load_cache_eq. destruct (cache w) as [[|ts rates]|]; reflexivity. Qed.

(** C2: every mapping that [fetch_latest_rates] returns has [EUR: 1.0], on
    each of its paths, when the cache file is the provider's own.  The
    mapping is built from the answer of the service, or is the static table,
    and then has [EUR: 1.0] whatever the file holds; or it is the non-empty
    mapping stored in the cache file, returned as it is.  So, as soon as the
    stored mapping has [EUR: 1.0], which is the case of every file that the
    provider wrote, the returned one has it, and the file that the call
    leaves is again of that kind. *)
Theorem fetch_latest_rates_eur base symbols use_cache w :
  let r := fst (fetch_latest_rates base symbols use_cache w) in
  ((exists rates_base, network w (the_request base symbols) = NetOk rates_base /\
                       r = rates_to_eur rates_base) /\ has_eur r
   \/ r = STATIC_FALLBACK /\ has_eur r
   \/ exists ts, cache w = Some (CacheObj ts (Some r)) /\ dict_truthy r = true) /\
  (cache_ok w ->
   has_eur r /\ cache_ok (snd (fetch_latest_rates base symbols use_cache w))).
Proof.
  intros r. split.
  - unfold r. rewrite fetch_eq.
    destruct (use_cache && dict_truthy (fst (_load_cache w))) eqn:Ehit.
    + apply andb_prop in Ehit as [_ Ht]. right. right.
      destruct (load_cache_from_file w Ht) as [ts Hts]. eauto.
    + set (w0 := if use_cache then snd (_load_cache w) else w).
      assert (Hn : network w0 = network w).
      { unfold w0. destruct use_cache; [apply load_cache_keeps_network | reflexivity]. }
      assert (Hc : cache w0 = cache w).
      { unfold w0. destruct use_cache; [apply load_cache_keeps_file | reflexivity]. }
      unfold after_miss. rewrite Hn.
      destruct (network w (the_request base symbols)) as [|rates_base]; cbn [fst].
      * destruct (dict_truthy (fst (_load_cache w0))) eqn:Et.
        -- right. right. destruct (load_cache_from_file w0 Et) as [ts Hts].
           rewrite Hc in Hts. eauto.
        -- right. left. split; [reflexivity | exact static_has_eur].
      * left. split; [eauto | apply lookup_insert_eq].
  - intros Hok. split; [|apply fetch_keeps_cache_ok, Hok].
    unfold r. rewrite fetch_eq.
    pose proof (cache_ok_ext _ _ (load_cache_keeps_file w) Hok) as Hw1.
    destruct use_cache; simpl; [|apply after_miss_ok, Hok].
    destruct (dict_truthy (fst (_load_cache w))) eqn:Et.
    + apply load_cache_ok; assumption.
    + apply after_miss_ok, Hw1.
Qed.

Lemma reachable_cache_ok w : reachable w -> cache_ok w.
Proof.
  induction 1 as [w Hc | w w' _ IH Hc | w base symbols use_cache _ IH].
  - intros ts r Hr. rewrite Hc in Hr. discriminate Hr.
  - exact (cache_ok_ext _ _ Hc IH).
  - apply fetch_keeps_cache_ok, IH.
Qed.

(** In a run that starts without cache file and in which only the provider
    writes the file, every mapping that a call returns has [EUR: 1.0]. *)
Lemma reachable_fetch_eur w base symbols use_cache :
  reachable w -> has_eur (fst (fetch_latest_rates base symbols use_cache w)).
Proof.
  intros Hreach. pose proof (reachable_cache_ok w Hreach) as Hok.
  rewrite fetch_eq.
  destruct use_cache; simpl; [|apply after_miss_ok, Hok].
  destruct (dict_truthy (fst (_load_cache w))) eqn:Et.
  - apply load_cache_ok; assumption.
  - apply after_miss_ok. exact (cache_ok_ext _ _ (load_cache_keeps_file w) Hok).
Qed.

Lemma reachable_fetch_eur_witness :
  has_eur (fst (fetch_latest_rates "EUR" [] true
                  (snd (fetch_latest_rates "EUR" [] true fresh_start)))).
Proof.
  apply reachable_fetch_eur. apply reach_fetch. apply reach_init. reflexivity.
Defined.

(** The second call of a run that started without a file is answered from the
    file that the first call wrote. *)
Lemma fetch_latest_rates_eur_witness :
  has_eur (fst (fetch_latest_rates "USD" ["GBP"] true
                  (snd (fetch_latest_rates "EUR" [] true fresh_start)))) /\
  cache_ok (snd (fetch_latest_rates "USD" ["GBP"] true
                   (snd (fetch_latest_rates "EUR" [] true fresh_start)))).
Proof.
  apply (fetch_latest_rates_eur "USD" ["GBP"] true
           (snd (fetch_latest_rates "EUR" [] true fresh_start))).
  apply reachable_cache_ok, reach_fetch, reach_init. reflexivity.
Defined.

(** C6: with currency "EUR" the amount comes back as it is, for every third
    argument (a mapping without EUR, one with another EUR rate, no mapping at
    all), and nothing of the world is read or changed. *)
Theorem convert_to_eur_identity amount (rates : option (gmap string float)) w :
  convert_to_eur amount "EUR" rates w = (amount, w) /\
  forall rates', convert_to_eur amount "EUR" rates' w = convert_to_eur amount "EUR" rates w.
Proof.
  assert (H : forall r, convert_to_eur amount "EUR" r w = (amount, w)).
  { intros r. unfold convert_to_eur. rewrite String.eqb_refl. reflexivity. }
  split; [apply H|]. intros r'. rewrite !H. reflexivity.
Qed.

Lemma code_multiplier_eq rates currency :
  default (static_get currency) (rates !! currency) = contract_multiplier rates currency.
Proof.
  unfold contract_multiplier, static_get.
  destruct (rates !! currency); simpl; [reflexivity|].
  destruct (STATIC_FALLBACK !! currency); reflexivity.
Qed.

(** C7: for a currency other than "EUR" and any mapping, the result is
    [amount * m] with [m] the mapping's entry, else the static table's, else
    1.0; the call is total and leaves the world alone. *)
Theorem convert_to_eur_multiplier amount currency (rates : gmap string float) w :
  currency <> "EUR" ->
  convert_to_eur amount currency (Some rates) w =
  (fmul amount (contract_multiplier rates currency), w).
Proof.
  intros Hne. unfold convert_to_eur.
  destruct (String.eqb_spec currency "EUR") as [->|_]; [contradiction|].
  unfold bind, ret. rewrite code_multiplier_eq. reflexivity.
Qed.

Lemma convert_to_eur_multiplier_witness :
  convert_to_eur (of_Z 100) "USD" (Some usd_only) stale_world =
  (fmul (of_Z 100) (contract_multiplier usd_only "USD"), stale_world).
Proof.
  apply convert_to_eur_multiplier. intros H. discriminate H.
Defined.

(** The scenario of the specification: 100 USD at 0.90 is 90.0 EUR. *)
Example convert_100_usd :
  fst (convert_to_eur (of_Z 100) "USD" (Some (<["EUR" := one]> usd_only)) stale_world)
  = lit 90.0%float.
Proof. vm_compute. reflexivity. Qed.

End ExchangeRatesProofs.

(** ** Facts about text matching *)

Module TextProofs.
Import Text TextNotions.

Lemma traverse_ok_In {A B} (f : A -> result B) l l' :
  traverse f l = Ok l' ->
  forall b, In b l' <-> exists a, In a l /\ f a = Ok b.
Proof.
  revert l'. induction l as [|a t IH]; intros l' H b; simpl in H.
  - injection H as <-. simpl. split; [tauto | intros [a [[] _]]].
  - destruct (f a) as [b0|e] eqn:Ea; simpl in H; [|discriminate].
    destruct (traverse f t) as [bs|e] eqn:Et; simpl in H; [|discriminate].
    injection H as <-. specialize (IH bs eq_refl b). simpl. split.
    + intros [<-|Hb]; [exists a; auto|].
      apply IH in Hb as [a' [Ha' Hf]]. exists a'; auto.
    + intros [a' [[<-|Ha'] Hf]].
      * left. congruence.
      * right. apply IH. exists a'; auto.
Qed.

Lemma traverse_total {A B} (f : A -> result B) l :
  (forall a, In a l -> exists b, f a = Ok b) -> exists l', traverse f l = Ok l'.
Proof.
  induction l as [|a t IH]; intros H; simpl.
  - exists []. reflexivity.
  - destruct (H a (or_introl eq_refl)) as [b ->].
    destruct IH as [bs ->]; [intros a' Ha'; apply H; right; exact Ha'|].
    exists (b :: bs). reflexivity.
Qed.

Lemma traverse_raises {A B} (f : A -> result B) l a e :
  In a l -> f a = Raise e -> exists e', traverse f l = Raise e'.
Proof.
  induction l as [|a0 t IH]; intros Ha Hf; [destruct Ha|].
  simpl. destruct (f a0) as [b0|e0] eqn:E0; simpl; [|eauto].
  destruct Ha as [->|Ha]; [congruence|].
  destruct (IH Ha Hf) as [e' ->]. simpl. eauto.
Qed.

Lemma span_app cls s : fst (span cls s) ++ snd (span cls s) = s.
Proof.
  induction s as [|c t IH]; simpl; [reflexivity|].
  destruct (cls c); [|reflexivity].
  destruct (span cls t) as [a b]. simpl in *.
  change (String c (a ++ b) = String c t). f_equal. exact IH.
Qed.

Lemma span_all cls s : all_chars cls (fst (span cls s)) = true.
Proof.
  induction s as [|c t IH]; simpl; [reflexivity|].
  destruct (cls c) eqn:Ec; [|reflexivity].
  destruct (span cls t) as [a b]. simpl in *. rewrite Ec. exact IH.
Qed.

(** The run that [span] takes is the longest one: what is left does not
    start with a character of the class. *)
Lemma span_rest cls s :
  match snd (span cls s) with
  | EmptyString => True
  | String c _ => cls c = false
  end.
Proof.
  induction s as [|c t IH]; simpl; [exact I|].
  destruct (cls c) eqn:Ec; [|exact Ec].
  destruct (span cls t) as [a b]. exact IH.
Qed.

(** A run followed by something outside the class is what [span] returns:
    the greedy choice is the only one. *)
Lemma span_unique cls a b :
  all_chars cls a = true ->
  match b with EmptyString => True | String c _ => cls c = false end ->
  span cls (a ++ b) = (a, b).
Proof.
  intros Ha Hb. induction a as [|c t IH]; simpl in *.
  - destruct b as [|c b']; [reflexivity|]. simpl. rewrite Hb. reflexivity.
  - apply andb_prop in Ha as [Hc Ht]. rewrite Hc, (IH Ht). reflexivity.
Qed.

Lemma starts_with_contains p s : starts_with p s = true -> contains p s = true.
Proof. destruct s; simpl; intros ->; reflexivity. Qed.

Lemma contains_app_r p a b : contains p b = true -> contains p (a ++ b) = true.
Proof.
  intros H. induction a as [|c t IH]; simpl; [exact H|].
  rewrite IH. apply orb_true_r.
Qed.

Lemma match_mileage_some s num u :
  match_mileage s = Some (num, u) ->
  (u = "km" \/ u = "mi") /\ contains u s = true /\
  num <> EmptyString /\ all_chars is_num_char num = true.
Proof.
  unfold match_mileage.
  pose proof (span_app is_num_char s) as Happ.
  pose proof (span_all is_num_char s) as Hall.
  destruct (span is_num_char s) as [n rest]. cbn [fst snd] in *.
  destruct n as [|c n']; [discriminate|].
  pose proof (span_app is_space rest) as Happ2.
  destruct (span is_space rest) as [ws rest']. cbn [fst snd] in *.
  assert (Hc : forall p, starts_with p rest' = true -> contains p s = true).
  { intros p Hp. rewrite <- Happ. apply (contains_app_r p (String c n')).
    rewrite <- Happ2. apply contains_app_r, starts_with_contains, Hp. }
  destruct (starts_with "km" rest') eqn:Ekm.
  - intros [= <- <-]. repeat split; auto.
  - destruct (starts_with "mi" rest') eqn:Emi; [|discriminate].
    intros [= <- <-]. repeat split; auto.
Qed.

Lemma search_mileage_some s num u :
  search_mileage s = Some (num, u) ->
  (u = "km" \/ u = "mi") /\ contains u s = true /\
  num <> EmptyString /\ all_chars is_num_char num = true.
Proof.
  induction s as [|c t IH]; simpl.
  - discriminate.
  - destruct (match_mileage (String c t)) as [[n0 u0]|] eqn:E.
    + intros [= <- <-]. apply (match_mileage_some _ n0 u0 E).
    + intros H. destruct (IH H) as (Hu & Hc & Hn & Ha).
      repeat split; auto. simpl. rewrite Hc. apply orb_true_r.
Qed.

(** No unit token in the text, no match. *)
Lemma search_mileage_no_unit s :
  contains "km" s = false -> contains "mi" s = false -> search_mileage s = None.
Proof.
  intros Hkm Hmi. destruct (search_mileage s) as [[num u]|] eqn:E; [|reflexivity].
  destruct (search_mileage_some s num u E) as (Hu & Hc & _).
  destruct Hu; subst u; congruence.
Qed.

Lemma starts_with_app p rest : starts_with p (p ++ rest) = true.
Proof.
  induction p as [|c t IH]; simpl; [reflexivity|].
  rewrite Ascii.eqb_refl. exact IH.
Qed.

Lemma starts_with_split p s : starts_with p s = true -> exists rest, s = p ++ rest.
Proof.
  revert s. induction p as [|c t IH]; intros s H; simpl in *.
  - exists s. reflexivity.
  - destruct s as [|d s']; [discriminate|].
    apply andb_prop in H as [Hc Ht]. apply Ascii.eqb_eq in Hc as ->.
    destruct (IH s' Ht) as [rest ->]. exists rest. reflexivity.
Qed.

(** Whatever way the pattern can match at a position, [match_mileage] returns
    that match: backtracking has nothing else to find. *)
Lemma match_mileage_complete s num u :
  matches_at s num u -> match_mileage s = Some (num, u).
Proof.
  intros (ws & rest & -> & Hne & Hnum & Hws & Hu).
  unfold match_mileage.
  assert (Hu1 : match (u ++ rest) with
                | EmptyString => True
                | String c _ => is_space c = false
                end) by (destruct Hu as [-> | ->]; reflexivity).
  assert (Hw1 : match (ws ++ u ++ rest) with
                | EmptyString => True
                | String c _ => is_num_char c = false
                end).
  { destruct ws as [|c ws']; simpl.
    - destruct Hu as [-> | ->]; reflexivity.
    - simpl in Hws. apply andb_prop in Hws as [Hc _].
      unfold is_num_char, is_digit, is_space in *.
      destruct c as [[] [] [] [] [] [] [] []]; try discriminate Hc; reflexivity. }
  rewrite (span_unique is_num_char num _ Hnum Hw1).
  destruct num as [|c n']; [congruence|].
  rewrite (span_unique is_space ws _ Hws Hu1).
  destruct Hu as [-> | ->]; reflexivity.
Qed.

Lemma match_mileage_complete_witness :
  match_mileage "12,500  km (approx.)" = Some ("12,500", "km").
Proof.
  apply match_mileage_complete. exists "  ", " (approx.)".
  repeat split; auto.
Defined.

Lemma match_mileage_sound s num u :
  match_mileage s = Some (num, u) -> matches_at s num u.
Proof.
  unfold match_mileage, matches_at.
  pose proof (span_app is_num_char s) as Happ.
  pose proof (span_all is_num_char s) as Hall.
  destruct (span is_num_char s) as [n rest]. cbn [fst snd] in *.
  destruct n as [|c n']; [discriminate|].
  pose proof (span_app is_space rest) as Happ2.
  pose proof (span_all is_space rest) as Hall2.
  destruct (span is_space rest) as [ws rest']. cbn [fst snd] in *.
  destruct (starts_with "km" rest') eqn:Ekm.
  - intros [= <- <-]. destruct (starts_with_split _ _ Ekm) as [r ->].
    exists ws, r. subst. repeat split; auto.
  - destruct (starts_with "mi" rest') eqn:Emi; [|discriminate].
    intros [= <- <-]. destruct (starts_with_split _ _ Emi) as [r ->].
    exists ws, r. subst. repeat split; auto.
Qed.

Lemma remove_commas_digits s :
  all_chars is_num_char s = true -> all_chars is_digit (remove_commas s) = true.
Proof.
  induction s as [|c t IH]; simpl; [reflexivity|].
  intros H. apply andb_prop in H as [Hc Ht].
  destruct (Ascii.eqb c ",") eqn:Ec; [exact (IH Ht)|].
  simpl. unfold is_num_char in Hc. rewrite Ec, orb_false_r in Hc.
  rewrite Hc. exact (IH Ht).
Qed.

Lemma decimal_from_nonneg s acc : (0 <= acc)%Z -> (0 <= decimal_from acc s)%Z.
Proof.
  revert acc. induction s as [|c t IH]; intros acc Hacc; simpl; [exact Hacc|].
  apply IH. lia.
Qed.

Lemma float_of_str_nonneg s x : float_of_str s = Ok x -> nonneg x.
Proof.
  unfold float_of_str. destruct s as [|c t]; [discriminate|].
  destruct (all_chars is_digit (String c t)); [|discriminate].
  intros [= <-]. apply F64Proofs.of_Z_nonneg, decimal_from_nonneg. lia.
Qed.

End TextProofs.

(** ** Facts about the record cleaner *)

Module BronzeToSilverProofs.
Import Text TextNotions TextProofs BronzeToSilver CleanerNotions.

Lemma clean_mileage_typed_ok mo co df out :
  clean_mileage_typed mo co df = Ok out ->
  mo = true /\ co = true /\ clean_mileage_cells df = Ok out.
Proof.
  unfold clean_mileage_typed. destruct mo, co; cbn [andb]; try discriminate. auto.
Qed.

Lemma clean_mileage_ok df out :
  clean_mileage df = Ok out -> clean_mileage_cells df = Ok out.
Proof. intros H. apply clean_mileage_typed_ok in H. tauto. Qed.

Lemma clean_mileage_objects df :
  is_object (map Mileage df) = true -> is_object (map Condition df) = true ->
  clean_mileage df = clean_mileage_cells df.
Proof. unfold clean_mileage, clean_mileage_typed. intros -> ->. reflexivity. Qed.

Lemma is_object_In {A} (f : A -> option string) l a s :
  In a l -> f a = Some s -> is_object (map f l) = true.
Proof.
  intros Hin Hs. unfold is_object. destruct (map f l) eqn:E; [reflexivity|].
  rewrite <- E. apply existsb_exists. exists (f a). split; [apply in_map, Hin|].
  rewrite Hs. reflexivity.
Qed.

Lemma clean_mileage_cells_rows df out :
  clean_mileage_cells df = Ok out ->
  forall c, In c out <-> exists r, In r df /\ row_outcome r = Some (Ok c).
Proof.
  unfold clean_mileage_cells. cbv zeta.
  destruct (traverse to_numeric_row _) as [ns|e] eqn:Et; simpl; [|discriminate].
  intros [= <-] c.
  pose proof (traverse_ok_In _ _ _ Et) as Hns.
  rewrite in_map_iff. split.
  - intros (n & <- & Hn). apply in_map_iff in Hn as (n0 & <- & Hn0).
    apply Hns in Hn0 as (e1 & He1 & Hf).
    apply in_map_iff in He1 as (e2 & <- & He2).
    apply filter_In in He2 as (He2 & Hna).
    apply in_map_iff in He2 as (e3 & <- & He3).
    apply in_map_iff in He3 as (r & <- & Hr).
    exists r. split; [exact Hr|]. unfold row_outcome. cbv zeta.
    apply negb_true_iff in Hna. rewrite Hna, Hf. reflexivity.
  - intros (r & Hr & Ho). unfold row_outcome in Ho. cbv zeta in Ho.
    destruct (isna (value_text (synthesize (extract_row r)))) eqn:Hna; [discriminate|].
    destruct (to_numeric_row _) as [n|e] eqn:Hf; simpl in Ho; [|discriminate].
    injection Ho as <-. exists (miles_to_km n). split; [reflexivity|].
    apply in_map_iff. exists n. split; [reflexivity|].
    apply Hns. exists (fill_unit_row (synthesize (extract_row r))). split; [|exact Hf].
    apply in_map_iff. eexists. split; [reflexivity|].
    apply filter_In. split; [|rewrite Hna; reflexivity].
    apply in_map_iff. eexists. split; [reflexivity|].
    apply in_map_iff. exists r. auto.
Qed.

Lemma clean_mileage_rows df out :
  clean_mileage df = Ok out ->
  forall c, In c out <-> exists r, In r df /\ row_outcome r = Some (Ok c).
Proof. intros H. apply clean_mileage_cells_rows, clean_mileage_ok, H. Qed.

Lemma row_outcome_source r c : row_outcome r = Some (Ok c) -> source c = r.
Proof.
  unfold row_outcome. cbv zeta.
  destruct (isna _); [discriminate|].
  unfold to_numeric_row, fill_unit_row. cbn [value_text raw unit_text].
  destruct (match value_text (synthesize (extract_row r)) with
            | Some v => float_of_str (remove_commas v)
            | None => Ok nan
            end) as [x|e]; simpl; [|discriminate].
  intros [= <-]. unfold miles_to_km, add_km. cbn [n_unit n_raw n_value].
  destruct (String.eqb _ "mi"); cbn [source n_raw];
    unfold synthesize; destruct (_ && _); reflexivity.
Qed.

(** Without a match of the pattern the row is dropped, or replaced by the
    synthetic reading when the condition says "fully restored". *)
Lemma row_outcome_no_match r :
  fst (extract (Mileage r)) = None ->
  row_outcome r =
  if fully_restored (Condition r)
  then Some (Ok {| source := r; mileage_value := one; mileage_unit := "km"; Mileage_km := one |})
  else None.
Proof.
  intros Hx. unfold row_outcome, synthesize, extract_row. cbv zeta.
  cbn [value_text raw unit_text]. rewrite Hx. cbn [isna andb].
  assert (Hu : snd (extract (Mileage r)) = None).
  { unfold extract in *. destruct (Mileage r) as [s|]; [|reflexivity].
    destruct (search_mileage s) as [[n u]|]; [discriminate|reflexivity]. }
  destruct (fully_restored (Condition r)); cbn [value_text isna]; [|reflexivity].
  unfold fill_unit_row, to_numeric_row. cbn [value_text raw unit_text].
  rewrite Hu. reflexivity.
Qed.

(** Every value that leaves the cleaner is a number and is not negative. *)
Lemma row_outcome_nonneg r c :
  row_outcome r = Some (Ok c) -> nonneg (Mileage_km c) /\ mileage_value c = Mileage_km c.
Proof.
  unfold row_outcome. cbv zeta.
  destruct (isna (value_text (synthesize (extract_row r)))) eqn:Hna; [discriminate|].
  unfold to_numeric_row, fill_unit_row. cbn [value_text raw unit_text].
  destruct (value_text (synthesize (extract_row r))) as [v|]; [|discriminate].
  destruct (float_of_str (remove_commas v)) as [x|e] eqn:Hx; simpl; [|discriminate].
  intros [= <-]. apply float_of_str_nonneg in Hx.
  unfold miles_to_km, add_km. cbn [n_unit n_raw n_value].
  destruct (String.eqb _ "mi"); cbn [Mileage_km mileage_value n_value];
    split; try reflexivity; [apply F64Proofs.fmul_nonneg|]; exact Hx.
Qed.

(** A row whose text matches: the number of the first match, in kilometres. *)
Lemma row_outcome_match r s num u c :
  Mileage r = Some s ->
  search_mileage s = Some (num, u) ->
  row_outcome r = Some (Ok c) ->
  mileage_unit c = u /\
  exists x, float_of_str (remove_commas num) = Ok x /\
            Mileage_km c = (if String.eqb u "mi" then fmul x KM_PER_MILE else x).
Proof.
  intros Hs Hm. destruct (search_mileage_some s num u Hm) as (Hu & _).
  unfold row_outcome, synthesize, extract_row. cbv zeta.
  cbn [value_text raw unit_text]. rewrite Hs. unfold extract. rewrite Hm.
  cbn [fst snd isna andb value_text negb].
  unfold to_numeric_row, fill_unit_row. cbn [value_text raw unit_text].
  destruct (float_of_str (remove_commas num)) as [x|e]; cbn [rbind]; [|discriminate].
  intros [= <-]. unfold miles_to_km, add_km. cbn [n_unit n_value n_raw].
  destruct Hu as [-> | ->]; cbn; (split; [reflexivity|]); exists x; auto.
Qed.

(** A row whose token holds no digit stops the conversion. *)
Lemma row_outcome_commas r s num u :
  Mileage r = Some s ->
  search_mileage s = Some (num, u) ->
  remove_commas num = EmptyString ->
  row_outcome r = Some (Raise ValueError).
Proof.
  intros Hs Hm Hnum.
  unfold row_outcome, synthesize, extract_row. cbv zeta.
  cbn [value_text raw unit_text]. rewrite Hs. unfold extract. rewrite Hm.
  cbn [fst snd isna andb value_text negb].
  unfold to_numeric_row, fill_unit_row. cbn [value_text]. rewrite Hnum. reflexivity.
Qed.

Lemma clean_mileage_cells_cons r df :
  clean_mileage_cells (r :: df) =
  match row_outcome r with
  | None => clean_mileage_cells df
  | Some (Raise e) => Raise e
  | Some (Ok c) => rbind (clean_mileage_cells df) (fun out => Ok (c :: out))
  end.
Proof.
  unfold clean_mileage_cells, row_outcome. cbv zeta. cbn [map List.filter].
  destruct (isna _); cbn [negb]; [reflexivity|].
  cbn [map traverse].
  destruct (to_numeric_row _) as [n|e]; cbn [rbind]; [|reflexivity].
  destruct (traverse _ _) as [ns|e]; cbn [rbind map]; reflexivity.
Qed.

(** Every exception of the conversion is the [ValueError] of [float]. *)
Lemma row_outcome_raises r e : row_outcome r = Some (Raise e) -> e = ValueError.
Proof.
  unfold row_outcome. cbv zeta. destruct (isna _); [discriminate|].
  unfold to_numeric_row.
  destruct (value_text _) as [v|]; cbn [rbind]; [|discriminate].
  unfold float_of_str. destruct (remove_commas v) as [|c t]; cbn [rbind]; [congruence|].
  destruct (all_chars is_digit (String c t)); cbn [rbind]; [discriminate|congruence].
Qed.

Lemma clean_mileage_cells_raises df r e :
  In r df -> row_outcome r = Some (Raise e) ->
  clean_mileage_cells df = Raise ValueError.
Proof.
  induction df as [|r0 df IH]; intros [] Hr.
  - subst r0. rewrite clean_mileage_cells_cons, Hr.
    rewrite (row_outcome_raises r e Hr). reflexivity.
  - rewrite clean_mileage_cells_cons. specialize (IH H Hr).
    destruct (row_outcome r0) as [[c|e0]|] eqn:E0.
    + rewrite IH. reflexivity.
    + rewrite (row_outcome_raises r0 e0 E0). reflexivity.
    + exact IH.
Qed.

(** C4: in every table that [clean_mileage] returns, each row has a mileage
    that is a number (not NaN) and at least 0; a row whose mileage field gives
    no token and whose condition does not contain "fully restored" is not
    there; a row without token whose condition contains it is there, with
    mileage 1; and the mileage is in kilometres: for a row whose text matches
    as number [num] and unit [u], it is the number, times 1.60934 when [u] is
    "mi". *)
Theorem clean_mileage_invariant df out :
  clean_mileage df = Ok out ->
  (forall c, In c out ->
     is_nan (Mileage_km c) = false /\ fle zero (Mileage_km c) = true) /\
  (forall r, In r df -> fst (extract (Mileage r)) = None ->
     fully_restored (Condition r) = false ->
     forall c, In c out -> source c <> r) /\
  (forall r, In r df -> fst (extract (Mileage r)) = None ->
     fully_restored (Condition r) = true ->
     exists c, In c out /\ source c = r /\ mileage_value c = one /\ Mileage_km c = one) /\
  (forall c s num u, In c out ->
     Mileage (source c) = Some s -> search_mileage s = Some (num, u) ->
     exists x, float_of_str (remove_commas num) = Ok x /\
               Mileage_km c = (if String.eqb u "mi" then fmul x KM_PER_MILE else x)).
Proof.
  intros Hrun. pose proof (clean_mileage_rows df out Hrun) as Hrows.
  split; [|split; [|split]].
  - intros c Hc. apply Hrows in Hc as (r & _ & Ho).
    apply row_outcome_nonneg in Ho as [Hn _].
    apply F64Proofs.nonneg_fle in Hn as [H1 H2]. split; assumption.
  - intros r Hr Hx Hnot c Hc Hsrc.
    apply Hrows in Hc as (r' & _ & Ho).
    pose proof (row_outcome_source r' c Ho) as Hs. rewrite Hsrc in Hs. subst r'.
    rewrite (row_outcome_no_match r Hx), Hnot in Ho. discriminate Ho.
  - intros r Hr Hx Hyes.
    eexists. split; [apply Hrows; exists r; split; [exact Hr|]|].
    + rewrite (row_outcome_no_match r Hx), Hyes. reflexivity.
    + simpl. auto.
  - intros c s num u Hc Hs Hm. apply Hrows in Hc as (r & _ & Ho).
    rewrite (row_outcome_source r c Ho) in Hs.
    exact (proj2 (row_outcome_match r s num u c Hs Hm Ho)).
Qed.

Lemma clean_mileage_invariant_witness :
  (forall c, In c cleaned_sample ->
     is_nan (Mileage_km c) = false /\ fle zero (Mileage_km c) = true) /\
  (forall r, In r raw_sample -> fst (extract (Mileage r)) = None ->
     fully_restored (Condition r) = false ->
     forall c, In c cleaned_sample -> source c <> r) /\
  (forall r, In r raw_sample -> fst (extract (Mileage r)) = None ->
     fully_restored (Condition r) = true ->
     exists c, In c cleaned_sample /\ source c = r /\
               mileage_value c = one /\ Mileage_km c = one) /\
  (forall c s num u, In c cleaned_sample ->
     Mileage (source c) = Some s -> search_mileage s = Some (num, u) ->
     exists x, float_of_str (remove_commas num) = Ok x /\
               Mileage_km c = (if String.eqb u "mi" then fmul x KM_PER_MILE else x)).
Proof.
  apply (clean_mileage_invariant raw_sample cleaned_sample).
  vm_compute. reflexivity.
Defined.

(** On a sheet whose columns [Mileage] and [Condition] both hold some text,
    or that has no row, the cleaner returns as soon as every matched token
    holds a digit. *)
Lemma clean_mileage_total df :
  is_object (map Mileage df) = true ->
  is_object (map Condition df) = true ->
  (forall r v, In r df -> fst (extract (Mileage r)) = Some v ->
               remove_commas v <> EmptyString) ->
  exists out, clean_mileage df = Ok out.
Proof.
  intros Hmo Hco Hdig. rewrite (clean_mileage_objects df Hmo Hco).
  unfold clean_mileage_cells. cbv zeta.
  match goal with |- context [traverse to_numeric_row ?l] =>
    destruct (traverse_total to_numeric_row l) as [ns Hns] end.
  - intros e He.
    apply in_map_iff in He as (e1 & <- & He1).
    apply filter_In in He1 as (He1 & Hna).
    apply in_map_iff in He1 as (e2 & <- & He2).
    apply in_map_iff in He2 as (r & <- & Hr).
    unfold to_numeric_row, fill_unit_row. cbn [value_text raw unit_text].
    revert Hna. unfold synthesize, extract_row. cbn [value_text raw unit_text].
    destruct (fst (extract (Mileage r))) as [v|] eqn:Hx; cbn [isna andb].
    + intros _. cbn [value_text].
      assert (Hd : all_chars is_digit (remove_commas v) = true).
      { apply remove_commas_digits. unfold extract in Hx.
        destruct (Mileage r) as [s|]; [|discriminate].
        destruct (search_mileage s) as [[n u]|] eqn:Es; [|discriminate].
        injection Hx as <-. apply (search_mileage_some s n u Es). }
      specialize (Hdig r v Hr Hx). unfold float_of_str.
      destruct (remove_commas v) as [|c t]; [congruence|]. rewrite Hd.
      simpl. eauto.
    + destruct (fully_restored (Condition r)); cbn [value_text isna negb];
        [|discriminate]. intros _. simpl. eauto.
  - rewrite Hns. simpl. eauto.
Qed.

Lemma clean_mileage_total_witness :
  exists out, clean_mileage [good_row; restored_row] = Ok out.
Proof.
  apply clean_mileage_total.
  - reflexivity.
  - reflexivity.
  - intros r v [<- | [<- | []]]; vm_compute; intros [= <-]; discriminate.
Defined.

(** A run of commas before the unit matches the pattern and then fails in
    [astype(float)]: when the first match of some mileage text has a token
    without digit, and the column [Condition] holds some text, the whole call
    raises [ValueError]. *)
Lemma clean_mileage_commas_raise df r s num u :
  is_object (map Condition df) = true ->
  In r df ->
  Mileage r = Some s ->
  search_mileage s = Some (num, u) ->
  remove_commas num = EmptyString ->
  clean_mileage df = Raise ValueError.
Proof.
  intros Hco Hr Hs Hm Hnum.
  rewrite (clean_mileage_objects df (is_object_In Mileage df r s Hr Hs) Hco).
  exact (clean_mileage_cells_raises df r ValueError Hr (row_outcome_commas r s num u Hs Hm Hnum)).
Qed.

Lemma clean_mileage_commas_raise_witness :
  clean_mileage [good_row; commas_row] = Raise ValueError.
Proof.
  apply (clean_mileage_commas_raise [good_row; commas_row] commas_row ", km" "," "km").
  - reflexivity.
  - right. left. reflexivity.
  - reflexivity.
  - vm_compute. reflexivity.
  - reflexivity.
Defined.

(** The scenarios of the specification, and a sheet without any text in the
    mileage column. *)
Example clean_good_row :
  clean_mileage [good_row] =
  Ok [ {| source := good_row; mileage_value := lit 50000.0%float;
          mileage_unit := "km"; Mileage_km := lit 50000.0%float |} ].
Proof. vm_compute. reflexivity. Qed.

Example clean_restored_row :
  clean_mileage [good_row; restored_row] =
  Ok [ {| source := good_row; mileage_value := lit 50000.0%float;
          mileage_unit := "km"; Mileage_km := lit 50000.0%float |};
       {| source := restored_row; mileage_value := lit 1.0%float;
          mileage_unit := "km"; Mileage_km := lit 1.0%float |} ].
Proof. vm_compute. reflexivity. Qed.

Example clean_restored_row_alone :
  clean_mileage [restored_row] = Raise AttributeError.
Proof. vm_compute. reflexivity. Qed.

Example clean_miles :
  clean_mileage [miles_row] =
  Ok [ {| source := miles_row; mileage_value := lit 1609.34%float;
          mileage_unit := "mi"; Mileage_km := lit 1609.34%float |} ].
Proof. vm_compute. reflexivity. Qed.

(** A no-break space (code point 160) between number and unit. *)
Example clean_no_break_space :
  clean_mileage [ {| URL := None;
                     Mileage := Some ("50,000" ++ String "160" "km (31,069 mi)");
                     Condition := Some "Original" |} ] =
  Ok [ {| source := {| URL := None;
                       Mileage := Some ("50,000" ++ String "160" "km (31,069 mi)");
                       Condition := Some "Original" |};
          mileage_value := lit 50000.0%float;
          mileage_unit := "km"; Mileage_km := lit 50000.0%float |} ].
Proof. vm_compute. reflexivity. Qed.

(** C3, as stated, fails: a row whose mileage is a number without unit is
    not kept with that number; the cleaner drops it. *)
Lemma unitless_row_dropped :
  contains "km" "50000" = false /\ contains "mi" "50000" = false /\
  all_chars is_digit "50000" = true /\
  clean_mileage [unitless_row] = Ok [].
Proof. vm_compute. auto. Qed.

(** C3 (amended): a row whose mileage text holds no unit token (neither "km"
    nor "mi") is dropped, its number unused; only when its condition contains
    "fully restored" is it kept, with mileage 1 and unit km. *)
Theorem clean_mileage_no_unit df out r s :
  clean_mileage df = Ok out ->
  In r df ->
  Mileage r = Some s ->
  contains "km" s = false -> contains "mi" s = false ->
  (fully_restored (Condition r) = false -> forall c, In c out -> source c <> r) /\
  (fully_restored (Condition r) = true ->
   In {| source := r; mileage_value := one; mileage_unit := "km"; Mileage_km := one |} out) /\
  (forall c, In c out -> source c = r ->
   mileage_value c = one /\ mileage_unit c = "km" /\ Mileage_km c = one).
Proof.
  intros Hrun Hr Hs Hkm Hmi.
  pose proof (clean_mileage_rows df out Hrun) as Hrows.
  assert (Hx : fst (extract (Mileage r)) = None).
  { rewrite Hs. unfold extract. rewrite (search_mileage_no_unit s Hkm Hmi). reflexivity. }
  pose proof (row_outcome_no_match r Hx) as Ho.
  split; [|split].
  - intros Hnot c Hc Hsrc. apply Hrows in Hc as (r' & _ & Ho').
    pose proof (row_outcome_source r' c Ho') as Hs'. rewrite Hsrc in Hs'. subst r'.
    rewrite Ho, Hnot in Ho'. discriminate Ho'.
  - intros Hyes. apply Hrows. exists r. split; [exact Hr|].
    rewrite Ho, Hyes. reflexivity.
  - intros c Hc Hsrc. apply Hrows in Hc as (r' & _ & Ho').
    pose proof (row_outcome_source r' c Ho') as Hs'. rewrite Hsrc in Hs'. subst r'.
    rewrite Ho in Ho'. destruct (fully_restored (Condition r)); [|discriminate].
    injection Ho' as <-. simpl. auto.
Qed.

Lemma clean_mileage_no_unit_witness :
  (fully_restored (Condition unitless_restored_row) = false ->
   forall c, In c [ {| source := unitless_restored_row; mileage_value := one;
                       mileage_unit := "km"; Mileage_km := one |} ] ->
             source c <> unitless_restored_row) /\
  (fully_restored (Condition unitless_restored_row) = true ->
   In {| source := unitless_restored_row; mileage_value := one;
         mileage_unit := "km"; Mileage_km := one |}
      [ {| source := unitless_restored_row; mileage_value := one;
           mileage_unit := "km"; Mileage_km := one |} ]) /\
  (forall c, In c [ {| source := unitless_restored_row; mileage_value := one;
                       mileage_unit := "km"; Mileage_km := one |} ] ->
   source c = unitless_restored_row ->
   mileage_value c = one /\ mileage_unit c = "km" /\ Mileage_km c = one).
Proof.
  apply (clean_mileage_no_unit [unitless_row; unitless_restored_row] _
           unitless_restored_row "50000").
  - vm_compute. reflexivity.
  - right. left. reflexivity.
  - reflexivity.
  - vm_compute. reflexivity.
  - vm_compute. reflexivity.
Defined.

End BronzeToSilverProofs.

(** ** Facts about the outlier filter and the feature engineer *)

Module SilverToGoldProofs.
Import Text SilverToGold F64Notions F64Proofs GoldNotions.

Lemma series_std_single v : series_std [v] = nan.
Proof. unfold series_std, count_notna. simpl. destruct (is_nan v); reflexivity. Qed.

Lemma within_nan_low hi x : within nan hi x = false.
Proof. reflexivity. Qed.

Lemma band_low_single v n_std : band_low [v] n_std = nan.
Proof.
  unfold band_low. rewrite series_std_single, fmul_nan_r, fsub_nan_r. reflexivity.
Qed.

(** Filtering on a cell that travels with the row, then dropping the cell. *)
Lemma filter_with_cell {A B} (f : A -> B) (p : B -> bool) (l : list A) :
  map fst (List.filter (fun rl => p (snd rl)) (map (fun r => (r, f r)) l)) =
  List.filter (fun r => p (f r)) l.
Proof.
  induction l as [|a l IH]; [reflexivity|].
  cbn [map List.filter snd]. destruct (p (f a)); cbn [map fst]; rewrite IH; reflexivity.
Qed.

Section Libm.

Variable ln_pos : positive -> Z -> float.
Variable log1p_fin : bool -> positive -> Z -> float.

Abbreviation np_log := (np_log ln_pos).
Abbreviation remove_outliers := (remove_outliers ln_pos).

(** The call as a filter over the rows. *)
Lemma remove_outliers_eq df column n_std use_log get :
  column_reader df column = Ok get ->
  rows df <> [] ->
  remove_outliers df column n_std use_log =
  Ok {| columns := columns df;
        rows :=
          let value := if use_log then (fun r => np_log (get r)) else get in
          let values := map value (rows df) in
          List.filter (fun r => within (band_low values n_std) (band_high values n_std) (value r))
                      (rows df) |}.
Proof.
  intros Hget Hne. unfold SilverToGold.remove_outliers. rewrite Hget. cbn [rbind].
  destruct (rows df) as [|r0 t] eqn:Er; [congruence|]. cbn [length Nat.eqb].
  f_equal. f_equal. destruct use_log; cbv zeta; [|reflexivity].
  rewrite !map_map. cbn [snd].
  unfold within, band_low, band_high.
  apply (filter_with_cell (fun r => np_log (get r))
           (fun x => fge x (fsub _ _) && fle x (fadd _ _))).
Qed.

(** C5: with [use_log] set, the rows that come back are exactly the rows of
    the input whose logarithm lies in the inclusive band around the mean of
    the logarithms of the input, [n_std] standard deviations wide on each
    side: every row kept is inside, every row inside is kept. *)
Theorem remove_outliers_log_band df column n_std get out :
  column_reader df column = Ok get ->
  remove_outliers df column n_std true = Ok out ->
  let logs := map (fun r => np_log (get r)) (rows df) in
  forall r,
    In r (rows out) <->
    In r (rows df) /\
    fge (np_log (get r)) (band_low logs n_std) = true /\
    fle (np_log (get r)) (band_high logs n_std) = true.
Proof.
  intros Hget Hrun logs r.
  destruct (rows df) as [|r0 t] eqn:Er.
  { unfold SilverToGold.remove_outliers in Hrun. rewrite Hget, Er in Hrun.
    discriminate Hrun. }
  rewrite (remove_outliers_eq df column n_std true get Hget) in Hrun
    by (rewrite Er; discriminate).
  injection Hrun as <-. cbn [rows]. cbv zeta. rewrite Er. fold logs.
  rewrite filter_In. unfold within. rewrite andb_true_iff. reflexivity.
Qed.

(** The call returns on every table that has rows and the column as numbers;
    on a table without rows the percentage in the log line divides by zero. *)
Lemma remove_outliers_returns df column n_std use_log get :
  column_reader df column = Ok get ->
  rows df <> [] ->
  exists out, remove_outliers df column n_std use_log = Ok out.
Proof.
  intros Hget Hne. rewrite (remove_outliers_eq _ _ _ _ _ Hget Hne). eauto.
Qed.

(** On a table without rows the call raises [ZeroDivisionError], whatever
    [n_std] and [use_log]: the percentage of its log line divides by the
    number of rows. *)
Lemma remove_outliers_empty df column n_std use_log get :
  column_reader df column = Ok get ->
  rows df = [] ->
  remove_outliers df column n_std use_log = Raise ZeroDivisionError.
Proof.
  intros Hget He. unfold SilverToGold.remove_outliers. rewrite Hget, He. reflexivity.
Qed.

(** C10: on a table of one row the sample standard deviation is NaN, both
    bounds of the band are NaN, and the row is dropped, whatever its value,
    [n_std] and [use_log]. *)
Theorem remove_outliers_single_row df column n_std use_log get r :
  column_reader df column = Ok get ->
  rows df = [r] ->
  remove_outliers df column n_std use_log = Ok {| columns := columns df; rows := [] |}.
Proof.
  intros Hget Hr.
  rewrite (remove_outliers_eq df column n_std use_log get Hget) by (rewrite Hr; discriminate).
  f_equal. f_equal. rewrite Hr. cbv zeta. cbn [map List.filter].
  rewrite band_low_single, within_nan_low. reflexivity.
Qed.

End Libm.

Lemma remove_outliers_empty_witness :
  remove_outliers coarse_ln {| columns := silver_columns; rows := [] |}
    cPrice_in_eur (of_Z 3) true
  = Raise ZeroDivisionError.
Proof.
  apply (remove_outliers_empty coarse_ln _ cPrice_in_eur (of_Z 3) true price_in_eur);
    reflexivity.
Defined.

Lemma remove_outliers_log_band_witness :
  (In (priced 100) (rows fifteen_prices) <->
   In (priced 100) (rows sixteen_prices) /\
   fge (np_log coarse_ln (price_in_eur (priced 100)))
       (band_low (map (fun r => np_log coarse_ln (price_in_eur r)) (rows sixteen_prices))
                 (of_Z 3)) = true /\
   fle (np_log coarse_ln (price_in_eur (priced 100)))
       (band_high (map (fun r => np_log coarse_ln (price_in_eur r)) (rows sixteen_prices))
                  (of_Z 3)) = true) /\
  (In (priced (2 ^ 40)) (rows fifteen_prices) <->
   In (priced (2 ^ 40)) (rows sixteen_prices) /\
   fge (np_log coarse_ln (price_in_eur (priced (2 ^ 40))))
       (band_low (map (fun r => np_log coarse_ln (price_in_eur r)) (rows sixteen_prices))
                 (of_Z 3)) = true /\
   fle (np_log coarse_ln (price_in_eur (priced (2 ^ 40))))
       (band_high (map (fun r => np_log coarse_ln (price_in_eur r)) (rows sixteen_prices))
                  (of_Z 3)) = true).
Proof.
  split;
    apply (remove_outliers_log_band coarse_ln sixteen_prices cPrice_in_eur (of_Z 3)
             price_in_eur fifteen_prices);
    first [reflexivity | vm_compute; reflexivity].
Defined.

Lemma remove_outliers_single_row_witness :
  remove_outliers coarse_ln {| columns := silver_columns; rows := [priced 100] |}
    cPrice_in_eur (of_Z 3) true
  = Ok {| columns := silver_columns; rows := [] |}.
Proof.
  apply (remove_outliers_single_row coarse_ln
           {| columns := silver_columns; rows := [priced 100] |}
           cPrice_in_eur (of_Z 3) true price_in_eur (priced 100)).
  - reflexivity.
  - reflexivity.
Defined.

(** *** The listing score *)

Lemma wrap64_small z : (- 2 ^ 63 <= z < 2 ^ 63)%Z -> wrap64 z = z.
Proof. intros Hz. unfold wrap64. rewrite Z.mod_small; lia. Qed.

Lemma total_app l1 l2 r : total (l1 ++ l2) r = (total l1 r + total l2 r)%Z.
Proof.
  induction l1 as [|f l1 IH]; simpl; [reflexivity|].
  change (fold_right _ 0%Z (l1 ++ l2)) with (total (l1 ++ l2) r).
  change (fold_right _ 0%Z l1) with (total l1 r). rewrite IH. lia.
Qed.

Lemma total_optional (b : bool) f r :
  total (if b then [f] else []) r = if b then f r else 0%Z.
Proof. destruct b; simpl; lia. Qed.

Lemma sum_axis1_from components r acc :
  Forall (small_at r) components ->
  (0 <= acc)%Z -> (acc + 20 * Z.of_nat (length components) < 2 ^ 62)%Z ->
  fold_left (fun a f => wrap64 (a + f r)) components acc = (acc + total components r)%Z.
Proof.
  revert acc. induction components as [|f l IH]; intros acc Hall Hacc Hbound.
  - simpl. lia.
  - inversion Hall as [|f' l' Hf Hl]; subst. unfold small_at in Hf.
    cbn [fold_left]. simpl length in Hbound.
    rewrite wrap64_small by lia.
    rewrite IH; [simpl; lia | exact Hl | lia | lia].
Qed.

Lemma sum_axis1_total components r :
  Forall (small_at r) components -> (length components <= 7)%nat ->
  sum_axis1 components r = total components r.
Proof.
  intros Hall Hlen. unfold sum_axis1.
  rewrite sum_axis1_from; [lia | exact Hall | lia | lia].
Qed.

Lemma flag_component (b : bool) z w :
  (b = true -> is_flag z) -> (0 < w <= 20)%Z ->
  (if b then wrap64 (z * w) else 0%Z) = (if b && bool_decide (z = 1%Z) then w else 0%Z) /\
  (0 <= (if b then wrap64 (z * w) else 0) <= 20)%Z.
Proof.
  intros Hflag Hw. destruct b; simpl; [|lia].
  destruct (Hflag eq_refl) as [-> | ->]; simpl.
  - rewrite wrap64_small; lia.
  - rewrite Z.mul_1_l, wrap64_small by lia. lia.
Qed.

Lemma not_unknown_decide cell :
  not_unknown cell = bool_decide (cell <> Some "Unknown").
Proof.
  unfold not_unknown. destruct cell as [s|].
  - destruct (String.eqb_spec s "Unknown") as [Heq | Hne]; cbn [negb]; symmetry.
    + apply bool_decide_eq_false_2. intros H. apply H. rewrite Heq. reflexivity.
    + apply bool_decide_eq_true_2. intros [= H]. contradiction.
  - symmetry. apply bool_decide_eq_true_2. discriminate.
Qed.

Lemma notna_decide (cell : option string) : notna cell = bool_decide (cell <> None).
Proof.
  unfold notna. destruct cell as [s|]; symmetry.
  - apply bool_decide_eq_true_2. discriminate.
  - apply bool_decide_eq_false_2. intros H. apply H. reflexivity.
Qed.

Lemma bool_component (x : bool) w :
  (0 < w <= 20)%Z ->
  wrap64 (Z.b2z x * w) = (if x then w else 0%Z) /\ (0 <= wrap64 (Z.b2z x * w) <= 20)%Z.
Proof.
  intros Hw. destruct x; simpl Z.b2z.
  - rewrite Z.mul_1_l, wrap64_small by lia. lia.
  - rewrite Z.mul_0_l. split; [reflexivity | vm_compute; split; discriminate].
Qed.

Lemma optional_small (b : bool) f r :
  (b = true -> small_at r f) -> Forall (small_at r) (if b then [f] else []).
Proof. destruct b; intros H; [constructor; [apply H; reflexivity | constructor] | constructor]. Qed.

Lemma optional_length {A} (b : bool) (x : A) : (length (if b then [x] else []) <= 1)%nat.
Proof. destruct b; simpl; lia. Qed.

Lemma score_components_small df r :
  (has_col df cPTS = true -> is_flag (PTS r)) ->
  (has_col df cIs_fully_restored = true -> is_flag (is_fully_restored r)) ->
  Forall (small_at r) (score_components df) /\ (length (score_components df) <= 7)%nat.
Proof.
  intros Hp Hr. unfold score_components. split.
  - repeat (apply Forall_app; split); apply optional_small; intros Hc; unfold small_at.
    + apply bool_component; lia.
    + apply bool_component; lia.
    + apply bool_component; lia.
    + apply bool_component; lia.
    + pose proof (flag_component true (PTS r) 15 (fun _ => Hp Hc)) as [_ H]; [lia|exact H].
    + pose proof (flag_component true (is_fully_restored r) 20 (fun _ => Hr Hc)) as [_ H];
        [lia|exact H].
    + destruct (flt _ _); lia.
  - rewrite !length_app.
    pose proof (fun A b (x : A) => optional_length b x) as L.
    repeat match goal with
           | |- context [length (if ?b then [?x] else [])] =>
               let H := fresh "H" in
               pose proof (L _ b x) as H;
               generalize dependent (length (if b then [x] else [])); intros
           end.
    lia.
Qed.

Lemma score_components_total df r :
  (has_col df cPTS = true -> is_flag (PTS r)) ->
  (has_col df cIs_fully_restored = true -> is_flag (is_fully_restored r)) ->
  total (score_components df) r = contract_score df r.
Proof.
  intros Hp Hr. unfold score_components, contract_score.
  rewrite !total_app, !total_optional.
  destruct (flag_component (has_col df cPTS) (PTS r) 15 Hp) as [-> _]; [lia|].
  destruct (flag_component (has_col df cIs_fully_restored) (is_fully_restored r) 20 Hr)
    as [-> _]; [lia|].
  repeat match goal with
         | |- context [wrap64 (Z.b2z ?x * ?w)] =>
             let H := fresh in
             destruct (bool_component x w) as [H _]; [lia|]; rewrite H; clear H
         end.
  rewrite <- !not_unknown_decide, <- !notna_decide.
  destruct (has_col df cMatching_numbers), (has_col df cNumber_of_vehicle_owners),
    (has_col df cInterior_color), (has_col df cExterior_color), (has_col df cMileage_km);
    cbn [andb]; lia.
Qed.

Lemma calculate_listing_score_rows df :
  rows (calculate_listing_score df) =
  map (fun r => set_listing_score r (sum_axis1 (score_components df) r)) (rows df).
Proof.
  unfold calculate_listing_score. cbn [rows].
  destruct (score_components df) as [|f l] eqn:E; reflexivity.
Qed.

Lemma contract_score_no_columns df r :
  (forall c, In c source_columns -> has_col df c = false) -> contract_score df r = 0%Z.
Proof.
  intros H. unfold contract_score.
  rewrite !H by (simpl; tauto). reflexivity.
Qed.

(** C9: the score of each row is the sum of the seven weights, each counted
    when its column is in the table and its signal holds; a signal whose
    column is absent adds nothing, and a table with none of the columns gets
    0 on every row.  The function is total: it returns a table for every
    table. *)
Theorem calculate_listing_score_contract df :
  flags_ok df ->
  calculate_listing_score df =
    {| columns := add_col cListing_score (columns df);
       rows := map (fun r => set_listing_score r (contract_score df r)) (rows df) |} /\
  ((forall c, In c source_columns -> has_col df c = false) ->
   forall r, In r (rows (calculate_listing_score df)) -> listing_score r = 0%Z).
Proof.
  intros Hflags.
  assert (Hrows : rows (calculate_listing_score df) =
                  map (fun r => set_listing_score r (contract_score df r)) (rows df)).
  { rewrite calculate_listing_score_rows. apply map_ext_in. intros r Hr.
    destruct (Hflags r Hr) as [Hp Hf].
    destruct (score_components_small df r Hp Hf) as [Hsmall Hlen].
    rewrite (sum_axis1_total _ r Hsmall Hlen), (score_components_total df r Hp Hf).
    reflexivity. }
  split.
  - rewrite <- Hrows. reflexivity.
  - intros Hnone r Hr. rewrite Hrows in Hr.
    apply in_map_iff in Hr as (r0 & <- & _). cbn [listing_score set_listing_score].
    apply contract_score_no_columns, Hnone.
Qed.

Lemma calculate_listing_score_contract_witness :
  calculate_listing_score two_listings =
    {| columns := add_col cListing_score (columns two_listings);
       rows := map (fun r => set_listing_score r (contract_score two_listings r))
                   (rows two_listings) |} /\
  ((forall c, In c source_columns -> has_col two_listings c = false) ->
   forall r, In r (rows (calculate_listing_score two_listings)) -> listing_score r = 0%Z).
Proof.
  apply calculate_listing_score_contract.
  intros r [<- | [<- | []]]; split; intros _; unfold is_flag; simpl; auto.
Defined.

(** The first row: matching numbers known (10), owners "Unknown" (0),
    interior colour present (5), exterior colour missing (0), PTS (15), not
    restored (0), 42000 km (10).  The second row: its two missing text cells
    differ from "Unknown" (10 + 10), and nothing else counts. *)
Example score_of_priced :
  map listing_score (rows (calculate_listing_score two_listings)) = [40%Z; 20%Z].
Proof. vm_compute. reflexivity. Qed.

(** *** The logarithm of a price that is not positive *)

Lemma add_col_has c d cols :
  bool_decide (c ∈ cols) = true -> bool_decide (c ∈ add_col d cols) = true.
Proof.
  intros H. unfold add_col. destruct (bool_decide (d ∈ cols)); [exact H|].
  apply bool_decide_eq_true. apply bool_decide_eq_true in H.
  apply elem_of_app. left. exact H.
Qed.

Section Features.

Variable ln_pos : positive -> Z -> float.
Variable log1p_fin : bool -> positive -> Z -> float.

Abbreviation np_log' := (SilverToGold.np_log ln_pos).

Lemma np_log_zero s : np_log' (S754_zero s) = ninf.
Proof. reflexivity. Qed.

Lemma np_log_negative x : flt x zero = true -> np_log' x = nan.
Proof. destruct x as [s|[]| |[] m e]; simpl; try discriminate; reflexivity. Qed.

Lemma before_features_has_price silver flag std df :
  before_features ln_pos silver flag std = Ok df -> has_col df cPrice_in_eur = true.
Proof.
  unfold before_features, dropna_price.
  destruct (has_col silver cPrice_in_eur) eqn:Hc; [|discriminate]. cbn [rbind].
  destruct flag.
  - unfold remove_outliers, column_reader, has_col. cbn [columns numeric rbind].
    unfold has_col in Hc. rewrite Hc. cbn [rbind].
    destruct (length _ =? 0)%nat; [discriminate|].
    intros [= <-]. exact Hc.
  - intros [= <-]. exact Hc.
Qed.

Lemma process_eq silver flag std :
  process_silver_to_gold ln_pos log1p_fin silver flag std =
  rbind (before_features ln_pos silver flag std) (fun df =>
    Ok (prepare_modeling_features
          (calculate_listing_score
             (create_model_categories
                (create_log_features_typed ln_pos log1p_fin
                   (is_int64 (map Mileage_km (rows silver))) df))))).
Proof.
  unfold process_silver_to_gold, before_features.
  destruct (dropna_price silver) as [df|e]; reflexivity.
Qed.

(** The four steps after the filter, on the rows. *)
Lemma features_rows km_int64 df :
  has_col df cPrice_in_eur = true ->
  exists finish : Row -> Row,
    rows (prepare_modeling_features
            (calculate_listing_score
               (create_model_categories
                  (create_log_features_typed ln_pos log1p_fin km_int64 df))))
    = map finish (rows df) /\
    forall r, price_in_eur (finish r) = price_in_eur r /\
              log_price (finish r) = np_log' (price_in_eur r).
Proof.
  intros Hp.
  set (d1 := create_log_features_typed ln_pos log1p_fin km_int64 df).
  assert (H1 : exists f1, rows d1 = map f1 (rows df) /\
                 forall r, price_in_eur (f1 r) = price_in_eur r /\
                           log_price (f1 r) = np_log' (price_in_eur r)).
  { unfold d1, create_log_features_typed. rewrite Hp.
    match goal with |- context [if ?b then _ else _] => destruct b end; cbn [rows].
    - rewrite map_map. eexists. split; [reflexivity|]. intros r. split; reflexivity.
    - eexists. split; [reflexivity|]. intros r. split; reflexivity. }
  destruct H1 as (f1 & Hr1 & Hf1).
  set (d2 := create_model_categories d1).
  assert (H2 : exists f2, rows d2 = map f2 (rows d1) /\
                 forall r, price_in_eur (f2 r) = price_in_eur r /\
                           log_price (f2 r) = log_price r).
  { unfold d2, create_model_categories. destruct (negb (has_col d1 cModel)); cbn [rows].
    - exists id. rewrite map_id. split; [reflexivity|]. intros r; split; reflexivity.
    - eexists. split; [reflexivity|]. intros r; split; reflexivity. }
  destruct H2 as (f2 & Hr2 & Hf2).
  set (d3 := calculate_listing_score d2).
  rewrite Hr1 in Hr2. rewrite map_map in Hr2.
  exists (fun r => set_colors
            (set_listing_score (f2 (f1 r)) (sum_axis1 (score_components d2) (f2 (f1 r))))
            ((if has_col d3 cInterior_color then fillna_unknown else id)
               (Interior_color (set_listing_score (f2 (f1 r))
                                  (sum_axis1 (score_components d2) (f2 (f1 r))))))
            ((if has_col d3 cExterior_color then fillna_unknown else id)
               (Exterior_color (set_listing_score (f2 (f1 r))
                                  (sum_axis1 (score_components d2) (f2 (f1 r))))))).
  split.
  - unfold prepare_modeling_features. cbn [rows]. fold d3.
    unfold d3 at 3. rewrite calculate_listing_score_rows, Hr2, !map_map. reflexivity.
  - intros r. cbn [price_in_eur log_price set_colors set_listing_score].
    destruct (Hf2 (f1 r)) as [-> ->]. apply Hf1.
Qed.

(** C8 (amended): a price that is not positive does not stop the run.  Once
    the table has reached the feature stage the run returns the table it
    writes, with every row of that stage in it; [log_price] is the value of
    [np.log], which is -inf for a zero price and NaN for a negative one. *)
Theorem nonpositive_price_is_logged silver remove_price_outliers outlier_std df :
  before_features ln_pos silver remove_price_outliers outlier_std = Ok df ->
  exists out,
    process_silver_to_gold ln_pos log1p_fin silver remove_price_outliers outlier_std = Ok out /\
    map price_in_eur (rows out) = map price_in_eur (rows df) /\
    forall r, In r (rows out) ->
      log_price r = np_log' (price_in_eur r) /\
      (truthy (price_in_eur r) = false -> log_price r = ninf) /\
      (flt (price_in_eur r) zero = true -> log_price r = nan).
Proof.
  intros Hb. rewrite process_eq, Hb. cbn [rbind].
  eexists. split; [reflexivity|].
  destruct (features_rows (is_int64 (map Mileage_km (rows silver))) df
              (before_features_has_price _ _ _ _ Hb)) as (finish & -> & Hfin).
  split.
  - rewrite map_map. apply map_ext. intros r. apply Hfin.
  - intros r Hr. apply in_map_iff in Hr as (r0 & <- & _).
    destruct (Hfin r0) as [Hp Hl]. rewrite Hp, Hl. split; [reflexivity|]. split.
    + destruct (price_in_eur r0); simpl; try discriminate. reflexivity.
    + apply np_log_negative.
Qed.

End Features.

(** C8, as stated, fails: with the outlier filter switched off a row whose
    price is 0 reaches the feature stage, and the run returns the table it
    writes instead of raising. *)
Lemma zero_price_run_completes :
  ~ (forall ln_pos log1p_fin silver remove_price_outliers outlier_std df,
       before_features ln_pos silver remove_price_outliers outlier_std = Ok df ->
       (exists r, In r (rows df) /\ fle (price_in_eur r) zero = true) ->
       exists e, process_silver_to_gold ln_pos log1p_fin silver
                   remove_price_outliers outlier_std = Raise e).
Proof.
  intros H.
  destruct (H coarse_ln coarse_log1p zero_price_table false (of_Z 3) zero_price_table)
    as [e He].
  - reflexivity.
  - exists (priced 0). split; [left; reflexivity | reflexivity].
  - vm_compute in He. discriminate He.
Qed.

Lemma nonpositive_price_is_logged_witness :
  exists out,
    process_silver_to_gold coarse_ln coarse_log1p negative_price_table false (of_Z 3) = Ok out /\
    map price_in_eur (rows out) = map price_in_eur (rows negative_price_table) /\
    forall r, In r (rows out) ->
      log_price r = np_log coarse_ln (price_in_eur r) /\
      (truthy (price_in_eur r) = false -> log_price r = ninf) /\
      (flt (price_in_eur r) zero = true -> log_price r = nan).
Proof.
  apply (nonpositive_price_is_logged coarse_ln coarse_log1p negative_price_table false (of_Z 3)).
  reflexivity.
Defined.

Example log_price_of_zero :
  option_map (fun out => map log_price (rows out))
    (match process_silver_to_gold coarse_ln coarse_log1p zero_price_table false (of_Z 3) with
     | Ok out => Some out | Raise _ => None end)
  = Some [ninf].
Proof. vm_compute. reflexivity. Qed.

Example log_price_of_negative :
  option_map (fun out => map log_price (rows out))
    (match process_silver_to_gold coarse_ln coarse_log1p negative_price_table false (of_Z 3) with
     | Ok out => Some out | Raise _ => None end)
  = Some [of_Z 6; nan].
Proof. vm_compute. reflexivity. Qed.

(** The three categories of the specification's scenario. *)
Example categories :
  map categorize_model [Some "911 Turbo"; Some "Carrera GT"; Some "Unknown Model XYZ"; None]
  = ["911"; "Supercar"; "Other"; "Other"].
Proof. vm_compute. reflexivity. Qed.

End SilverToGoldProofs.

(** ** Further facts about binary64 arithmetic: infinities *)

Module F64Facts.
Import F64Notions F64Proofs F64MoreNotions.

Lemma fadd_tainted_l s a v : tainted s a -> tainted s (fadd a v).
Proof.
  intros [-> | ->]; [|right; reflexivity].
  destruct v as [s'|s'| |s' m e]; destruct s; try destruct s'; unfold tainted; simpl; auto.
Qed.

Lemma fadd_tainted_r s a : tainted s (fadd a (S754_infinity s)).
Proof.
  destruct a as [s'|s'| |s' m e]; destruct s; try destruct s'; unfold tainted; simpl; auto.
Qed.

Lemma fdiv_tainted s a y : tainted s a -> nonneg y -> tainted s (fdiv a y).
Proof.
  intros [-> | ->] Hy; [|right; reflexivity].
  destruct y as [s'|s'| |s' m e]; simpl in Hy; try contradiction; subst s';
    destruct s; unfold tainted; simpl; auto.
Qed.

Lemma fsub_tainted_inf s a : tainted s a -> fsub a (S754_infinity s) = nan.
Proof. intros [-> | ->]; destruct s; reflexivity. Qed.

End F64Facts.

(** ** Further facts about the outlier filter and the feature engineer *)

Module SilverToGoldFacts.
Import Text SilverToGold F64Notions F64Proofs F64MoreNotions F64Facts.
Import GoldNotions GoldMoreNotions SilverToGoldProofs.

Section NoRows.
Variable ln_pos : positive -> Z -> float.

Lemma no_rows_raise df column n_std use_log get :
  column_reader df column = Ok get ->
  rows df = [] ->
  remove_outliers ln_pos df column n_std use_log = Raise ZeroDivisionError.
Proof.
  intros Hget He. unfold remove_outliers. rewrite Hget, He. reflexivity.
Qed.

End NoRows.

Lemma putmask_zero_In v vs : In v vs -> is_nan v = false -> In v (putmask_zero vs).
Proof.
  intros Hin Hv. unfold putmask_zero. apply in_map_iff. exists v.
  rewrite Hv. auto.
Qed.

(** *** Sums *)

Section Absorbing.

(** A property of floats that an addition keeps, on either side. *)
Variable P : float -> Prop.
Hypothesis P_l : forall x y, P x -> P (fadd x y).
Hypothesis P_r : forall x y, P y -> P (fadd x y).

Abbreviation lanes_have := (GoldMoreNotions.lanes_have P).

Lemma fold_absorbs l a : P a \/ Exists P l -> P (fold_left fadd l a).
Proof.
  revert a. induction l as [|v l IH]; intros a [Ha | Hl]; cbn [fold_left].
  - exact Ha.
  - inversion Hl.
  - apply IH. left. apply P_l, Ha.
  - apply IH. inversion Hl; subst; [left; apply P_r; assumption | right; assumption].
Qed.

Lemma add_lanes_absorbs r : lanes_have r -> P (add_lanes r).
Proof.
  destruct r as [r0 r1 r2 r3 r4 r5 r6 r7]. unfold GoldMoreNotions.lanes_have, add_lanes.
  intros [H|[H|[H|[H|[H|[H|[H|H]]]]]]]; auto 6 using P_l, P_r.
Qed.

Lemma block_loop_absorbs n : forall a r,
  (length a <= n)%nat ->
  lanes_have r \/ Exists P a ->
  lanes_have (fst (block_loop r a)) \/ Exists P (snd (block_loop r a)).
Proof.
  induction n as [n IH] using lt_wf_ind. intros a r Hn H.
  destruct a as [|a0 [|a1 [|a2 [|a3 [|a4 [|a5 [|a6 [|a7 rest]]]]]]]]; try exact H.
  destruct r as [r0 r1 r2 r3 r4 r5 r6 r7]. cbn [block_loop].
  apply (IH (length rest)); [cbn [length] in Hn; lia | lia |].
  destruct H as [H | H].
  - left. unfold GoldMoreNotions.lanes_have in *.
    destruct H as [H|[H|[H|[H|[H|[H|[H|H]]]]]]]; auto 10.
  - repeat match goal with
           | H : Exists P (_ :: _) |- _ => inversion H; clear H; subst
           end; try (left; unfold GoldMoreNotions.lanes_have; auto 10; fail).
    right. assumption.
Qed.

Lemma block_sum_absorbs a : Exists P a -> P (block_sum a).
Proof.
  intros H. unfold block_sum.
  destruct a as [|a0 [|a1 [|a2 [|a3 [|a4 [|a5 [|a6 [|a7 rest]]]]]]]];
    try (apply fold_absorbs; right; exact H).
  pose proof (block_loop_absorbs (length rest) rest (Lanes a0 a1 a2 a3 a4 a5 a6 a7)
                (Nat.le_refl _)) as Hl.
  destruct (block_loop (Lanes a0 a1 a2 a3 a4 a5 a6 a7) rest) as [r tail].
  cbn [fst snd] in Hl. apply fold_absorbs.
  destruct Hl as [Hl | Hl]; [| left; apply add_lanes_absorbs, Hl | right; exact Hl].
  repeat match goal with
         | H : Exists P (_ :: _) |- _ => inversion H; clear H; subst
         end; try (left; unfold GoldMoreNotions.lanes_have; auto 10; fail).
  right. assumption.
Qed.

Lemma pairwise_sum_absorbs fuel : forall a, Exists P a -> P (pairwise_sum fuel a).
Proof.
  induction fuel as [|fuel IH]; intros a H; cbn [pairwise_sum]; [apply block_sum_absorbs, H|].
  cbv zeta. destruct (128 <? length a)%nat; [|apply block_sum_absorbs, H].
  set (n2 := (length a / 2 - (length a / 2) mod 8)%nat).
  rewrite <- (firstn_skipn n2 a) in H. apply Exists_app in H as [H | H].
  - apply P_l, IH, H.
  - apply P_r, IH, H.
Qed.

Lemma fsum_absorbs vs : Exists P vs -> P (fsum vs).
Proof. intros H. apply P_r, pairwise_sum_absorbs, H. Qed.

End Absorbing.

(** The halving never runs out of fuel: more fuel than the length of the
    list changes nothing. *)
Lemma pairwise_sum_fuel f1 : forall f2 a,
  (length a <= f1)%nat -> (length a <= f2)%nat ->
  pairwise_sum f1 a = pairwise_sum f2 a.
Proof.
  induction f1 as [|f1 IH]; intros f2 a H1 H2.
  - destruct a; [|cbn [length] in H1; lia]. destruct f2; reflexivity.
  - destruct f2 as [|f2].
    { destruct a; [reflexivity | cbn [length] in H2; lia]. }
    cbn [pairwise_sum]. cbv zeta.
    destruct (128 <? length a)%nat eqn:E; [|reflexivity].
    apply Nat.ltb_lt in E.
    set (n2 := (length a / 2 - (length a / 2) mod 8)%nat).
    assert (Hn2 : (0 < n2 < length a)%nat).
    { unfold n2. pose proof (Nat.mod_upper_bound (length a / 2) 8 ltac:(lia)).
      pose proof (Nat.div_lt (length a) 2 ltac:(lia) ltac:(lia)).
      assert (64 <= length a / 2)%nat by (apply Nat.div_le_lower_bound; lia). lia. }
    f_equal; apply IH; rewrite ?length_firstn, ?length_skipn; lia.
Qed.

Lemma fadd_tainted_any s x y : tainted s y -> tainted s (fadd x y).
Proof.
  intros [-> | ->]; [apply fadd_tainted_r|]. right. apply fadd_nan_r.
Qed.

(** One infinite value makes the standard deviation NaN: the mean is that
    infinity or NaN, and the deviation of the value from it is NaN. *)
Lemma series_std_inf s vs : In (S754_infinity s) vs -> series_std vs = nan.
Proof.
  intros Hin. unfold series_std. destruct (count_notna vs <=? 1)%nat; [reflexivity|].
  cbv zeta.
  set (avg := fdiv (fsum (putmask_zero vs)) (of_Z (Z.of_nat (count_notna vs)))).
  assert (Havg : tainted s avg).
  { apply fdiv_tainted; [|apply of_Z_nonneg; lia].
    apply (fsum_absorbs (tainted s)).
    - intros x y. apply fadd_tainted_l.
    - intros x y. apply fadd_tainted_any.
    - apply List.Exists_exists. exists (S754_infinity s).
      split; [apply putmask_zero_In; [exact Hin | reflexivity] | left; reflexivity]. }
  assert (Hsq : In nan (map (fun v => if is_nan v then zero
                                      else fmul (fsub avg v) (fsub avg v)) vs)).
  { apply in_map_iff. exists (S754_infinity s). split; [|exact Hin].
    cbn [is_nan]. rewrite (fsub_tainted_inf s avg Havg). reflexivity. }
  rewrite (fsum_absorbs (fun x => x = nan)).
  - reflexivity.
  - intros x y ->. reflexivity.
  - intros x y ->. apply fadd_nan_r.
  - apply List.Exists_exists. exists nan. split; [exact Hsq | reflexivity].
Qed.

Lemma band_low_nan_std vs n_std : series_std vs = nan -> band_low vs n_std = nan.
Proof. intros H. unfold band_low. rewrite H, fmul_nan_r, fsub_nan_r. reflexivity. Qed.

Lemma filter_none {A} (f : A -> bool) l : (forall a, In a l -> f a = false) -> List.filter f l = [].
Proof.
  induction l as [|a l IH]; intros H; [reflexivity|].
  simpl. rewrite (H a (or_introl eq_refl)). apply IH. intros b Hb. apply H. right. exact Hb.
Qed.


Section Libm.

Variable ln_pos : positive -> Z -> float.
Variable log1p_fin : bool -> positive -> Z -> float.

Abbreviation np_log := (SilverToGold.np_log ln_pos).
Abbreviation remove_outliers := (SilverToGold.remove_outliers ln_pos).
Abbreviation process_silver_to_gold := (SilverToGold.process_silver_to_gold ln_pos log1p_fin).

(** The logarithm is a number only for a positive argument. *)
Lemma np_log_not_positive x :
  flt zero x = false -> np_log x = nan \/ np_log x = ninf.
Proof.
  destruct x as [s|[]| |[] m e]; simpl; try discriminate; auto.
Qed.

(** Without [use_log]: the rows that come back are the rows of the input whose
    value lies in the inclusive band of the values, in both directions. *)
Theorem remove_outliers_plain_band df column n_std get out :
  column_reader df column = Ok get ->
  remove_outliers df column n_std false = Ok out ->
  let values := map get (rows df) in
  forall r,
    In r (rows out) <->
    In r (rows df) /\
    fge (get r) (band_low values n_std) = true /\
    fle (get r) (band_high values n_std) = true.
Proof.
  intros Hget Hrun values r.
  destruct (rows df) as [|r0 t] eqn:Er.
  { rewrite (no_rows_raise ln_pos df column n_std false get Hget Er) in Hrun.
    discriminate Hrun. }
  rewrite (remove_outliers_eq ln_pos df column n_std false get Hget) in Hrun
    by (rewrite Er; discriminate).
  injection Hrun as <-. cbn [rows]. cbv zeta. rewrite Er. fold values.
  rewrite filter_In. unfold within. rewrite andb_true_iff. reflexivity.
Qed.



(** With [use_log], a single value that is zero (or infinite) empties the
    table: its logarithm is infinite, the standard deviation of the
    logarithms is NaN, and no row passes a NaN bound. *)
Theorem remove_outliers_log_zero_empties df column n_std get r0 :
  column_reader df column = Ok get ->
  In r0 (rows df) ->
  truthy (get r0) = false \/ get r0 = pinf ->
  remove_outliers df column n_std true = Ok {| columns := columns df; rows := [] |}.
Proof.
  intros Hget Hin Hzero.
  rewrite (remove_outliers_eq ln_pos df column n_std true get Hget)
    by (intros E; rewrite E in Hin; destruct Hin).
  f_equal. f_equal. cbv zeta. apply filter_none. intros r _.
  assert (Hinf : exists s, In (S754_infinity s) (map (fun r => np_log (get r)) (rows df))).
  { destruct Hzero as [Hz | Hp].
    - exists true. apply in_map_iff. exists r0. split; [|exact Hin].
      destruct (get r0); try discriminate Hz. reflexivity.
    - exists false. apply in_map_iff. exists r0. split; [|exact Hin].
      rewrite Hp. reflexivity. }
  destruct Hinf as [s Hs].
  rewrite (band_low_nan_std _ n_std (series_std_inf s _ Hs)). reflexivity.
Qed.

Lemma log_band_positive df column n_std get out :
  column_reader df column = Ok get ->
  remove_outliers df column n_std true = Ok out ->
  forall r, In r (rows out) -> flt zero (get r) = true.
Proof.
  intros Hget Hrun r Hr.
  destruct (rows df) as [|r0 t] eqn:Er.
  { rewrite (no_rows_raise ln_pos df column n_std true get Hget Er) in Hrun.
    discriminate Hrun. }
  rewrite (remove_outliers_eq ln_pos df column n_std true get Hget) in Hrun
    by (rewrite Er; discriminate).
  injection Hrun as <-. cbn [rows] in Hr. cbv zeta in Hr.
  apply filter_In in Hr as [Hin Hw].
  destruct (flt zero (get r)) eqn:Hpos; [reflexivity|exfalso].
  unfold within in Hw. apply andb_prop in Hw as [Hlo _].
  destruct (np_log_not_positive (get r) Hpos) as [Hnan | Hninf].
  - rewrite Hnan in Hlo. destruct (band_low _ n_std); discriminate Hlo.
  - assert (Hs : In ninf (map (fun r => np_log (get r)) (rows df))).
    { apply in_map_iff. exists r. auto. }
    rewrite (band_low_nan_std _ n_std (series_std_inf true _ Hs)) in Hlo.
    discriminate Hlo.
Qed.

(** *** The whole stage *)

Lemma dropna_price_eq silver :
  dropna_price silver =
  if has_col silver cPrice_in_eur
  then Ok {| columns := columns silver; rows := priced_rows silver |}
  else Raise KeyError.
Proof. reflexivity. Qed.

Lemma price_reader (df : DataFrame) :
  has_col df cPrice_in_eur = true -> column_reader df cPrice_in_eur = Ok price_in_eur.
Proof. intros H. unfold column_reader. rewrite H. reflexivity. Qed.

Lemma features_rows_map km_int64 df :
  has_col df cPrice_in_eur = true ->
  exists finish : Row -> Row,
    rows (features ln_pos log1p_fin km_int64 df) = map finish (rows df) /\
    forall r, price_in_eur (finish r) = price_in_eur r /\
              log_price (finish r) = np_log (price_in_eur r).
Proof. intros H. exact (features_rows ln_pos log1p_fin km_int64 df H). Qed.

(** How a run of the stage ends: [KeyError] without the price column,
    [ZeroDivisionError] when the filter is on and no row has a price, and the
    written table in every other case. *)
Theorem process_silver_to_gold_outcome silver remove_price_outliers outlier_std :
  (has_col silver cPrice_in_eur = false ->
   process_silver_to_gold silver remove_price_outliers outlier_std = Raise KeyError) /\
  (has_col silver cPrice_in_eur = true -> remove_price_outliers = true ->
   priced_rows silver = [] ->
   process_silver_to_gold silver remove_price_outliers outlier_std
   = Raise ZeroDivisionError) /\
  (has_col silver cPrice_in_eur = true ->
   remove_price_outliers = false \/ priced_rows silver <> [] ->
   exists out,
     process_silver_to_gold silver remove_price_outliers outlier_std = Ok out).
Proof.
  unfold SilverToGold.process_silver_to_gold. rewrite dropna_price_eq.
  split; [|split].
  - intros ->. reflexivity.
  - intros Hc -> Hnone. rewrite Hc. cbn [rbind].
    rewrite (no_rows_raise ln_pos _ cPrice_in_eur outlier_std true price_in_eur);
      [reflexivity | apply price_reader; exact Hc | exact Hnone].
  - intros Hc Hsome. rewrite Hc. cbn [rbind].
    destruct remove_price_outliers; [|cbn [rbind]; eauto].
    destruct Hsome as [Hf | Hne]; [discriminate Hf|].
    destruct (remove_outliers_returns ln_pos
                {| columns := columns silver; rows := priced_rows silver |}
                cPrice_in_eur outlier_std true price_in_eur) as [out Hout];
      [apply price_reader; exact Hc | exact Hne |].
    rewrite Hout. cbn [rbind]. eauto.
Qed.

(** With the filter on, every row of the written table has a price above
    zero, and its [log_price] is the logarithm of that price. *)
Theorem gold_prices_positive silver outlier_std out :
  process_silver_to_gold silver true outlier_std = Ok out ->
  forall r, In r (rows out) ->
    flt zero (price_in_eur r) = true /\ log_price r = np_log (price_in_eur r).
Proof.
  intros Hrun r Hr. rewrite process_eq in Hrun.
  destruct (before_features ln_pos silver true outlier_std) as [df|e] eqn:Hb;
    [|discriminate Hrun].
  cbn [rbind] in Hrun. injection Hrun as <-.
  pose proof (before_features_has_price ln_pos silver true outlier_std df Hb) as Hc.
  destruct (features_rows_map (is_int64 (map Mileage_km (rows silver))) df Hc)
    as (finish & Hrows & Hfin).
  unfold features in Hrows. rewrite Hrows in Hr.
  apply in_map_iff in Hr as (r0 & <- & Hr0).
  destruct (Hfin r0) as [Hp Hl]. rewrite Hp, Hl. split; [|reflexivity].
  unfold before_features in Hb. rewrite dropna_price_eq in Hb.
  destruct (has_col silver cPrice_in_eur) eqn:Hs; [|discriminate Hb].
  cbn [rbind] in Hb.
  exact (log_band_positive {| columns := columns silver; rows := priced_rows silver |}
           cPrice_in_eur outlier_std price_in_eur df
           (price_reader _ Hs) Hb r0 Hr0).
Qed.

End Libm.

Lemma remove_outliers_plain_band_witness :
  (In (priced 100) (rows fifteen_prices) <->
   In (priced 100) (rows sixteen_prices) /\
   fge (price_in_eur (priced 100))
       (band_low (map price_in_eur (rows sixteen_prices)) (of_Z 3)) = true /\
   fle (price_in_eur (priced 100))
       (band_high (map price_in_eur (rows sixteen_prices)) (of_Z 3)) = true) /\
  (In (priced (2 ^ 40)) (rows fifteen_prices) <->
   In (priced (2 ^ 40)) (rows sixteen_prices) /\
   fge (price_in_eur (priced (2 ^ 40)))
       (band_low (map price_in_eur (rows sixteen_prices)) (of_Z 3)) = true /\
   fle (price_in_eur (priced (2 ^ 40)))
       (band_high (map price_in_eur (rows sixteen_prices)) (of_Z 3)) = true).
Proof.
  split;
    apply (remove_outliers_plain_band coarse_ln sixteen_prices cPrice_in_eur (of_Z 3)
             price_in_eur fifteen_prices);
    first [reflexivity | vm_compute; reflexivity].
Defined.

(** A value on the bound: with the sums taken pairwise the mean of the
    sixteen prices is 86.51875000000001 and the upper bound 388.3 itself, so
    that no row goes. *)
Example boundary_row_is_kept :
  SilverToGold.remove_outliers coarse_ln boundary_prices cPrice_in_eur (lit 3.75%float) false
  = Ok boundary_prices.
Proof. vm_compute. reflexivity. Qed.

(** Four billion kilometres in a column of integers: the square leaves the
    int64 range and wraps around; in a float64 column it is 1.6e19. *)
Example square_wraps :
  square true (of_Z 4000000000) = Int64 (-2446744073709551616) /\
  square false (of_Z 4000000000) = Float64 (lit 1.6e19%float).
Proof. vm_compute. auto. Qed.


Lemma remove_outliers_log_zero_empties_witness :
  SilverToGold.remove_outliers coarse_ln
    {| columns := silver_columns; rows := [priced 100; priced 0; priced 120] |}
    cPrice_in_eur (of_Z 3) true
  = Ok {| columns := silver_columns; rows := [] |}.
Proof.
  apply (remove_outliers_log_zero_empties coarse_ln
           {| columns := silver_columns; rows := [priced 100; priced 0; priced 120] |}
           cPrice_in_eur (of_Z 3) price_in_eur (priced 0)).
  - reflexivity.
  - right. left. reflexivity.
  - left. reflexivity.
Defined.

Lemma gold_prices_positive_witness :
  match SilverToGold.process_silver_to_gold coarse_ln coarse_log1p three_prices true (of_Z 3) with
  | Ok out => Forall (fun r => flt zero (price_in_eur r) = true /\
                               log_price r = SilverToGold.np_log coarse_ln (price_in_eur r))
                     (rows out)
  | Raise _ => False
  end.
Proof.
  destruct (SilverToGold.process_silver_to_gold coarse_ln coarse_log1p three_prices true (of_Z 3))
    as [out|e] eqn:Hrun.
  - apply List.Forall_forall.
    exact (gold_prices_positive coarse_ln coarse_log1p three_prices (of_Z 3) out Hrun).
  - vm_compute in Hrun. discriminate Hrun.
Defined.

(** *** Model categories *)

Lemma first_category_other mapping s :
  Forall (fun kc => snd kc <> "Other") mapping ->
  (first_category mapping s = "Other" <->
   forall key category, In (key, category) mapping ->
     contains (lower key) (lower s) = false).
Proof.
  induction mapping as [|[k c] rest IH]; intros Hall.
  - simpl. split; [intros _ key category [] | reflexivity].
  - inversion Hall as [|x l Hc Hrest]; subst. cbn [snd] in Hc.
    cbn [first_category]. destruct (contains (lower k) (lower s)) eqn:Ek.
    + split; [intros H; contradiction|].
      intros H. rewrite (H k c (or_introl eq_refl)) in Ek. discriminate Ek.
    + rewrite (IH Hrest). split.
      * intros H key category [[= <- <-] | Hin]; [exact Ek | exact (H _ _ Hin)].
      * intros H key category Hin. apply (H key category). right. exact Hin.
Qed.

Lemma first_category_in mapping s :
  first_category mapping s = "Other" \/
  exists key, In (key, first_category mapping s) mapping.
Proof.
  induction mapping as [|[k c] rest IH]; [left; reflexivity|].
  cbn [first_category]. destruct (contains (lower k) (lower s)).
  - right. exists k. left. reflexivity.
  - destruct IH as [H | [key H]]; [left; exact H|].
    right. exists key. right. exact H.
Qed.

(** Every model, missing or not, gets one of the fourteen labels, and the
    label is "Other" exactly when no keyword of the table occurs in the model
    name, whatever the case of its letters. *)
Theorem categorize_model_labels (model : option string) :
  In (categorize_model model) category_labels /\
  (forall s, model = Some s ->
     (categorize_model model = "Other" <->
      forall key category, In (key, category) model_mapping ->
        contains (lower key) (lower s) = false)).
Proof.
  split.
  - destruct model as [s|]; [|unfold category_labels; simpl; tauto].
    cbn [categorize_model].
    destruct (first_category_in model_mapping s) as [-> | [key Hin]].
    + unfold category_labels. simpl. tauto.
    + revert Hin. generalize (first_category model_mapping s). intros c Hin.
      unfold model_mapping in Hin. cbn [In] in Hin.
      repeat (destruct Hin as [[= _ <-] | Hin]; [unfold category_labels; simpl; tauto|]).
      destruct Hin.
  - intros s ->. cbn [categorize_model]. apply first_category_other.
    unfold model_mapping. repeat constructor; discriminate.
Qed.

(** The table is read in order and the first keyword that occurs decides:
    later keywords are not looked at. *)
Theorem categorize_model_first_match s before key category after :
  model_mapping = (before ++ (key, category) :: after)%list ->
  (forall k c, In (k, c) before -> contains (lower k) (lower s) = false) ->
  contains (lower key) (lower s) = true ->
  categorize_model (Some s) = category.
Proof.
  intros Hsplit Hbefore Hkey. cbn [categorize_model]. rewrite Hsplit.
  clear Hsplit. induction before as [|[k c] rest IH]; cbn [app first_category].
  - rewrite Hkey. reflexivity.
  - rewrite (Hbefore k c (or_introl eq_refl)). apply IH.
    intros k' c' Hin. apply (Hbefore k' c'). right. exact Hin.
Qed.

Lemma categorize_model_first_match_witness :
  categorize_model (Some "Cayenne Turbo (958) with 911 wheels") = "911".
Proof.
  apply (categorize_model_first_match _ [] "911" "911" (tl model_mapping)).
  - reflexivity.
  - intros k c [].
  - vm_compute. reflexivity.
Defined.

(** *** Listing score and colour filling *)

Lemma contract_score_bounds df r : (0 <= contract_score df r <= 75)%Z.
Proof.
  unfold contract_score.
  repeat match goal with
         | |- context [if ?b then _ else _] => destruct b
         end; lia.
Qed.

(** The score lies between 0 and 75 on every row. *)
Theorem listing_score_bounds df :
  flags_ok df ->
  forall r, In r (rows (calculate_listing_score df)) -> (0 <= listing_score r <= 75)%Z.
Proof.
  intros Hflags r Hr. rewrite calculate_listing_score_rows in Hr.
  apply in_map_iff in Hr as (r0 & <- & Hr0). cbn [listing_score set_listing_score].
  destruct (Hflags r0 Hr0) as [Hp Hf].
  destruct (score_components_small df r0 Hp Hf) as [Hsmall Hlen].
  rewrite (sum_axis1_total _ r0 Hsmall Hlen), (score_components_total df r0 Hp Hf).
  apply contract_score_bounds.
Qed.

Lemma listing_score_bounds_witness :
  forallb (fun r => (0 <=? listing_score r)%Z && (listing_score r <=? 75)%Z)
          (rows (calculate_listing_score two_listings)) = true.
Proof.
  apply forallb_forall. intros r Hr.
  assert (H : (0 <= listing_score r <= 75)%Z).
  { revert r Hr. apply listing_score_bounds.
    intros r [<- | [<- | []]]; split; intros _; unfold is_flag; simpl; auto. }
  apply andb_true_intro. split; apply Z.leb_le; lia.
Defined.

Lemma fillna_unknown_twice cell : fillna_unknown (fillna_unknown cell) = fillna_unknown cell.
Proof. destruct cell; reflexivity. Qed.

(** Filling the colours twice is filling them once, and after it no colour
    cell of a column that the table has is missing. *)
Theorem prepare_modeling_features_idempotent df :
  prepare_modeling_features (prepare_modeling_features df) = prepare_modeling_features df /\
  forall r, In r (rows (prepare_modeling_features df)) ->
    (has_col df cInterior_color = true -> Interior_color r <> None) /\
    (has_col df cExterior_color = true -> Exterior_color r <> None).
Proof.
  split.
  - unfold prepare_modeling_features. cbn [rows columns]. f_equal.
    change (has_col {| columns := columns df; rows := _ |} cInterior_color)
      with (has_col df cInterior_color).
    change (has_col {| columns := columns df; rows := _ |} cExterior_color)
      with (has_col df cExterior_color).
    rewrite map_map. apply map_ext. intros r. unfold set_colors.
    cbn [Interior_color Exterior_color Matching_numbers Number_of_vehicle_owners PTS
         is_fully_restored Mileage_km price_in_eur Model log_price log_mileage
         Mileage_sq model_category listing_score].
    destruct (has_col df cInterior_color), (has_col df cExterior_color);
      rewrite ?fillna_unknown_twice; reflexivity.
  - intros r Hr. unfold prepare_modeling_features in Hr. cbn [rows] in Hr.
    apply in_map_iff in Hr as (r0 & <- & _).
    cbn [Interior_color Exterior_color set_colors].
    split; intros ->; destruct (_ r0); discriminate.
Qed.

(** The score must be taken before the colours are filled: taken after, it
    counts the colour of every row, missing or not. *)
Theorem listing_score_after_fill df r :
  flags_ok (prepare_modeling_features df) ->
  In r (rows (calculate_listing_score (prepare_modeling_features df))) ->
  exists r0, In r0 (rows df) /\
    listing_score r =
    (contract_score df r0
     + (if has_col df cInterior_color && negb (notna (Interior_color r0)) then 5 else 0)
     + (if has_col df cExterior_color && negb (notna (Exterior_color r0)) then 5 else 0))%Z.
Proof.
  intros Hflags Hr. rewrite calculate_listing_score_rows in Hr.
  apply in_map_iff in Hr as (r1 & <- & Hr1). cbn [listing_score set_listing_score].
  destruct (Hflags r1 Hr1) as [Hp Hf].
  destruct (score_components_small _ r1 Hp Hf) as [Hsmall Hlen].
  rewrite (sum_axis1_total _ r1 Hsmall Hlen), (score_components_total _ r1 Hp Hf).
  unfold prepare_modeling_features in Hr1. cbn [rows] in Hr1.
  apply in_map_iff in Hr1 as (r0 & <- & Hr0). exists r0. split; [exact Hr0|].
  unfold contract_score.
  change (has_col (prepare_modeling_features df)) with (has_col df).
  cbn [Interior_color Exterior_color Matching_numbers Number_of_vehicle_owners PTS
       is_fully_restored Mileage_km set_colors].
  rewrite <- !notna_decide.
  destruct (has_col df cInterior_color), (has_col df cExterior_color),
    (Interior_color r0), (Exterior_color r0); cbn [fillna_unknown id notna negb andb];
    lia.
Qed.

Lemma listing_score_after_fill_witness :
  exists r0, In r0 (rows two_listings) /\
    listing_score (set_listing_score (set_colors blank_row (Some "Unknown") (Some "Unknown")) 30) =
    (contract_score two_listings r0
     + (if has_col two_listings cInterior_color && negb (notna (Interior_color r0))
        then 5 else 0)
     + (if has_col two_listings cExterior_color && negb (notna (Exterior_color r0))
        then 5 else 0))%Z.
Proof.
  apply (listing_score_after_fill two_listings).
  - intros r [<- | [<- | []]]; split; intros _; unfold is_flag; simpl; auto.
  - right. left. vm_compute. reflexivity.
Defined.

End SilverToGoldFacts.

(** ** Further facts about the rate provider *)

Module ExchangeRatesFacts.
Import ExchangeRates RatesNotions ExchangeRatesProofs.

Lemma dict_truthy_insert {V} (k : string) (v : V) (m : gmap string V) :
  dict_truthy (<[k := v]> m) = true.
Proof.
  unfold dict_truthy. apply negb_true_iff, Nat.eqb_neq.
  intros H. apply map_size_empty_iff in H. exact (insert_non_empty m k v H).
Qed.

Lemma load_cache_fresh w ts rates :
  cache w = Some (CacheObj ts (Some rates)) ->
  fresh_at (clock w (ticks w)) ts = true ->
  _load_cache w = (rates, tick w).
Proof. intros Hc Hfresh. rewrite load_cache_eq, Hc, Hfresh. reflexivity. Qed.

(** A cache file within its TTL that holds a non-empty mapping answers the
    call: the mapping comes back as stored, the service is not asked and
    the file is not written, whatever [base] and [symbols] are. *)
Theorem fetch_cache_hit base symbols w ts rates :
  cache w = Some (CacheObj ts (Some rates)) ->
  fresh_at (clock w (ticks w)) ts = true ->
  dict_truthy rates = true ->
  fetch_latest_rates base symbols true w = (rates, tick w).
Proof.
  intros Hc Hfresh Hne. rewrite fetch_eq, (load_cache_fresh w ts rates Hc Hfresh).
  cbn [fst andb]. rewrite Hne. reflexivity.
Qed.

Lemma fetch_cache_hit_witness :
  fetch_latest_rates "USD" ["GBP"] true foreign_world = (usd_only, tick foreign_world).
Proof.
  apply (fetch_cache_hit "USD" ["GBP"] foreign_world (Some zero) usd_only).
  - reflexivity.
  - vm_compute. reflexivity.
  - vm_compute. reflexivity.
Defined.

(** With [use_cache=False] the cache file is still the fallback when the
    service fails, but only within its TTL. *)
Theorem fetch_forced_refresh_falls_back base symbols w ts rates :
  cache w = Some (CacheObj ts (Some rates)) ->
  fresh_at (clock w (ticks w)) ts = true ->
  dict_truthy rates = true ->
  network w (the_request base symbols) = NetError ->
  fetch_latest_rates base symbols false w = (rates, tick w).
Proof.
  intros Hc Hfresh Hne Hnet. rewrite fetch_eq. cbn [andb].
  unfold after_miss. rewrite Hnet, (load_cache_fresh w ts rates Hc Hfresh).
  cbn [fst snd]. rewrite Hne. reflexivity.
Qed.

Lemma fetch_forced_refresh_falls_back_witness :
  fetch_latest_rates "EUR" [] false foreign_world = (usd_only, tick foreign_world).
Proof.
  apply (fetch_forced_refresh_falls_back "EUR" [] foreign_world (Some zero) usd_only).
  - reflexivity.
  - vm_compute. reflexivity.
  - vm_compute. reflexivity.
  - reflexivity.
Defined.

(** The world in which the service is asked: the one the call starts in, or
    the one after the cache has been read in vain. *)
Lemma fetch_miss base symbols use_cache w :
  use_cache = false \/ dict_truthy (fst (_load_cache w)) = false ->
  fetch_latest_rates base symbols use_cache w =
  after_miss base symbols (if use_cache then snd (_load_cache w) else w).
Proof.
  intros Hmiss. rewrite fetch_eq.
  destruct Hmiss as [-> | ->]; [reflexivity | rewrite andb_false_r; reflexivity].
Qed.

Lemma load_cache_keeps_oracles w :
  network (snd (_load_cache w)) = network w /\ disk (snd (_load_cache w)) = disk w /\
  clock (snd (_load_cache w)) = clock w.
Proof.
  rewrite load_cache_eq. destruct (cache w) as [[|ts rates]|]; simpl; auto.
Qed.

Lemma rates_to_eur_lookup rates_base c :
  c <> "EUR" -> rates_to_eur rates_base !! c = invert_rate c <$> (rates_base !! c).
Proof.
  intros Hne. unfold rates_to_eur.
  rewrite lookup_insert_ne by congruence.
  rewrite map_lookup_imap. destruct (rates_base !! c); reflexivity.
Qed.

(** After a fetch that reached the service, converting with the mapping it
    returned multiplies by the inverse of the service's rate; a currency for
    which the service sent 0 or null, or nothing at all, is converted with
    the static table's rate (or 1.0), the cache file playing no part. *)
Theorem convert_after_fetch base symbols use_cache w rates_base amount c w' :
  use_cache = false \/ dict_truthy (fst (_load_cache w)) = false ->
  network w (the_request base symbols) = NetOk rates_base ->
  c <> "EUR" ->
  let fetched := fst (fetch_latest_rates base symbols use_cache w) in
  fetched !! "EUR" = Some one /\
  fst (convert_to_eur amount c (Some fetched) w') =
    fmul amount
      match rates_base !! c with
      | Some (Some x) => if truthy x then fdiv one x else static_get c
      | Some None | None => static_get c
      end.
Proof.
  intros Hmiss Hnet Hc fetched.
  assert (Hf : fetched = rates_to_eur rates_base).
  { unfold fetched. rewrite (fetch_miss _ _ _ _ Hmiss). unfold after_miss.
    assert (Hn : network (if use_cache then snd (_load_cache w) else w) = network w).
    { destruct use_cache; [apply load_cache_keeps_oracles | reflexivity]. }
    rewrite Hn, Hnet. reflexivity. }
  rewrite Hf. split; [apply lookup_insert_eq|].
  unfold convert_to_eur. destruct (String.eqb_spec c "EUR") as [->|_]; [contradiction|].
  unfold bind, ret. cbn [fst]. f_equal.
  rewrite (rates_to_eur_lookup rates_base c Hc).
  destruct (rates_base !! c) as [[x|]|]; reflexivity.
Qed.

Lemma convert_after_fetch_witness :
  fst (fetch_latest_rates "EUR" [] true fresh_start) !! "EUR" = Some one /\
  fst (convert_to_eur (of_Z 110) "USD"
         (Some (fst (fetch_latest_rates "EUR" [] true fresh_start))) fresh_start) =
    fmul (of_Z 110)
      match ({[ "USD" := Some (lit 1.1%float) ]} : gmap string (option float)) !! "USD" with
      | Some (Some x) => if truthy x then fdiv one x else static_get "USD"
      | Some None | None => static_get "USD"
      end.
Proof.
  apply (convert_after_fetch "EUR" [] true fresh_start
           {[ "USD" := Some (lit 1.1%float) ]} (of_Z 110) "USD" fresh_start).
  - right. reflexivity.
  - reflexivity.
  - discriminate.
Defined.

(** Write, then read: when a fetch reaches the service and the file is
    written, every later call that finds the file within its TTL returns the
    very mapping of that fetch, without asking the service. *)
Theorem fetch_then_cache_hit base symbols use_cache w rates_base :
  use_cache = false \/ dict_truthy (fst (_load_cache w)) = false ->
  network w (the_request base symbols) = NetOk rates_base ->
  disk w = Written ->
  let fetched := fst (fetch_latest_rates base symbols use_cache w) in
  let w1 := snd (fetch_latest_rates base symbols use_cache w) in
  exists ts,
    cache w1 = Some (CacheObj (Some ts) (Some fetched)) /\
    forall w2 base' symbols',
      cache w2 = cache w1 ->
      fresh_at (clock w2 (ticks w2)) (Some ts) = true ->
      fetch_latest_rates base' symbols' true w2 = (fetched, tick w2).
Proof.
  intros Hmiss Hnet Hdisk fetched w1.
  set (w0 := if use_cache then snd (_load_cache w) else w).
  assert (Horacles : network w0 = network w /\ disk w0 = disk w).
  { unfold w0. destruct use_cache; [|auto].
    destruct (load_cache_keeps_oracles w) as (H1 & H2 & _). auto. }
  destruct Horacles as [Hn Hd].
  assert (Hrun : fetch_latest_rates base symbols use_cache w =
                 (rates_to_eur rates_base,
                  snd (_write_cache (rates_to_eur rates_base) w0))).
  { rewrite (fetch_miss _ _ _ _ Hmiss). fold w0. unfold after_miss.
    rewrite Hn, Hnet. reflexivity. }
  unfold fetched, w1. rewrite Hrun. cbn [fst snd].
  exists (clock w0 (ticks w0)). split.
  - unfold _write_cache. rewrite Hd, Hdisk. reflexivity.
  - intros w2 base' symbols' Hc2 Hfresh.
    assert (Hfile : cache w2 = Some (CacheObj (Some (clock w0 (ticks w0)))
                                              (Some (rates_to_eur rates_base)))).
    { rewrite Hc2. unfold _write_cache. rewrite Hd, Hdisk. reflexivity. }
    rewrite fetch_eq, (load_cache_fresh w2 _ _ Hfile Hfresh).
    cbn [fst andb]. unfold rates_to_eur at 1. rewrite dict_truthy_insert. reflexivity.
Qed.

Lemma fetch_then_cache_hit_witness :
  exists ts,
    cache (snd (fetch_latest_rates "EUR" [] true fresh_start))
    = Some (CacheObj (Some ts) (Some (fst (fetch_latest_rates "EUR" [] true fresh_start)))) /\
    forall w2 base' symbols',
      cache w2 = cache (snd (fetch_latest_rates "EUR" [] true fresh_start)) ->
      fresh_at (clock w2 (ticks w2)) (Some ts) = true ->
      fetch_latest_rates base' symbols' true w2
      = (fst (fetch_latest_rates "EUR" [] true fresh_start), tick w2).
Proof.
  apply (fetch_then_cache_hit "EUR" [] true fresh_start {[ "USD" := Some (lit 1.1%float) ]}).
  - right. reflexivity.
  - reflexivity.
  - reflexivity.
Defined.

End ExchangeRatesFacts.

(** ** Further facts on the record cleaner *)

Module RecordCleanerFacts.
Import Text TextNotions TextProofs CleanerNotions BronzeToSilverProofs.
Import ExchangeRates RatesNotions ExchangeRatesProofs.
Import RecordCleaner PipelineNotions.

(** *** Text *)

Lemma rstrip_blank s : rstrip s = "" <-> is_blank s = true.
Proof.
  unfold is_blank. induction s as [|c t IH]; simpl; [tauto|].
  destruct (rstrip t) as [|c' t'].
  - destruct (is_space c); simpl.
    + rewrite <- IH. tauto.
    + split; discriminate.
  - split; [discriminate|]. intros H. apply andb_prop in H as [_ H].
    apply IH in H. discriminate.
Qed.

Lemma rstrip_head c t : is_space c = false -> exists t', rstrip (String c t) = String c t'.
Proof.
  intros Hc. simpl. destruct (rstrip t); rewrite ?Hc; eauto.
Qed.

Lemma span_blank s : is_blank s = true -> snd (span is_space s) = "".
Proof.
  unfold is_blank. induction s as [|c t IH]; simpl; [reflexivity|].
  intros H. apply andb_prop in H as [Hc Ht]. rewrite Hc.
  specialize (IH Ht). destruct (span is_space t). exact IH.
Qed.

Lemma strip_blank s : strip s = "" <-> is_blank s = true.
Proof.
  unfold strip, lstrip. rewrite rstrip_blank. split.
  - intros H. pose proof (span_rest is_space s) as Hr.
    destruct (snd (span is_space s)) as [|c r] eqn:Es.
    + rewrite <- (span_app is_space s), Es.
      pose proof (span_all is_space s) as Ha. unfold is_blank.
      clear -Ha. induction (fst (span is_space s)) as [|a u IHu]; simpl in *;
        [reflexivity|].
      apply andb_prop in Ha as [-> Hu]. simpl. auto.
    + unfold is_blank in H. simpl in H. rewrite Hr in H. discriminate.
  - intros H. rewrite (span_blank s H). reflexivity.
Qed.

Lemma strip_head c t : is_space c = false -> exists t', strip (String c t) = String c t'.
Proof.
  intros Hc. unfold strip, lstrip. simpl. rewrite Hc. cbn [snd].
  apply rstrip_head, Hc.
Qed.

Lemma lower_char_space c : is_space c = true -> lower_char c = c.
Proof.
  destruct c as [[] [] [] [] [] [] [] []]; vm_compute; intros H;
    first [reflexivity | discriminate H].
Qed.

Lemma lower_blank s : is_blank s = true -> lower s = s.
Proof.
  unfold is_blank. induction s as [|c t IH]; simpl; [reflexivity|].
  intros H. apply andb_prop in H as [Hc Ht].
  rewrite (IH Ht), (lower_char_space c Hc). reflexivity.
Qed.

(** Blank text does not hold a word that starts with a letter. *)
Lemma blank_contains c p s :
  is_space c = false -> is_blank s = true -> contains (String c p) s = false.
Proof.
  intros Hc. unfold is_blank. induction s as [|a t IH]; simpl; [reflexivity|].
  intros H. apply andb_prop in H as [Ha Ht]. rewrite (IH Ht), orb_false_r.
  destruct (Ascii.eqb c a) eqn:E; [|reflexivity].
  apply Ascii.eqb_eq in E. congruence.
Qed.

(** A literal occurrence is a match of the pattern read as a regular
    expression, whatever the pattern, provided it holds no newline. *)
Lemma starts_with_re_match p s :
  contains (String "010" "") p = false ->
  starts_with p s = true -> re_match p s = true.
Proof.
  revert s. induction p as [|a p IH]; intros s Hnl; simpl; [reflexivity|].
  destruct s as [|b s]; [discriminate|].
  intros H. apply andb_prop in H as [Hab Hs].
  apply Ascii.eqb_eq in Hab. subst b.
  simpl in Hnl. apply orb_false_elim in Hnl as [Ha Hp].
  rewrite (IH s Hp Hs), andb_true_r. unfold re_char.
  destruct (Ascii.eqb a "."); [|apply Ascii.eqb_refl].
  destruct (Ascii.eqb a "010") eqn:E; [|reflexivity].
  apply Ascii.eqb_eq in E. subst a. discriminate Ha.
Qed.

Lemma contains_re_search p s :
  contains (String "010" "") p = false ->
  contains p s = true -> re_search p s = true.
Proof.
  intros Hnl. induction s as [|b s IH]; simpl.
  - rewrite !orb_false_r. apply starts_with_re_match, Hnl.
  - intros H. apply orb_prop in H as [H|H].
    + rewrite (starts_with_re_match _ _ Hnl H). reflexivity.
    + rewrite (IH H). apply orb_true_r.
Qed.

(** *** Cells *)

(** The text of an integer starts with a digit or a minus sign. *)
Lemma py_str_num z :
  exists c t, py_str (Num z) = String c t /\ is_space c = false /\ lower_char c = c
              /\ c <> "y"%char /\ c <> "u"%char.
Proof.
  unfold py_str. destruct (Z.to_int z) as [d|d]; simpl.
  - destruct d; simpl; do 2 eexists; (split; [reflexivity|]);
      repeat split; discriminate.
  - do 2 eexists. split; [reflexivity|]. repeat split; discriminate.
Qed.

Lemma num_strip_lower z :
  exists c t, lower (strip (py_str (Num z))) = String c t
              /\ c <> "y"%char /\ c <> "u"%char.
Proof.
  destruct (py_str_num z) as (c & t & E & Hs & Hl & Hy & Hu).
  rewrite E. destruct (strip_head c t Hs) as [t' ->]. simpl. rewrite Hl. eauto.
Qed.

Lemma yes_flag_num z : yes_flag (Num z) = Num 0.
Proof.
  unfold yes_flag. destruct (num_strip_lower z) as (c & t & -> & Hy & _).
  destruct (String.eqb_spec (String c t) "yes") as [E|_]; [|reflexivity].
  injection E as -> _. congruence.
Qed.

Lemma known_flag_num z : known_flag (Num z) = 1%Z.
Proof.
  unfold known_flag. destruct (num_strip_lower z) as (c & t & -> & _ & Hu).
  destruct (String.eqb_spec (String c t) "unknown") as [E|_]; [|reflexivity].
  injection E as -> _. congruence.
Qed.

Lemma unknown_if_blank_num z : unknown_if_blank (Num z) = Num z.
Proof.
  unfold unknown_if_blank. cbn [isna orb].
  destruct (py_str_num z) as (c & t & E & Hs & _). rewrite E.
  destruct (strip_head c t Hs) as [t' ->]. reflexivity.
Qed.

Lemma unknown_if_blank_filled x : filled (unknown_if_blank x).
Proof.
  unfold unknown_if_blank, filled.
  destruct (isna x) eqn:En; cbn [orb]; [split; [reflexivity|discriminate]|].
  destruct (String.eqb_spec (strip (py_str x)) "") as [E|E]; split;
    try reflexivity; try discriminate; assumption.
Qed.

Lemma filled_stays x : filled x -> unknown_if_blank x = x.
Proof.
  intros [Hn Hs]. unfold unknown_if_blank. rewrite Hn. cbn [orb].
  destruct (String.eqb_spec (strip (py_str x)) ""); congruence.
Qed.

Lemma unknown_if_blank_text_filled x : filled_text (unknown_if_blank_text x).
Proof.
  unfold unknown_if_blank_text, filled_text. destruct x as [s|].
  - destruct (String.eqb_spec (strip s) "") as [E|E].
    + eexists. split; [reflexivity|discriminate].
    + eauto.
  - eexists. split; [reflexivity|discriminate].
Qed.

Lemma filled_text_stays x : filled_text x -> unknown_if_blank_text x = x.
Proof.
  intros (s & -> & Hs). unfold unknown_if_blank_text.
  destruct (String.eqb_spec (strip s) ""); congruence.
Qed.

Lemma yes_flag_cases x : yes_flag x = Num 0 \/ yes_flag x = Num 1.
Proof. unfold yes_flag. destruct (String.eqb _ "yes"); auto. Qed.

(** The word that fills a blank cell does not change the restoration flag. *)
Lemma fully_restored_fill x :
  BronzeToSilver.fully_restored (unknown_if_blank_text x) = BronzeToSilver.fully_restored x.
Proof.
  unfold unknown_if_blank_text. destruct x as [s|]; [|reflexivity].
  destruct (String.eqb_spec (strip s) "") as [E|E]; [|reflexivity].
  apply strip_blank in E. unfold BronzeToSilver.fully_restored.
  rewrite (lower_blank s E). symmetry.
  rewrite (blank_contains _ _ s) by (try exact E; reflexivity). reflexivity.
Qed.

(** *** The mileage step on whole listings *)

Lemma clean_mileage_with_cons {A} (r : BronzeToSilver.RawRow) (a : A) df :
  clean_mileage_with ((r, a) :: df) =
  match row_outcome r with
  | None => clean_mileage_with df
  | Some (Raise e) => Raise e
  | Some (Ok c) => rbind (clean_mileage_with df) (fun out => Ok ((c, a) :: out))
  end.
Proof.
  unfold clean_mileage_with, row_outcome. cbv zeta. cbn [map fst snd List.filter].
  destruct (BronzeToSilver.isna _); cbn [negb]; [reflexivity|].
  cbn [map traverse fst snd].
  destruct (BronzeToSilver.to_numeric_row _) as [n|e]; cbn [rbind]; [|reflexivity].
  destruct (traverse _ _) as [ns|e]; cbn [rbind map fst snd]; reflexivity.
Qed.

(** The listings that leave the step are the kept ones, in their order, each
    with the reading of its own row. *)
Lemma clean_mileage_with_rows {A} (df : list (BronzeToSilver.RawRow * A)) out :
  clean_mileage_with df = Ok out ->
  Forall2 (fun ra ca => snd ca = snd ra /\ row_outcome (fst ra) = Some (Ok (fst ca)))
          (List.filter (fun ra => match row_outcome (fst ra) with
                                  | None => false | Some _ => true end) df)
          out.
Proof.
  revert out. induction df as [|[r a] df IH]; intros out.
  - intros [= <-]. constructor.
  - rewrite clean_mileage_with_cons. cbn [List.filter fst].
    destruct (row_outcome r) as [[c|e]|] eqn:Er.
    + destruct (clean_mileage_with df) as [rest|e]; cbn [rbind]; [|discriminate].
      intros [= <-]. constructor; [split; [reflexivity|exact Er]|]. apply IH. reflexivity.
    + discriminate.
    + apply IH.
Qed.

(** The steps on the three columns are those on whole listings with the
    other columns forgotten. *)
Lemma clean_mileage_with_fst {A} (df : list (BronzeToSilver.RawRow * A)) :
  BronzeToSilver.clean_mileage_cells (map fst df) =
  rbind (clean_mileage_with df) (fun out => Ok (map fst out)).
Proof.
  induction df as [|[r a] df IH]; [reflexivity|].
  cbn [map fst]. rewrite clean_mileage_cells_cons, clean_mileage_with_cons, IH.
  destruct (row_outcome r) as [[c|e]|]; try reflexivity.
  destruct (clean_mileage_with df); reflexivity.
Qed.

Lemma kept_outcome l :
  kept l = match row_outcome (to_raw l) with None => false | Some _ => true end.
Proof.
  unfold kept, row_outcome. cbv zeta. destruct (BronzeToSilver.isna _); reflexivity.
Qed.

Lemma clean_mileage_typed_table mo co df out :
  clean_mileage_typed mo co df = Ok out ->
  mo = true /\ co = true /\
  has_price out = has_price df /\ has_currency out = has_currency df /\
  Forall2 (fun l l' => exists c, row_outcome (to_raw l) = Some (Ok c) /\
                                 l' = set_mileage l (BronzeToSilver.mileage_value c)
                                        (Some (BronzeToSilver.mileage_unit c))
                                        (BronzeToSilver.Mileage_km c))
          (List.filter kept (rows df)) (rows out).
Proof.
  unfold clean_mileage_typed. destruct mo, co; cbn [andb]; try discriminate.
  destruct (clean_mileage_with _) as [cs|e] eqn:E; cbn [rbind]; [|discriminate].
  intros [= <-]. cbn [has_price has_currency rows with_rows].
  do 4 (split; [reflexivity|]).
  apply clean_mileage_with_rows in E. revert cs E.
  induction (rows df) as [|l ls IH]; intros cs E; cbn [map List.filter fst] in *.
  - inversion E. constructor.
  - rewrite kept_outcome. destruct (row_outcome (to_raw l)) as [o|] eqn:Eo.
    + inversion E as [|x [c a] xs cs' [Ha Hc] Hrest]; subst. cbn [fst snd] in *. subst a.
      cbn [map]. constructor; [exists c; split; [exact Hc|reflexivity]|].
      apply IH, Hrest.
    + apply IH, E.
Qed.

Lemma clean_mileage_table df out :
  clean_mileage df = Ok out ->
  has_price out = has_price df /\ has_currency out = has_currency df /\
  Forall2 (fun l l' => exists c, row_outcome (to_raw l) = Some (Ok c) /\
                                 l' = set_mileage l (BronzeToSilver.mileage_value c)
                                        (Some (BronzeToSilver.mileage_unit c))
                                        (BronzeToSilver.Mileage_km c))
          (List.filter kept (rows df)) (rows out).
Proof.
  intros H. apply clean_mileage_typed_table in H. tauto.
Qed.

(** The listings that leave [clean_mileage] are the kept ones, in their
    order; the step writes the three mileage columns and nothing else. *)
Theorem clean_mileage_keeps_order df out :
  clean_mileage df = Ok out ->
  Forall2 (fun l l' => l' = set_mileage l (mileage_value l') (mileage_unit l') (Mileage_km l'))
          (List.filter kept (rows df)) (rows out).
Proof.
  intros Hrun. destruct (clean_mileage_table df out Hrun) as (_ & _ & H).
  induction H as [|l l' ls ls' (c & _ & ->) _ IH]; constructor; [reflexivity|exact IH].
Qed.

Lemma clean_mileage_row df out l' :
  clean_mileage df = Ok out -> In l' (rows out) ->
  exists l c, In l (rows df) /\ row_outcome (to_raw l) = Some (Ok c) /\
              l' = set_mileage l (BronzeToSilver.mileage_value c)
                     (Some (BronzeToSilver.mileage_unit c)) (BronzeToSilver.Mileage_km c).
Proof.
  intros Hrun. destruct (clean_mileage_table df out Hrun) as (_ & _ & H).
  assert (Hin : forall l, In l (List.filter kept (rows df)) -> In l (rows df)).
  { intros l Hl. apply filter_In in Hl. tauto. }
  revert Hin. induction H as [|l x ls ls' (c & Hc & ->) _ IH]; intros Hin [].
  - subst l'. exists l, c. split; [apply Hin; left; reflexivity|auto].
  - apply IH; [|assumption]. intros y Hy. apply Hin. right. exact Hy.
Qed.

(** A reading in miles is turned into kilometres, and the unit column goes
    on saying "mi": for a row whose mileage text matches as [num] and [u],
    [mileage_unit] is [u], and [mileage_value] and [Mileage_km] both hold the
    number, times 1.60934 when [u] is "mi". *)
Theorem miles_keep_their_unit df out l' s num u :
  clean_mileage df = Ok out ->
  In l' (rows out) ->
  Mileage l' = Some s ->
  search_mileage s = Some (num, u) ->
  mileage_unit l' = Some u /\
  exists x, float_of_str (remove_commas num) = Ok x /\
            Mileage_km l' = (if String.eqb u "mi" then fmul x BronzeToSilver.KM_PER_MILE else x) /\
            mileage_value l' = Mileage_km l'.
Proof.
  intros Hrun Hin Hs Hm.
  destruct (clean_mileage_row df out l' Hrun Hin) as (l & c & _ & Hc & ->).
  cbn [Mileage set_mileage mileage_unit mileage_value Mileage_km] in *.
  destruct (row_outcome_match (to_raw l) s num u c Hs Hm Hc) as (Hu & x & Hx & Hkm).
  destruct (row_outcome_nonneg (to_raw l) c Hc) as [_ Hv].
  split; [rewrite Hu; reflexivity|]. exists x. auto.
Qed.

(** *** The condition step *)

Lemma yes_flag_twice x : yes_flag (yes_flag x) = Num 0.
Proof. destruct (yes_flag_cases x) as [-> | ->]; reflexivity. Qed.

(** [clean_condition] is not made to run twice: on its own output it keeps
    the three text columns and sets every Paint-to-Sample flag to 0. *)
Theorem clean_condition_twice df :
  rows (clean_condition (clean_condition df)) =
  map (fun l => set_pts l (Num 0)) (rows (clean_condition df)).
Proof.
  unfold clean_condition. cbn [rows with_rows]. rewrite !map_map.
  apply map_ext. intros l. unfold set_pts, set_condition.
  cbn [URL Mileage Condition PTS Matching_numbers Number_of_vehicle_owners Series
       price currency mileage_value mileage_unit Mileage_km owners_known
       is_fully_restored price_in_eur].
  rewrite yes_flag_twice.
  rewrite (filled_text_stays _ (unknown_if_blank_text_filled (Condition l))).
  rewrite !(filled_stays _ (unknown_if_blank_filled _)). reflexivity.
Qed.

Lemma known_flag_fill x : known_flag (unknown_if_blank x) = 0%Z <-> owners_unknown x.
Proof.
  unfold unknown_if_blank, owners_unknown.
  destruct (isna x) eqn:En; cbn [orb].
  - split; [auto|reflexivity].
  - destruct (String.eqb_spec (strip (py_str x)) "") as [E|E].
    + split; [auto|reflexivity].
    + unfold known_flag.
      destruct (String.eqb_spec (lower (strip (py_str x))) "unknown") as [E'|E'].
      * split; auto.
      * split; [discriminate|]. intros [H|[H|H]]; [discriminate|contradiction..].
Qed.

(** The two flags of [create_derived_features], read on the raw listing: at
    the end of the three steps that follow [clean_mileage],
    [is_fully_restored] says whether the raw condition holds "fully restored"
    in any case, and [owners_known] is 0 exactly when the raw owners cell is
    missing, blank or the word "unknown", and 1 for every number. *)
Theorem tidy_flags df l' :
  In l' (rows (tidy df)) ->
  exists l, In l (rows df) /\ URL l' = URL l /\
    is_fully_restored l' = Z.b2z (BronzeToSilver.fully_restored (Condition l)) /\
    (owners_known l' = 0%Z <-> owners_unknown (Number_of_vehicle_owners l)) /\
    (owners_known l' = 0%Z \/ owners_known l' = 1%Z) /\
    (forall z, Number_of_vehicle_owners l = Num z -> owners_known l' = 1%Z).
Proof.
  unfold tidy, create_derived_features, standardize_series, clean_condition.
  cbn [rows with_rows]. rewrite !map_map. intros H.
  apply in_map_iff in H as (l & <- & Hl). exists l. split; [exact Hl|].
  cbn [set_derived set_series set_condition URL Condition Number_of_vehicle_owners
       is_fully_restored owners_known].
  split; [reflexivity|]. split; [rewrite fully_restored_fill; reflexivity|].
  split; [apply known_flag_fill|]. split.
  - unfold known_flag. destruct (String.eqb _ "unknown"); auto.
  - intros z ->. rewrite unknown_if_blank_num. apply known_flag_num.
Qed.

(** *** The conversion and the driver *)

Lemma convert_row_pure rates l w :
  convert_row rates l w = (set_price_in_eur l (eur_price rates l), w).
Proof.
  unfold convert_row, eur_price. destruct (currency l) as [cur|]; [|reflexivity].
  destruct (is_nan (price l)); cbn [negb]; [reflexivity|].
  unfold bind, convert_to_eur. destruct (String.eqb cur "EUR"); reflexivity.
Qed.

Lemma mapM_convert_row rates ls w :
  mapM (convert_row rates) ls w =
  (map (fun l => set_price_in_eur l (eur_price rates l)) ls, w).
Proof.
  induction ls as [|l ls IH]; [reflexivity|].
  cbn [mapM map]. unfold bind at 1. rewrite convert_row_pure.
  unfold bind at 1. rewrite IH. reflexivity.
Qed.

Lemma dedup_from_spec seen ls :
  List.NoDup (map URL (drop_duplicates_from seen ls)) /\
  forall r, In r (drop_duplicates_from seen ls) -> ~ In (URL r) seen /\ In r ls.
Proof.
  revert seen. induction ls as [|x ls IH]; intros seen; cbn [drop_duplicates_from].
  - split; [constructor|intros r []].
  - destruct (bool_decide (URL x ∈ seen)) eqn:E.
    + destruct (IH seen) as [Hn Hi]. split; [exact Hn|].
      intros r Hr. destruct (Hi r Hr). split; [assumption|right; assumption].
    + apply bool_decide_eq_false_1 in E. rewrite list_elem_of_In in E.
      destruct (IH (URL x :: seen)) as [Hn Hi]. split.
      * cbn [map]. constructor; [|exact Hn]. intros Hx.
        apply in_map_iff in Hx as (r & Hu & Hr). destruct (Hi r Hr) as [Hns _].
        apply Hns. left. symmetry. exact Hu.
      * intros r [<- | Hr]; [split; [exact E|left; reflexivity]|].
        destruct (Hi r Hr) as [Hns Hin]. split; [|right; exact Hin].
        intros Hs. apply Hns. right. exact Hs.
Qed.

(** Among rows of one URL the first one is the one that stays. *)
Lemma dedup_from_first seen pre r rest x :
  (forall y, In y pre -> URL y <> URL r) ->
  ~ In (URL r) seen ->
  In x (drop_duplicates_from seen (pre ++ r :: rest)) ->
  URL x = URL r -> x = r.
Proof.
  revert seen. induction pre as [|y pre IH]; intros seen Hpre Hseen.
  - cbn [app drop_duplicates_from].
    rewrite bool_decide_eq_false_2 by (rewrite list_elem_of_In; exact Hseen).
    intros [<- | Hx] Hu; [reflexivity|].
    destruct (dedup_from_spec (URL r :: seen) rest) as [_ Hi].
    destruct (Hi x Hx) as [Hns _]. exfalso. apply Hns. left. symmetry. exact Hu.
  - cbn [app drop_duplicates_from].
    assert (Hy : URL y <> URL r) by (apply Hpre; left; reflexivity).
    assert (Hpre' : forall z, In z pre -> URL z <> URL r)
      by (intros z Hz; apply Hpre; right; exact Hz).
    destruct (bool_decide (URL y ∈ seen)).
    + apply IH; assumption.
    + intros [<- | Hx] Hu; [contradiction|].
      apply (IH (URL y :: seen)); try assumption.
      intros [H|H]; [contradiction|exact (Hseen H)].
Qed.

Lemma NoDup_map_filter {A B} (f : A -> B) (p : A -> bool) l :
  List.NoDup (map f l) -> List.NoDup (map f (List.filter p l)).
Proof.
  induction l as [|a l IH]; cbn [map List.filter]; [auto|].
  intros H. apply List.NoDup_cons_iff in H as [Hn Hd].
  destruct (p a); [|auto]. cbn [map]. constructor; [|auto].
  intros Hin. apply Hn. apply in_map_iff in Hin as (x & Hx & Hi).
  apply filter_In in Hi as [Hi _]. apply in_map_iff. eauto.
Qed.

Lemma screened_rows bronze flag :
  rows (screened bronze flag) =
  List.filter (fun l => negb (flag && is_shop_link (URL l)))
              (drop_duplicates_from [] (rows bronze)).
Proof.
  unfold screened. cbv zeta. destruct flag; cbn [andb negb rows drop_shop drop_duplicates with_rows].
  - reflexivity.
  - induction (drop_duplicates_from [] (rows bronze)) as [|a l IH]; [reflexivity|].
    cbn [List.filter]. rewrite <- IH. reflexivity.
Qed.

Lemma screened_columns bronze flag :
  has_price (screened bronze flag) = has_price bronze /\
  has_currency (screened bronze flag) = has_currency bronze.
Proof. unfold screened. destruct flag; split; reflexivity. Qed.

Lemma tidy_urls df : map URL (rows (tidy df)) = map URL (rows df).
Proof.
  unfold tidy, create_derived_features, standardize_series, clean_condition.
  cbn [rows with_rows]. rewrite !map_map. reflexivity.
Qed.

Lemma tidy_columns df :
  has_price (tidy df) = has_price df /\ has_currency (tidy df) = has_currency df.
Proof. split; reflexivity. Qed.

Lemma clean_mileage_typed_urls mo co df out :
  clean_mileage_typed mo co df = Ok out ->
  map URL (rows out) = map URL (List.filter kept (rows df)).
Proof.
  intros Hrun. destruct (clean_mileage_typed_table mo co df out Hrun) as (_ & _ & _ & _ & H).
  induction H as [|l l' ls ls' (c & _ & ->) _ IH]; [reflexivity|].
  cbn [map]. rewrite IH. reflexivity.
Qed.

Lemma clean_mileage_with_raises {A} (df : list (BronzeToSilver.RawRow * A)) r a e :
  In (r, a) df -> row_outcome r = Some (Raise e) ->
  clean_mileage_with df = Raise ValueError.
Proof.
  induction df as [|[r0 a0] df IH]; intros [] Hr.
  - injection H as -> ->. rewrite clean_mileage_with_cons, Hr.
    rewrite (row_outcome_raises r e Hr). reflexivity.
  - rewrite clean_mileage_with_cons. specialize (IH H Hr).
    destruct (row_outcome r0) as [[c|e0]|] eqn:E0.
    + rewrite IH. reflexivity.
    + rewrite (row_outcome_raises r0 e0 E0). reflexivity.
    + exact IH.
Qed.

Section Pandas.
Variable apply_on_empty : result unit.

Lemma convert_prices_eq df rates w :
  convert_prices_to_eur apply_on_empty df rates w =
  let fetched := match rates with
                 | Some r => (r, w)
                 | None => fetch_latest_rates "EUR" [] true w
                 end in
  (if negb (has_price df) || negb (has_currency df) then Ok df
   else match rows df with
        | [] => rbind apply_on_empty (fun _ => Ok df)
        | _ => Ok (with_rows df (map (fun l => set_price_in_eur l (eur_price (fst fetched) l))
                                     (rows df)))
        end,
   snd fetched).
Proof.
  unfold convert_prices_to_eur, bind. cbv zeta.
  destruct rates as [r|]; [unfold ret at 1|destruct (fetch_latest_rates _ _ _ w) as [r w1]];
    cbn [fst snd];
    (destruct (negb (has_price df) || negb (has_currency df)); [reflexivity|]);
    (destruct (rows df) as [|l ls]; [reflexivity|]);
    rewrite mapM_convert_row; reflexivity.
Qed.

Lemma process_bronze_eq bronze flag w :
  process_bronze_to_silver apply_on_empty bronze flag w =
  if flag && negb (BronzeToSilver.is_object (map URL (rows bronze)))
  then (Raise AttributeError, w)
  else
    match clean_mileage_typed (BronzeToSilver.is_object (map Mileage (rows bronze)))
                              (BronzeToSilver.is_object (map Condition (rows bronze)))
                              (screened bronze flag) with
    | Raise e => (Raise e, w)
    | Ok df => convert_prices_to_eur apply_on_empty (tidy df) None w
    end.
Proof.
  unfold process_bronze_to_silver, screened, tidy, drop_shop. cbv zeta.
  destruct flag; cbn [andb].
  - destruct (BronzeToSilver.is_object (map URL (rows bronze))); cbn [negb]; [|reflexivity].
    destruct (clean_mileage_typed _ _ _); reflexivity.
  - destruct (clean_mileage_typed _ _ _); reflexivity.
Qed.

(** With the rates given, the conversion asks nothing of the world: every
    row gets its own price for EUR, its price times the entry of its
    currency (that of the static table, or 1.0, where the mapping has none)
    otherwise, and NaN where price or currency is missing. *)
Theorem convert_prices_with_rates df rates w :
  has_price df = true -> has_currency df = true -> rows df <> [] ->
  convert_prices_to_eur apply_on_empty df (Some rates) w =
  (Ok (with_rows df (map (fun l => set_price_in_eur l (eur_price rates l)) (rows df))), w).
Proof.
  intros Hp Hc Hne. rewrite convert_prices_eq. cbv zeta. cbn [fst snd].
  rewrite Hp, Hc. cbn [negb orb]. destruct (rows df); [contradiction|reflexivity].
Qed.

Lemma convert_prices_ok df w out w' :
  convert_prices_to_eur apply_on_empty df None w = (Ok out, w') ->
  w' = snd (fetch_latest_rates "EUR" [] true w) /\
  map URL (rows out) = map URL (rows df) /\
  (has_price df = true -> has_currency df = true ->
   rows out = map (fun l => set_price_in_eur l
                              (eur_price (fst (fetch_latest_rates "EUR" [] true w)) l))
                  (rows df)).
Proof.
  rewrite convert_prices_eq. cbv zeta. intros H.
  assert (Hw : w' = snd (fetch_latest_rates "EUR" [] true w)) by congruence.
  split; [exact Hw|]. clear Hw.
  destruct (negb (has_price df) || negb (has_currency df)) eqn:Ecol.
  - assert (out = df) by congruence. subst out. split; [reflexivity|].
    intros Hp Hc. rewrite Hp, Hc in Ecol. discriminate.
  - destruct (rows df) as [|l ls] eqn:Er.
    + destruct apply_on_empty; cbn [rbind] in H; [|discriminate].
      assert (out = df) by congruence. subst out. rewrite Er. auto.
    + match type of H with (Ok ?t, _) = _ => assert (Ho : out = t) by congruence end.
      subst out. cbn [rows with_rows]. rewrite map_map. split; reflexivity.
Qed.

Lemma process_ok bronze flag w out w' :
  process_bronze_to_silver apply_on_empty bronze flag w = (Ok out, w') ->
  exists mo co df, clean_mileage_typed mo co (screened bronze flag) = Ok df /\
    w' = snd (fetch_latest_rates "EUR" [] true w) /\
    map URL (rows out) = map URL (rows df) /\
    (has_price bronze = true -> has_currency bronze = true ->
     rows out = map (fun l => set_price_in_eur l
                                (eur_price (fst (fetch_latest_rates "EUR" [] true w)) l))
                    (rows (tidy df))).
Proof.
  rewrite process_bronze_eq. destruct (flag && _); [discriminate|].
  destruct (clean_mileage_typed _ _ _) as [df|e] eqn:E; [|discriminate].
  intros H. apply convert_prices_ok in H as (Hw & Hu & Hrows).
  do 2 eexists. exists df. split; [exact E|]. split; [exact Hw|].
  split; [rewrite Hu; apply tidy_urls|].
  destruct (clean_mileage_typed_table _ _ _ _ E) as (_ & _ & Hp & Hc & _).
  destruct (screened_columns bronze flag) as [Hp' Hc'].
  destruct (tidy_columns df) as [Hp2 Hc2].
  intros Hpb Hcb. apply Hrows; congruence.
Qed.

Lemma process_urls bronze flag w out w' :
  process_bronze_to_silver apply_on_empty bronze flag w = (Ok out, w') ->
  map URL (rows out) =
  map URL (List.filter kept (rows (screened bronze flag))).
Proof.
  intros H. destruct (process_ok _ _ _ _ _ H) as (mo & co & df & Hdf & _ & Hu & _).
  rewrite Hu. exact (clean_mileage_typed_urls _ _ _ _ Hdf).
Qed.

(** A run that succeeds asks the provider once, and prices every listing by
    the one mapping it got. *)
Theorem process_single_fetch bronze flag w out w' :
  has_price bronze = true -> has_currency bronze = true ->
  process_bronze_to_silver apply_on_empty bronze flag w = (Ok out, w') ->
  w' = snd (fetch_latest_rates "EUR" [] true w) /\
  forall l, In l (rows out) ->
    price_in_eur l = eur_price (fst (fetch_latest_rates "EUR" [] true w)) l.
Proof.
  intros Hp Hc H. destruct (process_ok _ _ _ _ _ H) as (mo & co & df & _ & Hw & _ & Hrows).
  split; [exact Hw|]. intros l Hl. rewrite (Hrows Hp Hc) in Hl.
  apply in_map_iff in Hl as (l0 & <- & _). reflexivity.
Qed.

Lemma screened_In bronze flag l : In l (rows (screened bronze flag)) -> In l (rows bronze).
Proof.
  rewrite screened_rows. intros H. apply filter_In in H as [H _].
  apply (dedup_from_spec [] (rows bronze)), H.
Qed.

(** One mileage text whose digits-and-commas token holds no digit stops the
    whole run with [ValueError], before the provider is asked: the world is
    untouched.  The columns [Condition] and, when shop links are dropped,
    [URL] of the sheet hold some text, without which [.str] raises
    [AttributeError] first. *)
Theorem process_fails_before_fetch bronze flag w l s num u :
  (flag = true -> BronzeToSilver.is_object (map URL (rows bronze)) = true) ->
  BronzeToSilver.is_object (map Condition (rows bronze)) = true ->
  In l (rows (screened bronze flag)) ->
  Mileage l = Some s ->
  search_mileage s = Some (num, u) ->
  remove_commas num = "" ->
  process_bronze_to_silver apply_on_empty bronze flag w = (Raise ValueError, w).
Proof.
  intros Hurl Hco Hl Hs Hm Hnum. rewrite process_bronze_eq.
  replace (flag && negb (BronzeToSilver.is_object (map URL (rows bronze)))) with false
    by (destruct flag; [rewrite Hurl; reflexivity | reflexivity]).
  rewrite Hco, (is_object_In Mileage (rows bronze) l s (screened_In _ _ _ Hl) Hs).
  unfold clean_mileage_typed. cbn [andb].
  rewrite (clean_mileage_with_raises _ (to_raw l) l ValueError).
  - reflexivity.
  - apply in_map_iff. exists l. auto.
  - exact (row_outcome_commas (to_raw l) s num u Hs Hm Hnum).
Qed.

(** No two listings of the silver table share a URL. *)
Theorem process_urls_distinct bronze flag w out w' :
  process_bronze_to_silver apply_on_empty bronze flag w = (Ok out, w') ->
  List.NoDup (map URL (rows out)).
Proof.
  intros H. rewrite (process_urls _ _ _ _ _ H), screened_rows.
  apply NoDup_map_filter, NoDup_map_filter, dedup_from_spec.
Qed.

(** With [drop_shop_links] no URL of the silver table holds the shop
    address. *)
Theorem process_drops_shop_links bronze w out w' l s :
  process_bronze_to_silver apply_on_empty bronze true w = (Ok out, w') ->
  In l (rows out) -> URL l = Some s ->
  contains SHOP_PATTERN s = false.
Proof.
  intros H Hl Hs.
  assert (Hu : In (URL l) (map URL (rows out))) by (apply in_map; exact Hl).
  rewrite (process_urls _ _ _ _ _ H), screened_rows in Hu.
  apply in_map_iff in Hu as (x & Hx & Hin).
  apply filter_In in Hin as [Hin _]. apply filter_In in Hin as [_ Hshop].
  cbn [andb] in Hshop. rewrite Hx, Hs in Hshop. cbn [is_shop_link] in Hshop.
  apply negb_true_iff in Hshop.
  destruct (contains SHOP_PATTERN s) eqn:Ec; [|reflexivity].
  rewrite (contains_re_search SHOP_PATTERN s) in Hshop; [discriminate|reflexivity|exact Ec].
Qed.

(** Duplicates go before the mileage is read, so the first row of a URL
    decides for all of them: when it has no mileage reading, the listing is
    not in the silver table, whatever the later rows of that URL hold. *)
Theorem first_occurrence_decides bronze pre r rest flag w out w' :
  rows bronze = (pre ++ r :: rest)%list ->
  (forall y, In y pre -> URL y <> URL r) ->
  kept r = false ->
  process_bronze_to_silver apply_on_empty bronze flag w = (Ok out, w') ->
  forall l, In l (rows out) -> URL l <> URL r.
Proof.
  intros Hrows Hpre Hkept H l Hl Hu.
  assert (Hin : In (URL l) (map URL (rows out))) by (apply in_map; exact Hl).
  rewrite (process_urls _ _ _ _ _ H), screened_rows, Hrows in Hin.
  apply in_map_iff in Hin as (x & Hx & Hin).
  apply filter_In in Hin as [Hin Hk]. apply filter_In in Hin as [Hin _].
  assert (x = r).
  { apply (dedup_from_first [] pre r rest x Hpre); [intros []|exact Hin|congruence]. }
  subst x. congruence.
Qed.

End Pandas.

Lemma clean_mileage_keeps_order_witness :
  exists out,
    clean_mileage (table_of [no_reading; boxster; barn_find]) = Ok out /\
    Forall2 (fun l l' => l' = set_mileage l (mileage_value l') (mileage_unit l') (Mileage_km l'))
            (List.filter kept (rows (table_of [no_reading; boxster; barn_find]))) (rows out).
Proof.
  eexists. split; [vm_compute; reflexivity|].
  apply (clean_mileage_keeps_order (table_of [no_reading; boxster; barn_find])).
  vm_compute. reflexivity.
Defined.

Lemma miles_keep_their_unit_witness :
  exists out l',
    clean_mileage (table_of [boxster]) = Ok out /\ In l' (rows out) /\
    mileage_unit l' = Some "mi" /\
    exists x, float_of_str (remove_commas "12,500") = Ok x /\
              Mileage_km l' = (if String.eqb "mi" "mi"
                               then fmul x BronzeToSilver.KM_PER_MILE else x) /\
              mileage_value l' = Mileage_km l'.
Proof.
  eexists. eexists. split; [vm_compute; reflexivity|].
  split; [left; reflexivity|].
  eapply (miles_keep_their_unit (table_of [boxster]) _ _ "12,500 mi" "12,500" "mi").
  - vm_compute. reflexivity.
  - left. reflexivity.
  - reflexivity.
  - vm_compute. reflexivity.
Defined.

Lemma tidy_flags_witness :
  exists l, In l (rows (table_of [boxster; barn_find])) /\
    URL (set_derived (set_series (set_condition barn_find (Some "Fully restored") (Num 0)
                                    (Str "Unknown") (Str "Unknown")) (Str "987")) 0 1) = URL l /\
    is_fully_restored
      (set_derived (set_series (set_condition barn_find (Some "Fully restored") (Num 0)
                                  (Str "Unknown") (Str "Unknown")) (Str "987")) 0 1)
    = Z.b2z (BronzeToSilver.fully_restored (Condition l)) /\
    (owners_known
       (set_derived (set_series (set_condition barn_find (Some "Fully restored") (Num 0)
                                   (Str "Unknown") (Str "Unknown")) (Str "987")) 0 1) = 0%Z
     <-> owners_unknown (Number_of_vehicle_owners l)) /\
    (owners_known
       (set_derived (set_series (set_condition barn_find (Some "Fully restored") (Num 0)
                                   (Str "Unknown") (Str "Unknown")) (Str "987")) 0 1) = 0%Z \/
     owners_known
       (set_derived (set_series (set_condition barn_find (Some "Fully restored") (Num 0)
                                   (Str "Unknown") (Str "Unknown")) (Str "987")) 0 1) = 1%Z) /\
    (forall z, Number_of_vehicle_owners l = Num z ->
       owners_known
         (set_derived (set_series (set_condition barn_find (Some "Fully restored") (Num 0)
                                     (Str "Unknown") (Str "Unknown")) (Str "987")) 0 1) = 1%Z).
Proof.
  apply (tidy_flags (table_of [boxster; barn_find])).
  right. left. vm_compute. reflexivity.
Defined.

Lemma convert_prices_with_rates_witness :
  convert_prices_to_eur (Raise ValueError) (table_of [boxster; barn_find])
    (Some usd_only) fresh_start =
  (Ok (with_rows (table_of [boxster; barn_find])
         (map (fun l => set_price_in_eur l (eur_price usd_only l))
              (rows (table_of [boxster; barn_find])))), fresh_start).
Proof.
  apply (convert_prices_with_rates (Raise ValueError) (table_of [boxster; barn_find])
           usd_only fresh_start).
  - reflexivity.
  - reflexivity.
  - discriminate.
Defined.

Lemma process_single_fetch_witness :
  exists out w',
    process_bronze_to_silver (Ok tt) bronze_sample true fresh_start = (Ok out, w') /\
    w' = snd (fetch_latest_rates "EUR" [] true fresh_start) /\
    forall l, In l (rows out) ->
      price_in_eur l = eur_price (fst (fetch_latest_rates "EUR" [] true fresh_start)) l.
Proof.
  eexists. eexists. split; [vm_compute; reflexivity|].
  apply (process_single_fetch (Ok tt) bronze_sample true fresh_start).
  - reflexivity.
  - reflexivity.
  - vm_compute. reflexivity.
Defined.

Lemma process_fails_before_fetch_witness :
  process_bronze_to_silver (Ok tt) (table_of [boxster; no_digits]) true fresh_start
  = (Raise ValueError, fresh_start).
Proof.
  apply (process_fails_before_fetch (Ok tt) (table_of [boxster; no_digits]) true fresh_start
           no_digits ", km" "," "km").
  - reflexivity.
  - reflexivity.
  - right. left. reflexivity.
  - reflexivity.
  - vm_compute. reflexivity.
  - reflexivity.
Defined.

Lemma process_urls_distinct_witness :
  exists out w',
    process_bronze_to_silver (Ok tt) bronze_sample false fresh_start = (Ok out, w') /\
    List.NoDup (map URL (rows out)).
Proof.
  eexists. eexists. split; [vm_compute; reflexivity|].
  eapply (process_urls_distinct (Ok tt) bronze_sample false fresh_start _
           (snd (process_bronze_to_silver (Ok tt) bronze_sample false fresh_start))).
  vm_compute. reflexivity.
Defined.

Lemma process_drops_shop_links_witness :
  exists out w' l,
    process_bronze_to_silver (Ok tt) bronze_sample true fresh_start = (Ok out, w') /\
    In l (rows out) /\
    contains SHOP_PATTERN "https://www.elferspot.com/en/car/356-7" = false.
Proof.
  eexists. eexists. eexists. split; [vm_compute; reflexivity|].
  split; [left; reflexivity|].
  eapply (process_drops_shop_links (Ok tt) bronze_sample fresh_start _
           (snd (process_bronze_to_silver (Ok tt) bronze_sample true fresh_start)) _
           "https://www.elferspot.com/en/car/356-7").
  - vm_compute. reflexivity.
  - left. reflexivity.
  - reflexivity.
Defined.

Lemma first_occurrence_decides_witness :
  exists out w',
    process_bronze_to_silver (Ok tt) bronze_sample false fresh_start = (Ok out, w') /\
    forall l, In l (rows out) -> URL l <> URL no_reading.
Proof.
  eexists. eexists. split; [vm_compute; reflexivity|].
  eapply (first_occurrence_decides (Ok tt) bronze_sample [] no_reading
           [boxster; barn_find; shop_item; barn_find] false fresh_start _
           (snd (process_bronze_to_silver (Ok tt) bronze_sample false fresh_start))).
  - reflexivity.
  - intros y [].
  - reflexivity.
  - vm_compute. reflexivity.
Defined.

End RecordCleanerFacts.
